(** * eBird hotspot guide: the streaming aggregation pipeline

    A shallow embedding of [processors/checklist_counter.py],
    [processors/species_detector.py] and
    [processors/occurrence_calculator.py], with the constants of
    [config.py], and the properties of the aggregates they build.

    Conventions of the embedding:
    - a Python [int] is a [Z];
    - a Python [float] is a finite binary64 value, kept as a mantissa and a
      binary exponent ([float]); [int / int] and [round(x, n)] are written
      out with their roundings;
    - a Python [dict] is an association list in insertion order ([dict]),
      except the two month-keyed tables, whose order is never observed and
      which are [gmap Z _];
    - a Python [set] of visit identifiers is a [gset string];
    - a raised exception is the [Raise] result of the [result] monad. *)

From stdpp Require Import base option list gmap strings sorting.
From Stdlib Require Import ZArith QArith Lia Ascii String Permutation.

Local Open Scope string_scope.
Local Open Scope Z_scope.

(** ** Exceptions and fallible computations *)

Inductive exn : Type :=
  | ValueError
  | KeyError
  | ZeroDivisionError.

Inductive result (A : Type) : Type :=
  | Ok (a : A)
  | Raise (e : exn).

Arguments Ok {A} a.
Arguments Raise {A} e.

#[global] Instance result_ret : MRet result := fun _ a => Ok a.

#[global] Instance result_bind : MBind result := fun _ _ k r =>
  match r with
  | Ok a => k a
  | Raise e => Raise e
  end.

(** ** Python floats

    A finite binary64 value [mantissa * 2 ^ exponent].  Zero is any float
    with mantissa zero; the sign of zero is not observed by the program. *)

Record float : Type := Float { mantissa : Z; exponent : Z }.

Definition float_to_Q (x : float) : Q :=
  if 0 <=? exponent x
  then inject_Z (mantissa x * 2 ^ exponent x)
  else Qmake (mantissa x) (Z.to_pos (2 ^ (- exponent x))).

Definition float_lt (x y : float) : Prop := (float_to_Q x < float_to_Q y)%Q.
Definition float_eq (x y : float) : Prop := (float_to_Q x == float_to_Q y)%Q.

Definition float_ltb (x y : float) : bool :=
  negb (Qle_bool (float_to_Q y) (float_to_Q x)).
Definition float_eqb (x y : float) : bool :=
  Qeq_bool (float_to_Q x) (float_to_Q y).

(** Round [num / den] to the nearest integer, ties to the even one
    ([den] positive). *)
Definition round_half_even (num den : Z) : Z :=
  let q := num / den in
  let r := num mod den in
  if 2 * r <? den then q
  else if den <? 2 * r then q + 1
  else if Z.even q then q else q + 1.

(** [⌊log2 (a / b)⌋] for positive [a] and [b]. *)
Definition floor_log2_ratio (a b : Z) : Z :=
  let k := Z.log2 a - Z.log2 b in
  if a * 2 ^ Z.max 0 (- k) <? b * 2 ^ Z.max 0 k then k - 1 else k.

(** The binary64 nearest to [a / b] ([b] positive): a 53-bit mantissa,
    rounded to nearest, ties to even.  The quotients of the program are far
    inside the normal range, so neither overflow nor gradual underflow is
    modelled. *)
Definition float_of_ratio (a b : Z) : float :=
  if a =? 0 then Float 0 0
  else
    let e := floor_log2_ratio (Z.abs a) b - 52 in
    Float (round_half_even (a * 2 ^ Z.max 0 (- e)) (b * 2 ^ Z.max 0 e)) e.

(** [a / b] on two Python ints. *)
Definition true_div (a b : Z) : result float :=
  if b =? 0 then Raise ZeroDivisionError
  else Ok (float_of_ratio (a * Z.sgn b) (Z.abs b)).

(** [round(x, ndigits)] on a float, for [ndigits >= 0]: CPython rounds the
    exact value of [x] to [ndigits] decimal places, ties to even, and
    returns the binary64 nearest to that decimal. *)
Definition round_digits (x : float) (ndigits : Z) : Z :=
  round_half_even (mantissa x * 10 ^ ndigits * 2 ^ Z.max 0 (exponent x))
                  (2 ^ Z.max 0 (- exponent x)).

Definition py_round (x : float) (ndigits : Z) : float :=
  float_of_ratio (round_digits x ndigits) (10 ^ ndigits).

(** [int(x)] on a float: truncation towards zero. *)
Definition float_trunc (x : float) : Z :=
  if 0 <=? exponent x then mantissa x * 2 ^ exponent x
  else Z.quot (mantissa x) (2 ^ (- exponent x)).

(** ** Cells of the observation-count column

    What [row['OBSERVATION COUNT']] can hold once pandas has read the
    column: a string (a column that holds the sentinel), an integer, a
    float, or the missing value. *)

Inductive cell : Type :=
  | CStr (s : string)
  | CInt (z : Z)
  | CFloat (x : float)
  | CNaN.

(** [int(s)] on a string, base 10, ASCII: surrounding white space, an
    optional sign, then digits with single underscores allowed between
    them. *)
Definition is_space (a : ascii) : bool :=
  let n := Z.of_nat (nat_of_ascii a) in
  ((9 <=? n) && (n <=? 13)) || ((28 <=? n) && (n <=? 32)).

Definition digit_of (a : ascii) : option Z :=
  let n := Z.of_nat (nat_of_ascii a) in
  if (48 <=? n) && (n <=? 57) then Some (n - 48) else None.

Fixpoint lstrip (cs : list ascii) : list ascii :=
  match cs with
  | c :: cs' => if is_space c then lstrip cs' else cs
  | [] => []
  end.

Definition strip (cs : list ascii) : list ascii :=
  rev (lstrip (rev (lstrip cs))).

Fixpoint parse_digits (acc : Z) (after_digit : bool) (cs : list ascii)
  : option Z :=
  match cs with
  | [] => if after_digit then Some acc else None
  | c :: cs' =>
      match digit_of c with
      | Some d => parse_digits (10 * acc + d) true cs'
      | None =>
          if Ascii.eqb c "_"%char && after_digit
          then parse_digits acc false cs'
          else None
      end
  end.

Definition int_of_string (s : string) : option Z :=
  match strip (list_ascii_of_string s) with
  | "+"%char :: cs => parse_digits 0 false cs
  | "-"%char :: cs => Z.opp <$> parse_digits 0 false cs
  | cs => parse_digits 0 false cs
  end.

(** [int(obs_count)]; [ValueError] is what the caller catches. *)
Definition py_int (c : cell) : result Z :=
  match c with
  | CStr s => match int_of_string s with
              | Some z => Ok z
              | None => Raise ValueError
              end
  | CInt z => Ok z
  | CFloat x => Ok (float_trunc x)
  | CNaN => Raise ValueError
  end.

(** [obs_count != 'X' and pd.notna(obs_count)] *)
Definition has_count (c : cell) : bool :=
  match c with
  | CStr s => negb (String.eqb s "X")
  | CInt _ | CFloat _ => true
  | CNaN => false
  end.

(** ** Python dicts in insertion order *)

Section Dict.
Context {K V : Type} `{EqDecision K}.

Definition dict_get (k : K) (d : list (K * V)) : option V :=
  snd <$> List.find (fun kv => bool_decide (fst kv = k)) d.

(** [d[k] = v]: an existing key keeps its place, a new one goes last. *)
Fixpoint dict_set (k : K) (v : V) (d : list (K * V)) : list (K * V) :=
  match d with
  | [] => [(k, v)]
  | (k', v') :: d' =>
      if decide (k' = k) then (k, v) :: d' else (k', v') :: dict_set k v d'
  end.

Definition dict_keys (d : list (K * V)) : list K := map fst d.
End Dict.

Abbreviation dict K V := (list (K * V)).

Definition dict_getitem {K V : Type} `{EqDecision K}
    (k : K) (d : dict K V) : result V :=
  match dict_get k d with
  | Some v => Ok v
  | None => Raise KeyError
  end.

(** [m[k]] on a month-keyed table. *)
Definition map_getitem {V : Type} (k : Z) (m : gmap Z V) : result V :=
  match m !! k with
  | Some v => Ok v
  | None => Raise KeyError
  end.

(** A [for] loop whose body may raise. *)
Fixpoint for_each {S A : Type} (body : S → A → result S) (s : S) (l : list A)
  : result S :=
  match l with
  | [] => Ok s
  | a :: l' => s' ← body s a; for_each body s' l'
  end.

(** What a run hands back: the mapping, or nothing when it was aborted. *)
Definition returned {A : Type} (r : result A) : option A :=
  match r with
  | Ok a => Some a
  | Raise _ => None
  end.

(** ** Dates

    The [OBSERVATION DATE] cell as [pd.to_datetime] sees it: a calendar
    date, or text it rejects. *)

Inductive date_cell : Type :=
  | Timestamp (year month day : Z)
  | Unparsable (text : string).

(** [pd.to_datetime(cell).month]; a month outside 1..12 is no date. *)
Definition month_of (d : date_cell) : result Z :=
  match d with
  | Timestamp _ m _ =>
      if (1 <=? m) && (m <=? 12) then Ok m else Raise ValueError
  | Unparsable _ => Raise ValueError
  end.

(** [range(1, 13)] *)
Definition months : list Z := seqZ 1 12.

(** ** The accumulated records *)

Module Data.

(** One value of [hotspot_data]. *)
Record hotspot : Type := Hotspot {
  name : string;
  latitude : float;
  longitude : float;
  total_checklists : Z;
  monthly_checklists : gmap Z Z;
}.

(** One value of [species_detections[species]]. *)
Record detection : Type := Detection {
  scientific_name : option string;
  checklist_ids : gset string;
  monthly_checklist_ids : gmap Z (gset string);
  total_count : Z;
  max_count : Z;
}.

End Data.
Import Data.

(** [sum(d.values())] of a month-keyed table of counts. *)
Definition sum_values (m : gmap Z Z) : Z :=
  map_fold (fun _ v acc => v + acc) 0 m.

(** ** processors/checklist_counter.py *)

Module ChecklistCounter.

(** A row of the sampling file, with the columns of [SAMPLING_COLS].
    [ALL SPECIES REPORTED] is read as a nullable [Int64]. *)
Record row : Type := Row {
  LOCALITY_ID : string;
  LOCALITY : string;
  LOCALITY_TYPE : string;
  LATITUDE : float;
  LONGITUDE : float;
  OBSERVATION_DATE : date_cell;
  SAMPLING_EVENT_IDENTIFIER : string;
  ALL_SPECIES_REPORTED : option Z;
}.

(** [(chunk['LOCALITY TYPE'] == 'H') & (chunk['ALL SPECIES REPORTED'] == 1)] *)
Definition mask (r : row) : bool :=
  String.eqb (LOCALITY_TYPE r) "H"
  && bool_decide (ALL_SPECIES_REPORTED r = Some 1).

(** The record created at the first qualifying visit to a location. *)
Definition new_hotspot (r : row) : hotspot :=
  {| name := LOCALITY r;
     latitude := LATITUDE r;
     longitude := LONGITUDE r;
     total_checklists := 0;
     monthly_checklists := list_to_map ((fun m => (m, 0)) <$> months) |}.

(** The body of the [iterrows] loop. *)
Definition add_row (hotspot_data : dict string hotspot) (rm : row * Z)
  : result (dict string hotspot) :=
  let (r, month) := rm in
  let loc_id := LOCALITY_ID r in
  let hotspot_data :=
    match dict_get loc_id hotspot_data with
    | None => dict_set loc_id (new_hotspot r) hotspot_data
    | Some _ => hotspot_data
    end in
  (* hotspot_data[loc_id]['total_checklists'] += 1 *)
  h ← dict_getitem loc_id hotspot_data;
  let hotspot_data :=
    dict_set loc_id
      (Hotspot (name h) (latitude h) (longitude h)
               (total_checklists h + 1) (monthly_checklists h))
      hotspot_data in
  (* hotspot_data[loc_id]['monthly_checklists'][month] += 1 *)
  h ← dict_getitem loc_id hotspot_data;
  c ← map_getitem month (monthly_checklists h);
  Ok (dict_set loc_id
        (Hotspot (name h) (latitude h) (longitude h)
                 (total_checklists h) (<[month := c + 1]> (monthly_checklists h)))
        hotspot_data).

(** [filtered['month'] = pd.to_datetime(filtered['OBSERVATION DATE']).dt.month]:
    the whole column is parsed before any row is used. *)
Definition with_months (filtered : list row) : result (list (row * Z)) :=
  mapM (fun r => m ← month_of (OBSERVATION_DATE r); Ok (r, m)) filtered.

(** The body of the loop over chunks. *)
Definition process_chunk (hotspot_data : dict string hotspot) (chunk : list row)
  : result (dict string hotspot) :=
  let filtered := List.filter mask chunk in
  filtered ← with_months filtered;
  for_each add_row hotspot_data filtered.

(** The file is given as the chunks [pd.read_csv] yields. *)
Definition count_checklists_per_hotspot (chunks : list (list row))
  : result (dict string hotspot) :=
  for_each process_chunk [] chunks.

End ChecklistCounter.

(** ** processors/species_detector.py *)

Module SpeciesDetector.

(** A row of the observations file, with the columns of [MAIN_COLS]. *)
Record row : Type := Row {
  COMMON_NAME : string;
  SCIENTIFIC_NAME : string;
  CATEGORY : string;
  LOCALITY_ID : string;
  LOCALITY_TYPE : string;
  SAMPLING_EVENT_IDENTIFIER : string;
  ALL_SPECIES_REPORTED : option Z;
  OBSERVATION_DATE : date_cell;
  OBSERVATION_COUNT : cell;
}.

Definition mask (r : row) : bool :=
  String.eqb (LOCALITY_TYPE r) "H"
  && bool_decide (ALL_SPECIES_REPORTED r = Some 1)
  && String.eqb (CATEGORY r) "species".

(** The default of the nested [defaultdict]. *)
Definition new_detection : detection :=
  {| scientific_name := None;
     checklist_ids := ∅;
     monthly_checklist_ids := list_to_map ((fun m => (m, ∅)) <$> months);
     total_count := 0;
     max_count := 0 |}.

(** The [try] block on the observation count. *)
Definition add_count (obs_count : cell) (data : detection) : detection :=
  if has_count obs_count then
    match py_int obs_count with
    | Ok count =>
        Detection (scientific_name data) (checklist_ids data)
                  (monthly_checklist_ids data)
                  (total_count data + count)
                  (Z.max (max_count data) count)
    | Raise _ => data
    end
  else data.

(** What one row does to [data = species_detections[species][loc_id]]. *)
Definition update (r : row) (month : Z) (data : detection) : result detection :=
  let checklist_id := SAMPLING_EVENT_IDENTIFIER r in
  (* data['scientific_name'] = sci_name *)
  let sci := Some (SCIENTIFIC_NAME r) in
  (* data['checklist_ids'].add(checklist_id) *)
  let ids := {[checklist_id]} ∪ checklist_ids data in
  (* data['monthly_checklist_ids'][month].add(checklist_id) *)
  month_ids ← map_getitem month (monthly_checklist_ids data);
  let monthly := <[month := {[checklist_id]} ∪ month_ids]> (monthly_checklist_ids data) in
  Ok (add_count (OBSERVATION_COUNT r)
        (Detection sci ids monthly (total_count data) (max_count data))).

(** The body of the [iterrows] loop; the two [default]s are the entries
    the [defaultdict]s create on first access. *)
Definition add_row (species_detections : dict string (dict string detection))
    (rm : row * Z) : result (dict string (dict string detection)) :=
  let (r, month) := rm in
  let species := COMMON_NAME r in
  let loc_id := LOCALITY_ID r in
  let hotspots := default [] (dict_get species species_detections) in
  let data := default new_detection (dict_get loc_id hotspots) in
  data ← update r month data;
  Ok (dict_set species (dict_set loc_id data hotspots) species_detections).

Definition with_months (filtered : list row) : result (list (row * Z)) :=
  mapM (fun r => m ← month_of (OBSERVATION_DATE r); Ok (r, m)) filtered.

Definition process_chunk (species_detections : dict string (dict string detection))
    (chunk : list row) : result (dict string (dict string detection)) :=
  let filtered := List.filter mask chunk in
  filtered ← with_months filtered;
  for_each add_row species_detections filtered.

Definition count_species_detections (chunks : list (list row))
  : result (dict string (dict string detection)) :=
  for_each process_chunk [] chunks.

End SpeciesDetector.

(** ** processors/occurrence_calculator.py, with the constants of config.py *)

Module OccurrenceCalculator.

Definition MIN_CHECKLISTS_THRESHOLD : Z := 10.
Definition HIGH_CONFIDENCE_MIN : Z := 100.
Definition MEDIUM_CONFIDENCE_MIN : Z := 30.
Definition RATE_DECIMAL_PLACES : Z := 4.

Definition SEASONS : dict string (list Z) :=
  [ ("spring", [3; 4; 5]);
    ("summer", [6; 7]);
    ("fall", [8; 9; 10; 11]);
    ("winter", [12; 1; 2]) ].

Record SpeciesAtHotspot : Type := mkSpeciesAtHotspot {
  locality_id : string;
  hotspot_name : string;
  latitude : float;
  longitude : float;
  detection_count : Z;
  total_checklists : Z;
  occurrence_rate : float;
  avg_count : option float;
  max_count : option Z;
  seasonal_rates : dict string float;
  monthly_rates : dict Z float;
  confidence_level : string;
}.

Record SpeciesGuide : Type := mkSpeciesGuide {
  common_name : string;
  scientific_name : string;
  total_detections : Z;
  total_hotspots_detected : Z;
  hotspots : list SpeciesAtHotspot;
}.

Definition get_months_for_season (season : string) : list Z :=
  default [] (dict_get season SEASONS).

Definition determine_confidence (checklist_count : Z) : string :=
  if HIGH_CONFIDENCE_MIN <=? checklist_count then "high"
  else if MEDIUM_CONFIDENCE_MIN <=? checklist_count then "medium"
  else "low".

(** [sum(...)] of Python ints. *)
Definition py_sum (l : list Z) : Z := fold_left Z.add l 0.

(** [sum(hotspot['monthly_checklists'].get(m, 0) for m in months)] *)
Definition checklists_in (h : hotspot) (ms : list Z) : Z :=
  py_sum ((fun m => default 0 (Data.monthly_checklists h !! m)) <$> ms).

(** [sum(len(detection_data['monthly_checklist_ids'].get(m, set())) for m in months)] *)
Definition detections_in (d : detection) (ms : list Z) : Z :=
  py_sum ((fun m => Z.of_nat (size (default ∅ (Data.monthly_checklist_ids d !! m)))) <$> ms).

(** The body of the loop over [SEASONS.items()]. *)
Definition add_seasonal_rate (h : hotspot) (d : detection)
    (seasonal_rates : dict string float) (item : string * list Z)
  : result (dict string float) :=
  let (season_name, ms) := item in
  let seasonal_checklists := checklists_in h ms in
  if 5 <=? seasonal_checklists then
    let seasonal_detections := detections_in d ms in
    rate ← true_div seasonal_detections seasonal_checklists;
    Ok (dict_set season_name (py_round rate RATE_DECIMAL_PLACES) seasonal_rates)
  else Ok seasonal_rates.

(** The body of the loop over [range(1, 13)]. *)
Definition add_monthly_rate (h : hotspot) (d : detection)
    (monthly_rates : dict Z float) (month : Z) : result (dict Z float) :=
  let month_checklists := default 0 (Data.monthly_checklists h !! month) in
  if 3 <=? month_checklists then
    let month_detections :=
      Z.of_nat (size (default ∅ (Data.monthly_checklist_ids d !! month))) in
    rate ← true_div month_detections month_checklists;
    Ok (dict_set month (py_round rate RATE_DECIMAL_PLACES) monthly_rates)
  else Ok monthly_rates.

(** The entry appended for a location that passed the gate. *)
Definition make_entry (loc_id : string) (h : hotspot) (d : detection)
  : result SpeciesAtHotspot :=
  let detection_count := Z.of_nat (size (Data.checklist_ids d)) in
  occurrence_rate ← true_div detection_count (Data.total_checklists h);
  seasonal_rates ← for_each (add_seasonal_rate h d) [] SEASONS;
  monthly_rates ← for_each (add_monthly_rate h d) [] months;
  avg_count ←
    (if (0 <? detection_count) && (0 <? Data.total_count d) then
       avg ← true_div (Data.total_count d) detection_count;
       Ok (Some (py_round avg 1))
     else Ok None);
  let max_count :=
    if 0 <? Data.max_count d then Some (Data.max_count d) else None in
  let confidence := determine_confidence (Data.total_checklists h) in
  Ok {| locality_id := loc_id;
        hotspot_name := Data.name h;
        latitude := Data.latitude h;
        longitude := Data.longitude h;
        detection_count := detection_count;
        total_checklists := Data.total_checklists h;
        occurrence_rate := py_round occurrence_rate RATE_DECIMAL_PLACES;
        avg_count := avg_count;
        max_count := max_count;
        seasonal_rates := seasonal_rates;
        monthly_rates := monthly_rates;
        confidence_level := confidence |}.

(** The two [continue]s: the hotspot a location is rated against, if any. *)
Definition gate (hotspot_data : dict string hotspot) (min_checklists : Z)
    (loc_id : string) : option hotspot :=
  match dict_get loc_id hotspot_data with
  | None => None
  | Some h =>
      if Data.total_checklists h <? min_checklists then None else Some h
  end.

(** The locals of the loop over [hotspot_detections.items()]. *)
Record locals : Type := Locals {
  hotspots_list : list SpeciesAtHotspot;
  total_detections_so_far : Z;
  scientific_name_so_far : option string;
}.

(** The body of the loop over [hotspot_detections.items()]. *)
Definition add_hotspot (hotspot_data : dict string hotspot) (min_checklists : Z)
    (st : locals) (item : string * detection) : result locals :=
  let (loc_id, detection_data) := item in
  match gate hotspot_data min_checklists loc_id with
  | None => Ok st
  | Some h =>
      let scientific_name :=
        match scientific_name_so_far st with
        | None => Data.scientific_name detection_data
        | Some n => Some n
        end in
      let detection_count := Z.of_nat (size (Data.checklist_ids detection_data)) in
      let total_detections := total_detections_so_far st + detection_count in
      entry ← make_entry loc_id h detection_data;
      Ok (Locals (hotspots_list st ++ [entry]) total_detections scientific_name)
  end.

(** [(x.occurrence_rate, x.detection_count) < (y.occurrence_rate, y.detection_count)],
    the comparison of the two sort keys. *)
Definition key_lt (x y : SpeciesAtHotspot) : bool :=
  if float_eqb (occurrence_rate x) (occurrence_rate y)
  then detection_count x <? detection_count y
  else float_ltb (occurrence_rate x) (occurrence_rate y).

(** [list.sort]: a stable sort by [lt]; with [reverse], the list is
    reversed, sorted and reversed again, so that equal keys keep their
    order. *)
Fixpoint insert_sorted {A : Type} (lt : A → A → bool) (x : A) (l : list A)
  : list A :=
  match l with
  | [] => [x]
  | y :: l' => if lt y x then y :: insert_sorted lt x l' else x :: y :: l'
  end.

Definition stable_sort {A : Type} (lt : A → A → bool) (l : list A) : list A :=
  foldr (insert_sorted lt) [] l.

Definition list_sort {A : Type} (lt : A → A → bool) (reverse : bool)
    (l : list A) : list A :=
  if reverse then rev (stable_sort lt (rev l)) else stable_sort lt l.

(** The body of the loop over [species_detections.items()]. *)
Definition add_species (hotspot_data : dict string hotspot) (min_checklists : Z)
    (species_guides : dict string SpeciesGuide)
    (item : string * dict string detection)
  : result (dict string SpeciesGuide) :=
  let (species_name, hotspot_detections) := item in
  st ← for_each (add_hotspot hotspot_data min_checklists)
         (Locals [] 0 None) hotspot_detections;
  let hotspots_list := list_sort key_lt true (hotspots_list st) in
  Ok (dict_set species_name
        {| common_name := species_name;
           scientific_name := default "" (scientific_name_so_far st);
           total_detections := total_detections_so_far st;
           total_hotspots_detected := Z.of_nat (List.length hotspots_list);
           hotspots := hotspots_list |}
        species_guides).

Definition calculate_occurrence_rates (hotspot_data : dict string hotspot)
    (species_detections : dict string (dict string detection))
    (min_checklists : Z) : result (dict string SpeciesGuide) :=
  for_each (add_species hotspot_data min_checklists) [] species_detections.

End OccurrenceCalculator.

(** ** main.py

    Steps 1 to 3 of [main]: the guides handed to the writers of step 4.
    Each file is the sequence of chunks that [pd.read_csv] yields for it. *)

Module Main.

Definition species_guides (sampling_file : list (list ChecklistCounter.row))
    (main_file : list (list SpeciesDetector.row))
  : result (dict string OccurrenceCalculator.SpeciesGuide) :=
  hotspot_data ← ChecklistCounter.count_checklists_per_hotspot sampling_file;
  species_detections ← SpeciesDetector.count_species_detections main_file;
  OccurrenceCalculator.calculate_occurrence_rates hotspot_data species_detections
    OccurrenceCalculator.MIN_CHECKLISTS_THRESHOLD.

End Main.

(** ** config.py: the detection of the two data files

    A directory is the list of the names of its entries, in the order in
    which it is scanned; a path in it is the name of the entry. *)

Module Config.

(** [fnmatch] of a name against a pattern of literal characters and [*],
    as the two patterns of [find_ebird_files] are (case-sensitive, as on
    POSIX); [*] matches any run of characters, the empty one too. *)
Fixpoint fnmatch (pattern name : string) {struct pattern} : bool :=
  match pattern with
  | EmptyString => match name with EmptyString => true | String _ _ => false end
  | String c pattern' =>
      if Ascii.eqb c "*" then
        (fix star (name : string) : bool :=
           fnmatch pattern' name
           || match name with
              | EmptyString => false
              | String _ name' => star name'
              end) name
      else
        match name with
        | EmptyString => false
        | String d name' => Ascii.eqb c d && fnmatch pattern' name'
        end
  end.

(** [data_dir.glob(pattern)] *)
Definition glob (data_dir : list string) (pattern : string) : list string :=
  List.filter (fnmatch pattern) data_dir.

(** [s.endswith(suffix)]: [s] is [suffix], or still ends with it once its
    first character is dropped. *)
Fixpoint endswith (s suffix : string) : bool :=
  String.eqb s suffix
  || match s with
     | EmptyString => false
     | String _ s' => endswith s' suffix
     end.

(** The four [FileNotFoundError]s of [find_ebird_files], by message. *)
Inductive FileNotFoundError : Type :=
  | No_sampling_file
  | Multiple_sampling_files (sampling_files : list string)
  | No_main_file
  | Multiple_main_files (main_files : list string).

Definition find_ebird_files (data_dir : list string)
  : FileNotFoundError + (string * string) :=
  let sampling_files := glob data_dir "*_sampling.txt" in
  match sampling_files with
  | [] => inl No_sampling_file
  | _ :: _ :: _ => inl (Multiple_sampling_files sampling_files)
  | [sampling_file] =>
      let main_files :=
        List.filter (fun f => negb (endswith f "_sampling.txt"))
          (glob data_dir "ebd_*.txt") in
      match main_files with
      | [] => inl No_main_file
      | _ :: _ :: _ => inl (Multiple_main_files main_files)
      | [main_file] => inr (main_file, sampling_file)
      end
  end.

End Config.

(** ** Notions used to state the properties *)

(** The states the visit accumulator goes through: the empty mapping,
    and what the loop body makes of a state already reached. *)
Inductive visited : dict string hotspot → Prop :=
  | visited_start : visited []
  | visited_row hotspot_data rm hotspot_data' :
      visited hotspot_data →
      ChecklistCounter.add_row hotspot_data rm = Ok hotspot_data' →
      visited hotspot_data'.

(** The additivity invariant of one location record. *)
Definition additive (h : hotspot) : Prop :=
  dom (monthly_checklists h) = list_to_set months
  ∧ sum_values (monthly_checklists h) = total_checklists h.

(** [species_detections[species][loc_id]], with the default the
    [defaultdict] would create. *)
Definition detection_at (species loc_id : string)
    (species_detections : dict string (dict string detection)) : detection :=
  default SpeciesDetector.new_detection
    (dict_get loc_id (default [] (dict_get species species_detections))).

(** The locations of one species that pass the two [continue]s, in
    iteration order, each with the hotspot it is rated against. *)
Definition included (hotspot_data : dict string hotspot) (min_checklists : Z)
    (items : dict string detection) : list (string * hotspot * detection) :=
  omap (fun item : string * detection =>
          match OccurrenceCalculator.gate hotspot_data min_checklists (fst item) with
          | Some h => Some (fst item, h, snd item)
          | None => None
          end) items.

(** The value [scientific_name] ends the inner loop with: the first name
    that is not [None] among the included locations. *)
Definition first_name (start : option string)
    (inc : list (string * hotspot * detection)) : option string :=
  fold_left (fun acc x => match acc with
                          | None => scientific_name (snd x)
                          | Some n => Some n
                          end) inc start.

(** The guide built from the locals the inner loop ends with. *)
Definition guide_of (species_name : string) (st : OccurrenceCalculator.locals)
  : OccurrenceCalculator.SpeciesGuide :=
  let hotspots_list :=
    OccurrenceCalculator.list_sort OccurrenceCalculator.key_lt true
      (OccurrenceCalculator.hotspots_list st) in
  {| OccurrenceCalculator.common_name := species_name;
     OccurrenceCalculator.scientific_name :=
       default "" (OccurrenceCalculator.scientific_name_so_far st);
     OccurrenceCalculator.total_detections :=
       OccurrenceCalculator.total_detections_so_far st;
     OccurrenceCalculator.total_hotspots_detected :=
       Z.of_nat (List.length hotspots_list);
     OccurrenceCalculator.hotspots := hotspots_list |}.

(** The visits on which a species was detected in the months [ms]: the
    union of its monthly detection sets. *)
Definition month_ids (d : detection) (m : Z) : gset string :=
  default ∅ (monthly_checklist_ids d !! m).

Definition season_ids (d : detection) (ms : list Z) : gset string :=
  ⋃ (month_ids d <$> ms).

(** The loop over chunks of either aggregator, over its own mask, date
    column and loop body. *)
Definition read_months {R : Type} (date : R → date_cell) (filtered : list R)
  : result (list (R * Z)) :=
  mapM (fun r => m ← month_of (date r); Ok (r, m)) filtered.

Definition run_chunk {R S : Type} (mask : R → bool) (date : R → date_cell)
    (body : S → R * Z → result S) (s : S) (chunk : list R) : result S :=
  filtered ← read_months date (List.filter mask chunk); for_each body s filtered.

(** In an ascending order by [lt], [x] may stand before [y]. *)
Definition may_precede {A : Type} (lt : A → A → bool) (x y : A) : Prop :=
  lt y x = false.

(** ** Sample rows

    A complete checklist at a hotspot, and a species-level record on one,
    as the two files would carry them. *)

Definition visit (loc_id checklist_id : string) (month : Z) : ChecklistCounter.row :=
  {| ChecklistCounter.LOCALITY_ID := loc_id;
     ChecklistCounter.LOCALITY := "Marsh";
     ChecklistCounter.LOCALITY_TYPE := "H";
     ChecklistCounter.LATITUDE := Float 169 (-2);
     ChecklistCounter.LONGITUDE := Float (-335) (-2);
     ChecklistCounter.OBSERVATION_DATE := Timestamp 2023 month 15;
     ChecklistCounter.SAMPLING_EVENT_IDENTIFIER := checklist_id;
     ChecklistCounter.ALL_SPECIES_REPORTED := Some 1 |}.

Definition sighting (species sci_name loc_id checklist_id : string) (month : Z)
    (obs_count : cell) : SpeciesDetector.row :=
  {| SpeciesDetector.COMMON_NAME := species;
     SpeciesDetector.SCIENTIFIC_NAME := sci_name;
     SpeciesDetector.CATEGORY := "species";
     SpeciesDetector.LOCALITY_ID := loc_id;
     SpeciesDetector.LOCALITY_TYPE := "H";
     SpeciesDetector.SAMPLING_EVENT_IDENTIFIER := checklist_id;
     SpeciesDetector.ALL_SPECIES_REPORTED := Some 1;
     SpeciesDetector.OBSERVATION_DATE := Timestamp 2023 month 15;
     SpeciesDetector.OBSERVATION_COUNT := obs_count |}.

(** ** Sample files

    Three hotspots: L1 with 12 January visits, L2 with 9 May visits (one
    short of the default threshold) and L3 with 10 March visits, read in
    two chunks.  The Sora is seen on every visit to L2, on 6 visits to L1
    and on 2 visits to L3; the King Rail only at L2. *)

Definition L1_visits : list string :=
  ["A1"; "A2"; "A3"; "A4"; "A5"; "A6"; "A7"; "A8"; "A9"; "A10"; "A11"; "A12"].
Definition L2_visits : list string :=
  ["B1"; "B2"; "B3"; "B4"; "B5"; "B6"; "B7"; "B8"; "B9"].
Definition L3_visits : list string :=
  ["C1"; "C2"; "C3"; "C4"; "C5"; "C6"; "C7"; "C8"; "C9"; "C10"].

Definition sample_sampling : list (list ChecklistCounter.row) :=
  [ (fun id => visit "L1" id 1) <$> L1_visits;
    ((fun id => visit "L2" id 5) <$> L2_visits)
    ++ ((fun id => visit "L3" id 3) <$> L3_visits) ]%list.

Definition sample_observations : list (list SpeciesDetector.row) :=
  [ (fun id => sighting "Sora" "Porzana sp." "L2" id 5 (CStr "X")) <$> L2_visits;
    ((fun id => sighting "Sora" "Porzana carolina" "L1" id 1 (CStr "X"))
       <$> take 6 L1_visits)
    ++ [ sighting "Sora" "Porzana carolina" "L3" "C1" 3 (CStr "2");
         sighting "Sora" "Porzana carolina" "L3" "C2" 3 (CStr "X");
         sighting "King Rail" "Rallus elegans" "L2" "B1" 5 (CInt 1) ] ]%list.

Definition sample_hotspots : dict string hotspot :=
  default [] (returned (ChecklistCounter.count_checklists_per_hotspot sample_sampling)).

Definition sample_detections : dict string (dict string detection) :=
  default [] (returned (SpeciesDetector.count_species_detections sample_observations)).

Definition sora_at_L1 : OccurrenceCalculator.SpeciesAtHotspot :=
  {| OccurrenceCalculator.locality_id := "L1";
     OccurrenceCalculator.hotspot_name := "Marsh";
     OccurrenceCalculator.latitude := Float 169 (-2);
     OccurrenceCalculator.longitude := Float (-335) (-2);
     OccurrenceCalculator.detection_count := 6;
     OccurrenceCalculator.total_checklists := 12;
     OccurrenceCalculator.occurrence_rate := float_of_ratio 5000 10000;
     OccurrenceCalculator.avg_count := None;
     OccurrenceCalculator.max_count := None;
     OccurrenceCalculator.seasonal_rates := [("winter", float_of_ratio 5000 10000)];
     OccurrenceCalculator.monthly_rates := [(1, float_of_ratio 5000 10000)];
     OccurrenceCalculator.confidence_level := "low" |}.

Definition sora_at_L3 : OccurrenceCalculator.SpeciesAtHotspot :=
  {| OccurrenceCalculator.locality_id := "L3";
     OccurrenceCalculator.hotspot_name := "Marsh";
     OccurrenceCalculator.latitude := Float 169 (-2);
     OccurrenceCalculator.longitude := Float (-335) (-2);
     OccurrenceCalculator.detection_count := 2;
     OccurrenceCalculator.total_checklists := 10;
     OccurrenceCalculator.occurrence_rate := float_of_ratio 2000 10000;
     OccurrenceCalculator.avg_count := Some (float_of_ratio 10 10);
     OccurrenceCalculator.max_count := Some 2;
     OccurrenceCalculator.seasonal_rates := [("spring", float_of_ratio 2000 10000)];
     OccurrenceCalculator.monthly_rates := [(3, float_of_ratio 2000 10000)];
     OccurrenceCalculator.confidence_level := "low" |}.

Definition sora_guide : OccurrenceCalculator.SpeciesGuide :=
  {| OccurrenceCalculator.common_name := "Sora";
     OccurrenceCalculator.scientific_name := "Porzana carolina";
     OccurrenceCalculator.total_detections := 8;
     OccurrenceCalculator.total_hotspots_detected := 2;
     OccurrenceCalculator.hotspots := [sora_at_L1; sora_at_L3] |}.

Definition king_rail_guide : OccurrenceCalculator.SpeciesGuide :=
  {| OccurrenceCalculator.common_name := "King Rail";
     OccurrenceCalculator.scientific_name := "";
     OccurrenceCalculator.total_detections := 0;
     OccurrenceCalculator.total_hotspots_detected := 0;
     OccurrenceCalculator.hotspots := [] |}.

Definition sample_guides : dict string OccurrenceCalculator.SpeciesGuide :=
  [("Sora", sora_guide); ("King Rail", king_rail_guide)].

(** An observations file that lists a checklist the sampling file lacks:
    ten visits to L4, the Sora reported on eleven. *)
Definition L4_visits : list string :=
  ["D1"; "D2"; "D3"; "D4"; "D5"; "D6"; "D7"; "D8"; "D9"; "D10"].

Definition overcount_sampling : list (list ChecklistCounter.row) :=
  [ (fun id => visit "L4" id 6) <$> L4_visits ].

Definition overcount_observations : list (list SpeciesDetector.row) :=
  [ (fun id => sighting "Sora" "Porzana carolina" "L4" id 6 (CStr "X"))
      <$> (L4_visits ++ ["D11"])%list ].

(** An observations file that dates one checklist in two months: six
    March and six April visits to L5, the Sora reported on E1 under both. *)
Definition straddle_sampling : list (list ChecklistCounter.row) :=
  [ ((fun id => visit "L5" id 3) <$> ["E1"; "E2"; "E3"; "E4"; "E5"; "E6"])
    ++ ((fun id => visit "L5" id 4) <$> ["E7"; "E8"; "E9"; "E10"; "E11"; "E12"]) ]%list.

Definition straddle_observations : list (list SpeciesDetector.row) :=
  [ [ sighting "Sora" "Porzana carolina" "L5" "E1" 3 (CStr "X");
      sighting "Sora" "Porzana carolina" "L5" "E1" 4 (CStr "X") ] ].

(** What the sample files leave for L1, for the Sora and for the King
    Rail, and a single record with a numeric count. *)
Definition L1_record : hotspot :=
  {| name := "Marsh";
     latitude := Float 169 (-2);
     longitude := Float (-335) (-2);
     total_checklists := 12;
     monthly_checklists := <[1 := 12]> (list_to_map ((fun m => (m, 0)) <$> months)) |}.

Definition sora_locations : dict string detection :=
  default [] (dict_get "Sora" sample_detections).


Definition seven_soras : SpeciesDetector.row :=
  sighting "Sora" "Porzana carolina" "L1" "A1" 1 (CStr "7").

Definition after_seven_soras : dict string (dict string detection) :=
  default [] (returned (SpeciesDetector.add_row [] (seven_soras, 1))).

(** ** Rows seen by the aggregators *)

(** The qualifying rows of the sampling file at one location. *)
Definition visits_at (loc_id : string) (rows : list ChecklistCounter.row)
  : list ChecklistCounter.row :=
  List.filter (fun r => ChecklistCounter.mask r
                        && String.eqb (ChecklistCounter.LOCALITY_ID r) loc_id) rows.

(** The qualifying rows of the observations file for one species at one
    location. *)
Definition sightings_of (species loc_id : string) (rows : list SpeciesDetector.row)
  : list SpeciesDetector.row :=
  List.filter (fun r => SpeciesDetector.mask r
                        && String.eqb (SpeciesDetector.COMMON_NAME r) species
                        && String.eqb (SpeciesDetector.LOCALITY_ID r) loc_id) rows.

(** The date cell parses, with month [m]. *)
Definition in_month (m : Z) (d : date_cell) : bool :=
  match month_of d with
  | Ok m' => m' =? m
  | Raise _ => false
  end.

Definition dated (d : date_cell) : bool :=
  match month_of d with
  | Ok _ => true
  | Raise _ => false
  end.

(** The number a count cell contributes to the running total, if any. *)
Definition counted (c : cell) : option Z :=
  if has_count c then returned (py_int c) else None.

(** What the visit accumulator holds once it has taken the dated rows
    [rms]: nothing for a location without a row; else the name and the
    coordinates of the location's first row, the number of its rows, and
    per month the number of its rows of that month. *)
Definition counter_holds (rms : list (ChecklistCounter.row * Z))
    (hotspot_data : dict string hotspot) : Prop :=
  ∀ loc_id,
    let here := List.filter
                  (fun rm => String.eqb (ChecklistCounter.LOCALITY_ID (fst rm)) loc_id)
                  rms in
    match here with
    | [] => dict_get loc_id hotspot_data = None
    | rm0 :: _ =>
        ∃ h, dict_get loc_id hotspot_data = Some h
             ∧ name h = ChecklistCounter.LOCALITY (fst rm0)
             ∧ latitude h = ChecklistCounter.LATITUDE (fst rm0)
             ∧ longitude h = ChecklistCounter.LONGITUDE (fst rm0)
             ∧ total_checklists h = Z.of_nat (List.length here)
             ∧ ∀ m c, monthly_checklists h !! m = Some c →
                 c = Z.of_nat (List.length
                                 (List.filter (fun rm => snd rm =? m) here))
    end.

(** [species_detections[species][loc_id]] when both keys are present. *)
Definition detection_lookup (species loc_id : string)
    (species_detections : dict string (dict string detection)) : option detection :=
  match dict_get species species_detections with
  | Some hotspots => dict_get loc_id hotspots
  | None => None
  end.

(** The sum and the maximum (from 0) of the counts that the rows carry. *)
Definition count_sum (rows : list SpeciesDetector.row) : Z :=
  foldr Z.add 0 (omap (fun r => counted (SpeciesDetector.OBSERVATION_COUNT r)) rows).

Definition count_max (rows : list SpeciesDetector.row) : Z :=
  foldr Z.max 0 (omap (fun r => counted (SpeciesDetector.OBSERVATION_COUNT r)) rows).

(** The record the detection accumulator holds for a pair whose dated rows
    are [here], in file order. *)
Definition detection_matches (here : list (SpeciesDetector.row * Z)) (d : detection)
  : Prop :=
  scientific_name d
  = (fun rm => SpeciesDetector.SCIENTIFIC_NAME (fst rm)) <$> last here
  ∧ checklist_ids d
    = list_to_set ((fun rm => SpeciesDetector.SAMPLING_EVENT_IDENTIFIER (fst rm)) <$> here)
  ∧ dom (monthly_checklist_ids d) = list_to_set months
  ∧ (∀ m ids, monthly_checklist_ids d !! m = Some ids →
       ids = list_to_set ((fun rm => SpeciesDetector.SAMPLING_EVENT_IDENTIFIER (fst rm))
                            <$> List.filter (fun rm => snd rm =? m) here))
  ∧ total_count d = count_sum (fst <$> here)
  ∧ max_count d = count_max (fst <$> here).

Definition detector_holds (rms : list (SpeciesDetector.row * Z))
    (species_detections : dict string (dict string detection)) : Prop :=
  ∀ species loc_id,
    let here := List.filter
                  (fun rm => String.eqb (SpeciesDetector.COMMON_NAME (fst rm)) species
                             && String.eqb (SpeciesDetector.LOCALITY_ID (fst rm)) loc_id)
                  rms in
    (detection_lookup species loc_id species_detections = None ↔ here = [])
    ∧ detection_matches here (detection_at species loc_id species_detections).

(** ** Notions for the guides *)

(** The entries that share the sort key of [k]: the same rounded rate and
    the same detection count. *)
Definition same_key (k e : OccurrenceCalculator.SpeciesAtHotspot) : bool :=
  float_eqb (OccurrenceCalculator.occurrence_rate e) (OccurrenceCalculator.occurrence_rate k)
  && (OccurrenceCalculator.detection_count e =? OccurrenceCalculator.detection_count k).

(** The visits of one month recorded for a location, 0 for a month the
    table lacks. *)
Definition month_checklists (h : hotspot) (m : Z) : Z :=
  default 0 (monthly_checklists h !! m).

(** ** Notions for the data files *)

(** The names [find_ebird_files] takes for sampling files and for main
    files. *)
Definition sampling_name (f : string) : Prop :=
  ∃ stem, f = stem ++ "_sampling.txt".

Definition main_name (f : string) : Prop :=
  (∃ stem, f = "ebd_" ++ stem ++ ".txt") ∧ ¬ sampling_name f.

(** [x] is the one element of [l] with the property [P]. *)
Definition sole {A : Type} (P : A → Prop) (x : A) (l : list A) : Prop :=
  ∃ before after,
    l = (before ++ x :: after)%list
    ∧ P x ∧ (∀ y, In y before ∨ In y after → ¬ P y).

(** [l] has two elements with the property [P]. *)
Definition several {A : Type} (P : A → Prop) (l : list A) : Prop :=
  ∃ before x between y after,
    l = (before ++ x :: between ++ y :: after)%list ∧ P x ∧ P y.

(** No [*] in a pattern. *)
Fixpoint literal (pattern : string) : bool :=
  match pattern with
  | EmptyString => true
  | String c pattern' => negb (Ascii.eqb c "*") && literal pattern'
  end.

(** A download directory, and the same with a second sampling file. *)
Definition sample_dir : list string :=
  ["README.txt"; "ebd_US-MI_relJan-2025.txt"; "ebd_US-MI_relJan-2025_sampling.txt";
   "terms_of_use.txt"].

Definition crowded_dir : list string :=
  (sample_dir ++ ["copy_sampling.txt"])%list.

(** * Properties *)

(** ** The primitives on known values *)

(** 0.1 is 0x1.999999999999ap-4. *)
Example float_of_ratio_tenth :
  float_of_ratio 1 10 = Float 7205759403792794 (-56).
Proof. reflexivity. Qed.

(** [round(0.03125, 4) == 0.0312]: an exact tie goes to the even digit. *)
Example py_round_tie :
  py_round (float_of_ratio 1 32) 4 = float_of_ratio 312 10000.
Proof. reflexivity. Qed.

(** [round(2.675, 2) == 2.67]: the binary64 nearest to 2.675 lies below it. *)
Example py_round_below_tie :
  py_round (float_of_ratio 2675 1000) 2 = float_of_ratio 267 100.
Proof. reflexivity. Qed.

Example int_of_string_values :
  int_of_string "12" = Some 12
  ∧ int_of_string " 7 " = Some 7
  ∧ int_of_string "+3" = Some 3
  ∧ int_of_string "-3" = Some (-3)
  ∧ int_of_string "1_000" = Some 1000
  ∧ int_of_string "1__0" = None
  ∧ int_of_string "2.5" = None
  ∧ int_of_string "X" = None
  ∧ int_of_string "" = None.
Proof. repeat split; reflexivity. Qed.

(** Equal keys keep their order under [reverse=True]. *)
Example list_sort_reverse_stable :
  OccurrenceCalculator.list_sort (fun x y : Z * string => fst x <? fst y) true
    [(1, "a"); (2, "b"); (1, "c"); (2, "d")]
  = [(2, "b"); (2, "d"); (1, "a"); (1, "c")].
Proof. reflexivity. Qed.

Example determine_confidence_values :
  OccurrenceCalculator.determine_confidence 100 = "high"
  ∧ OccurrenceCalculator.determine_confidence 99 = "medium"
  ∧ OccurrenceCalculator.determine_confidence 30 = "medium"
  ∧ OccurrenceCalculator.determine_confidence 29 = "low".
Proof. repeat split; reflexivity. Qed.

(** ** The result monad and loops *)

Lemma bind_Ok {A B : Type} (r : result A) (k : A → result B) (b : B) :
  r ≫= k = Ok b → ∃ a, r = Ok a ∧ k a = Ok b.
Proof. destruct r as [a|e]; simpl; [eauto | discriminate]. Qed.

Lemma for_each_app {S A : Type} (body : S → A → result S) (l1 l2 : list A) (s : S) :
  for_each body s (l1 ++ l2) = for_each body s l1 ≫= fun s' => for_each body s' l2.
Proof.
  revert s. induction l1 as [|a l1 IH]; intros s; simpl; [done|].
  destruct (body s a) as [s'|e]; simpl; [apply IH | done].
Qed.

Lemma for_each_invariant {S A : Type} (P : S → Prop) (body : S → A → result S)
    (l : list A) (s s' : S) :
  (∀ s a s', P s → body s a = Ok s' → P s') →
  P s → for_each body s l = Ok s' → P s'.
Proof.
  intros Hstep. revert s. induction l as [|a l IH]; intros s Hs Hrun; simpl in Hrun.
  - by inversion Hrun; subst.
  - apply bind_Ok in Hrun as (s1 & H1 & H2). eauto.
Qed.


(** ** Dicts *)

Section DictFacts.
Context {K V : Type} `{EqDecision K}.
Implicit Types (d : dict K V) (k : K) (v : V).

Lemma dict_get_cons k k' v d :
  dict_get k ((k', v) :: d) = if decide (k' = k) then Some v else dict_get k d.
Proof.
  unfold dict_get. simpl. unfold bool_decide.
  by destruct (decide_rel eq k' k); destruct (decide (k' = k)).
Qed.

Lemma dict_get_set_eq k v d : dict_get k (dict_set k v d) = Some v.
Proof.
  induction d as [|[k' v'] d IH]; simpl.
  - rewrite dict_get_cons. by rewrite decide_True.
  - destruct (decide (k' = k)); rewrite dict_get_cons.
    + by rewrite decide_True.
    + by rewrite decide_False.
Qed.

Lemma dict_get_set_ne k k' v d :
  k ≠ k' → dict_get k' (dict_set k v d) = dict_get k' d.
Proof.
  intros Hne. induction d as [|[k1 v1] d IH]; simpl.
  - rewrite dict_get_cons. by rewrite decide_False.
  - destruct (decide (k1 = k)) as [->|Hk]; rewrite !dict_get_cons.
    + by rewrite !decide_False.
    + destruct (decide (k1 = k')); [done | apply IH].
Qed.

Lemma dict_set_set k v w d : dict_set k v (dict_set k w d) = dict_set k v d.
Proof.
  induction d as [|[k' v'] d IH]; simpl.
  - by rewrite decide_True.
  - destruct (decide (k' = k)); simpl.
    + by rewrite decide_True.
    + rewrite decide_False by done. by rewrite IH.
Qed.

Lemma dict_get_In k v d : dict_get k d = Some v → In (k, v) d.
Proof.
  induction d as [|[k' v'] d IH]; [done|]. rewrite dict_get_cons.
  destruct (decide (k' = k)) as [->|]; intros Hget.
  - left. congruence.
  - right. auto.
Qed.

Lemma Forall_dict_set (P : V → Prop) k v d :
  P v → Forall (fun kv => P (snd kv)) d → Forall (fun kv => P (snd kv)) (dict_set k v d).
Proof.
  intros Hv. induction 1 as [|[k' v'] d Hh Ht IH]; simpl.
  - by repeat constructor.
  - destruct (decide (k' = k)); constructor; auto.
Qed.

Lemma Forall_dict_get (P : V → Prop) k v d :
  Forall (fun kv => P (snd kv)) d → dict_get k d = Some v → P v.
Proof.
  intros Hall Hget. apply dict_get_In in Hget.
  rewrite List.Forall_forall in Hall. apply (Hall _ Hget).
Qed.
End DictFacts.

(** ** The visit accumulator *)

Lemma sum_values_increment (m : gmap Z Z) (k c : Z) :
  m !! k = Some c → sum_values (<[k := c + 1]> m) = sum_values m + 1.
Proof.
  intros Hk. unfold sum_values.
  rewrite <- insert_delete_eq.
  rewrite map_fold_insert_L; [| intros; lia | apply lookup_delete_eq].
  rewrite (map_fold_delete_L _ _ k c m); [lia | intros; lia | done].
Qed.

Lemma new_hotspot_additive (r : ChecklistCounter.row) :
  additive (ChecklistCounter.new_hotspot r).
Proof. split; reflexivity. Qed.

Lemma add_row_additive (hotspot_data hotspot_data' : dict string hotspot)
    (rm : ChecklistCounter.row * Z) :
  Forall (fun kv => additive (snd kv)) hotspot_data →
  ChecklistCounter.add_row hotspot_data rm = Ok hotspot_data' →
  Forall (fun kv => additive (snd kv)) hotspot_data'.
Proof.
  intros Hinv. destruct rm as [r month]. unfold ChecklistCounter.add_row.
  set (loc_id := ChecklistCounter.LOCALITY_ID r).
  set (hd1 := match dict_get loc_id hotspot_data with
              | None => dict_set loc_id (ChecklistCounter.new_hotspot r) hotspot_data
              | Some _ => hotspot_data
              end).
  assert (Hinv1 : Forall (fun kv => additive (snd kv)) hd1).
  { subst hd1. destruct (dict_get loc_id hotspot_data); [done|].
    apply Forall_dict_set; [apply new_hotspot_additive | done]. }
  clearbody hd1. clear Hinv. intros Hrun.
  apply bind_Ok in Hrun as (h1 & Hh1 & Hrun).
  unfold dict_getitem in Hh1.
  destruct (dict_get loc_id hd1) as [h|] eqn:Hget; [|done].
  inversion Hh1; subst h1; clear Hh1.
  apply bind_Ok in Hrun as (h2 & Hh2 & Hrun).
  unfold dict_getitem in Hh2. rewrite dict_get_set_eq in Hh2.
  inversion Hh2; subst h2; clear Hh2. simpl in Hrun.
  apply bind_Ok in Hrun as (c & Hc & Hrun).
  unfold map_getitem in Hc.
  destruct (monthly_checklists h !! month) as [c'|] eqn:Hmonth; [|done].
  inversion Hc; subst c'; clear Hc.
  inversion Hrun; subst hotspot_data'; clear Hrun.
  rewrite dict_set_set. apply Forall_dict_set; [|done].
  pose proof (Forall_dict_get additive _ _ _ Hinv1 Hget) as [Hdom Hsum].
  split; cbn [monthly_checklists total_checklists].
  - rewrite dom_insert_L. rewrite <- Hdom.
    apply (elem_of_dom_2 (D := gset Z)) in Hmonth.
    apply set_eq. intros k. rewrite elem_of_union, elem_of_singleton.
    split; [intros [->|?]; done | by right].
  - rewrite (sum_values_increment _ _ _ Hmonth). lia.
Qed.

Lemma visited_additive (hotspot_data : dict string hotspot) :
  visited hotspot_data → Forall (fun kv => additive (snd kv)) hotspot_data.
Proof.
  induction 1 as [|hd rm hd' _ IH Hstep]; [constructor|].
  by apply (add_row_additive hd hd' rm).
Qed.

Lemma for_each_add_row_visited (rows : list (ChecklistCounter.row * Z))
    (hotspot_data hotspot_data' : dict string hotspot) :
  visited hotspot_data →
  for_each ChecklistCounter.add_row hotspot_data rows = Ok hotspot_data' →
  visited hotspot_data'.
Proof.
  apply (for_each_invariant visited). intros s a s' Hs Hstep.
  by apply (visited_row s a s').
Qed.

Lemma count_checklists_visited (chunks : list (list ChecklistCounter.row))
    (hotspot_data : dict string hotspot) :
  ChecklistCounter.count_checklists_per_hotspot chunks = Ok hotspot_data →
  visited hotspot_data.
Proof.
  unfold ChecklistCounter.count_checklists_per_hotspot.
  apply (for_each_invariant visited); [|constructor].
  intros s chunk s' Hs Hchunk. unfold ChecklistCounter.process_chunk in Hchunk.
  apply bind_Ok in Hchunk as (rows & _ & Hrows).
  by apply (for_each_add_row_visited rows s s').
Qed.

(** C8.  In every state the visit accumulator goes through, and in the
    mapping [count_checklists_per_hotspot] returns, every location record
    has its monthly counts under the keys 1..12, and these twelve counts
    add up to its total count. *)
Theorem monthly_counts_sum_to_total (hotspot_data : dict string hotspot)
    (loc_id : string) (h : hotspot) :
  visited hotspot_data
  ∨ (∃ chunks, ChecklistCounter.count_checklists_per_hotspot chunks = Ok hotspot_data) →
  dict_get loc_id hotspot_data = Some h →
  dom (monthly_checklists h) = list_to_set months
  ∧ sum_values (monthly_checklists h) = total_checklists h.
Proof.
  intros Hreach Hget.
  assert (Hvisited : visited hotspot_data).
  { destruct Hreach as [Hv | [chunks Hrun]]; [done|].
    by apply (count_checklists_visited chunks). }
  apply visited_additive in Hvisited.
  apply (Forall_dict_get additive _ _ _ Hvisited Hget).
Qed.

(** ** Chunking *)

Section Chunks.
Context {R S : Type} (mask : R → bool) (date : R → date_cell)
        (body : S → R * Z → result S).

Lemma read_months_app (l1 l2 : list R) :
  read_months date (l1 ++ l2)
  = (a ← read_months date l1; b ← read_months date l2; Ok (a ++ b)%list).
Proof.
  unfold read_months. induction l1 as [|r l1 IH]; simpl.
  - by destruct (mapM _ l2).
  - destruct (month_of (date r)) as [m|e]; simpl; [|done].
    rewrite IH. destruct (mapM _ l1) as [a|e]; simpl; [|done].
    by destruct (mapM _ l2).
Qed.

Lemma run_chunk_app (c1 c2 : list R) (s : S) :
  returned (run_chunk mask date body s (c1 ++ c2))
  = returned (s' ← run_chunk mask date body s c1; run_chunk mask date body s' c2).
Proof.
  unfold run_chunk. rewrite List.filter_app, read_months_app.
  destruct (read_months date (List.filter mask c1)) as [a|e];
    cbn [mbind result_bind]; [|reflexivity].
  destruct (read_months date (List.filter mask c2)) as [b|e];
    cbn [mbind result_bind].
  - rewrite for_each_app. by destruct (for_each body s a).
  - by destruct (for_each body s a).
Qed.

Lemma chunks_as_one (chunks : list (list R)) (s : S) :
  returned (for_each (run_chunk mask date body) s chunks)
  = returned (run_chunk mask date body s (List.concat chunks)).
Proof.
  revert s. induction chunks as [|c cs IH]; intros s; [reflexivity|].
  cbn [for_each List.concat]. rewrite run_chunk_app.
  destruct (run_chunk mask date body s c) as [s1|e];
    cbn [mbind result_bind]; [apply IH | reflexivity].
Qed.
End Chunks.


(** ** The detection accumulator *)

Lemma add_row_detection (species_detections species_detections' : dict string (dict string detection))
    (r : SpeciesDetector.row) (month : Z) :
  SpeciesDetector.add_row species_detections (r, month) = Ok species_detections' →
  SpeciesDetector.update r month
    (detection_at (SpeciesDetector.COMMON_NAME r) (SpeciesDetector.LOCALITY_ID r)
       species_detections)
  = Ok (detection_at (SpeciesDetector.COMMON_NAME r) (SpeciesDetector.LOCALITY_ID r)
          species_detections').
Proof.
  unfold SpeciesDetector.add_row, detection_at. intros Hrun.
  apply bind_Ok in Hrun as (data & Hdata & Hrun).
  inversion Hrun; subst species_detections'; clear Hrun.
  rewrite Hdata, dict_get_set_eq. simpl. by rewrite dict_get_set_eq.
Qed.

Lemma add_count_ids (c : cell) (data : detection) :
  scientific_name (SpeciesDetector.add_count c data) = scientific_name data
  ∧ checklist_ids (SpeciesDetector.add_count c data) = checklist_ids data
  ∧ monthly_checklist_ids (SpeciesDetector.add_count c data)
    = monthly_checklist_ids data.
Proof.
  unfold SpeciesDetector.add_count.
  destruct (has_count c); [|done]. by destruct (py_int c).
Qed.



(** C6, as the code has it.  Every qualifying row assigns the scientific
    name it carries to the record of its (species, location) pair: after
    the row, the field holds that row's value, whatever it held before. *)
Theorem scientific_name_is_last_seen
    (species_detections species_detections' : dict string (dict string detection))
    (r : SpeciesDetector.row) (month : Z) :
  SpeciesDetector.add_row species_detections (r, month) = Ok species_detections' →
  scientific_name
    (detection_at (SpeciesDetector.COMMON_NAME r) (SpeciesDetector.LOCALITY_ID r)
       species_detections')
  = Some (SpeciesDetector.SCIENTIFIC_NAME r).
Proof.
  intros Hrun. apply add_row_detection in Hrun.
  unfold SpeciesDetector.update in Hrun.
  apply bind_Ok in Hrun as (ids & _ & Hrun).
  injection Hrun as Hnew. rewrite <- Hnew.
  by rewrite (proj1 (add_count_ids _ _)).
Qed.

(** C6 fails as stated: a second row of the same pair that carries another
    scientific name replaces the one the first row set. *)
Lemma scientific_name_is_overwritten :
  ¬ (∀ (sd sd1 sd2 : dict string (dict string detection))
       (r1 r2 : SpeciesDetector.row) (m1 m2 : Z),
       SpeciesDetector.COMMON_NAME r1 = SpeciesDetector.COMMON_NAME r2 →
       SpeciesDetector.LOCALITY_ID r1 = SpeciesDetector.LOCALITY_ID r2 →
       SpeciesDetector.add_row sd (r1, m1) = Ok sd1 →
       SpeciesDetector.add_row sd1 (r2, m2) = Ok sd2 →
       scientific_name (detection_at (SpeciesDetector.COMMON_NAME r1)
                          (SpeciesDetector.LOCALITY_ID r1) sd2)
       = scientific_name (detection_at (SpeciesDetector.COMMON_NAME r1)
                            (SpeciesDetector.LOCALITY_ID r1) sd1)).
Proof.
  intros Hall.
  pose (r1 := sighting "Sora" "Porzana carolina" "L1" "S1" 5 (CStr "X")).
  pose (r2 := sighting "Sora" "Rallus carolinus" "L1" "S2" 5 (CStr "X")).
  destruct (SpeciesDetector.add_row [] (r1, 5)) as [sd1|e] eqn:H1; [|discriminate H1].
  destruct (SpeciesDetector.add_row sd1 (r2, 5)) as [sd2|e] eqn:H2.
  - pose proof (Hall [] sd1 sd2 r1 r2 5 5 eq_refl eq_refl H1 H2) as Hsame.
    vm_compute in H1. injection H1 as <-.
    vm_compute in H2. injection H2 as <-.
    vm_compute in Hsame. discriminate Hsame.
  - vm_compute in H1. injection H1 as <-. vm_compute in H2. discriminate H2.
Qed.

(** ** Floats *)

Lemma round_half_even_bounds (num den lo hi : Z) :
  0 < den → lo * den ≤ num ≤ hi * den →
  lo ≤ round_half_even num den ≤ hi.
Proof.
  intros Hden [Hlo Hhi]. unfold round_half_even.
  pose proof (Z.div_mod num den ltac:(lia)) as Hdm.
  pose proof (Z.mod_pos_bound num den Hden) as Hr.
  set (q := num / den) in *. set (r := num mod den) in *.
  assert (lo ≤ q) by nia.
  assert (q ≤ hi) by nia.
  assert (q = hi → r = 0) by nia.
  destruct (2 * r <? den) eqn:Hhalf; [lia|].
  apply Z.ltb_ge in Hhalf.
  destruct (den <? 2 * r); [lia|].
  destruct (Z.even q); lia.
Qed.

(** [round_half_even] is a nearest integer: it is within half a unit of
    the exact quotient. *)
Lemma round_half_even_nearest (num den : Z) :
  0 < den → 2 * Z.abs (round_half_even num den * den - num) ≤ den.
Proof.
  intros Hden. unfold round_half_even.
  pose proof (Z.div_mod num den ltac:(lia)) as Hdm.
  pose proof (Z.mod_pos_bound num den Hden) as Hr.
  set (q := num / den) in *. set (r := num mod den) in *.
  destruct (2 * r <? den) eqn:Hlow.
  { apply Z.ltb_lt in Hlow. nia. }
  apply Z.ltb_ge in Hlow.
  destruct (den <? 2 * r) eqn:Hhigh.
  { apply Z.ltb_lt in Hhigh. nia. }
  apply Z.ltb_ge in Hhigh.
  destruct (Z.even q); nia.
Qed.

Lemma floor_log2_ratio_le (a b : Z) :
  0 < a ≤ b → floor_log2_ratio a b ≤ 0.
Proof.
  intros [Ha Hab]. unfold floor_log2_ratio.
  pose proof (Z.log2_le_mono a b Hab).
  destruct (_ <? _); lia.
Qed.

Lemma float_of_ratio_unit (a b : Z) :
  0 ≤ a ≤ b → 0 < b →
  (0 <= float_to_Q (float_of_ratio a b) <= 1)%Q.
Proof.
  intros [Ha Hab] Hb. unfold float_of_ratio.
  destruct (a =? 0) eqn:Hzero.
  { vm_compute. split; discriminate. }
  apply Z.eqb_neq in Hzero.
  pose proof (floor_log2_ratio_le (Z.abs a) b ltac:(lia)) as Hlog.
  set (e := floor_log2_ratio (Z.abs a) b - 52) in *.
  assert (He : e < 0) by lia.
  rewrite (Z.max_l 0 e), (Z.max_r 0 (- e)) by lia. rewrite Z.pow_0_r.
  assert (Hpow : 0 < 2 ^ (- e)) by (apply Z.pow_pos_nonneg; lia).
  destruct (round_half_even_bounds (a * 2 ^ (- e)) (b * 1) 0 (2 ^ (- e)))
    as [Hm0 Hm1]; [lia | nia |].
  unfold float_to_Q. cbn [mantissa exponent].
  destruct (0 <=? e) eqn:Hsign; [apply Z.leb_le in Hsign; lia|].
  unfold Qle. cbn [Qnum Qden]. rewrite Z2Pos.id by done. lia.
Qed.

Lemma round_digits_unit (x : float) (ndigits : Z) :
  0 ≤ ndigits → (0 <= float_to_Q x <= 1)%Q →
  0 ≤ round_digits x ndigits ≤ 10 ^ ndigits.
Proof.
  intros Hnd [H0 H1]. unfold round_digits.
  assert (Hten : 0 < 10 ^ ndigits) by (apply Z.pow_pos_nonneg; lia).
  unfold float_to_Q in H0, H1.
  destruct (0 <=? exponent x) eqn:Hsign.
  - apply Z.leb_le in Hsign.
    change 0%Q with (inject_Z 0) in H0. change 1%Q with (inject_Z 1) in H1.
    rewrite <- Zle_Qle in H0, H1.
    rewrite (Z.max_r 0 (exponent x)), (Z.max_l 0 (- exponent x)) by lia.
    rewrite Z.pow_0_r.
    apply round_half_even_bounds; [lia | nia].
  - apply Z.leb_gt in Hsign.
    assert (Hpow : 0 < 2 ^ (- exponent x)) by (apply Z.pow_pos_nonneg; lia).
    unfold Qle in H0, H1. cbn [Qnum Qden] in H0, H1.
    rewrite Z2Pos.id in H0, H1 by done.
    rewrite (Z.max_l 0 (exponent x)), (Z.max_r 0 (- exponent x)) by lia.
    rewrite Z.pow_0_r.
    apply round_half_even_bounds; [lia | nia].
Qed.

Lemma py_round_unit (x : float) (ndigits : Z) :
  0 ≤ ndigits → (0 <= float_to_Q x <= 1)%Q →
  (0 <= float_to_Q (py_round x ndigits) <= 1)%Q.
Proof.
  intros Hnd Hx. unfold py_round.
  apply float_of_ratio_unit; [by apply round_digits_unit|].
  apply Z.pow_pos_nonneg; lia.
Qed.

Lemma true_div_Ok (a b : Z) (x : float) :
  true_div a b = Ok x → b ≠ 0 ∧ x = float_of_ratio (a * Z.sgn b) (Z.abs b).
Proof.
  unfold true_div. destruct (b =? 0) eqn:Hb; [done|].
  apply Z.eqb_neq in Hb. by inversion 1.
Qed.


Lemma true_div_unit (a b : Z) (x : float) :
  0 ≤ a ≤ b → true_div a b = Ok x → (0 <= float_to_Q x <= 1)%Q.
Proof.
  intros Hab Hdiv. apply true_div_Ok in Hdiv as [Hb ->].
  rewrite Z.sgn_pos, Z.abs_eq, Z.mul_1_r by lia.
  apply float_of_ratio_unit; lia.
Qed.

(** ** Sorting *)

Section Sort.
Context {A : Type} (lt : A → A → bool).
Hypothesis lt_asym : ∀ x y, lt x y = true → lt y x = false.

Lemma insert_sorted_perm (x : A) (l : list A) :
  Permutation (OccurrenceCalculator.insert_sorted lt x l) (x :: l).
Proof.
  induction l as [|y l IH]; simpl; [done|].
  destruct (lt y x); [|done]. rewrite IH. apply perm_swap.
Qed.

Lemma stable_sort_perm (l : list A) :
  Permutation (OccurrenceCalculator.stable_sort lt l) l.
Proof.
  induction l as [|x l IH]; simpl; [done|].
  rewrite insert_sorted_perm. by constructor.
Qed.

Lemma list_sort_perm (reverse : bool) (l : list A) :
  Permutation (OccurrenceCalculator.list_sort lt reverse l) l.
Proof.
  unfold OccurrenceCalculator.list_sort. destruct reverse.
  - rewrite <- Permutation_rev, stable_sort_perm. symmetry. apply Permutation_rev.
  - apply stable_sort_perm.
Qed.

Lemma insert_sorted_Sorted (x : A) (l : list A) :
  Sorted (may_precede lt) l → Sorted (may_precede lt) (OccurrenceCalculator.insert_sorted lt x l).
Proof.
  induction 1 as [|y l Hl IH Hhd]; simpl.
  - by repeat constructor.
  - destruct (lt y x) eqn:Hyx.
    + constructor; [done|].
      destruct Hhd as [|z l Hyz]; simpl.
      * constructor. by apply lt_asym.
      * destruct (lt z x); constructor; [done | by apply lt_asym].
    + repeat constructor; done.
Qed.

Lemma stable_sort_Sorted (l : list A) :
  Sorted (may_precede lt) (OccurrenceCalculator.stable_sort lt l).
Proof.
  induction l as [|x l IH]; simpl; [constructor|].
  by apply insert_sorted_Sorted.
Qed.

Lemma Sorted_adjacent (l : list A) (i : nat) (a b : A) :
  Sorted (may_precede lt) l → l !! i = Some a → l !! S i = Some b → may_precede lt a b.
Proof.
  intros Hsorted. revert i. induction Hsorted as [|x l Hl IH Hhd]; intros i; [done|].
  destruct i as [|i]; simpl.
  - intros [= ->] Hb. destruct Hhd as [|y l Hxy]; [done|].
    simpl in Hb. by inversion Hb; subst.
  - apply IH.
Qed.

Lemma list_sort_reverse_adjacent (l : list A) (i : nat) (a b : A) :
  OccurrenceCalculator.list_sort lt true l !! i = Some a →
  OccurrenceCalculator.list_sort lt true l !! S i = Some b →
  lt a b = false.
Proof.
  unfold OccurrenceCalculator.list_sort.
  set (asc := OccurrenceCalculator.stable_sort lt (rev l)).
  rewrite rev_alt. change (rev_append asc []) with (reverse asc).
  intros Ha Hb.
  apply reverse_lookup_Some in Ha as [Ha Hi].
  apply reverse_lookup_Some in Hb as [Hb Hi'].
  replace (List.length asc - S i)%nat with (S (List.length asc - S (S i)))%nat in Ha by lia.
  apply (Sorted_adjacent asc _ b a (stable_sort_Sorted _) Hb Ha).
Qed.
End Sort.

(** ** The sort key *)

Lemma float_eqb_eq (x y : float) : float_eqb x y = true ↔ float_eq x y.
Proof. apply Qeq_bool_iff. Qed.

Lemma float_ltb_lt (x y : float) : float_ltb x y = true ↔ float_lt x y.
Proof.
  unfold float_ltb, float_lt. rewrite negb_true_iff.
  rewrite <- not_true_iff_false, Qle_bool_iff. split.
  - apply Qnot_le_lt.
  - apply Qlt_not_le.
Qed.

Lemma key_lt_asym (x y : OccurrenceCalculator.SpeciesAtHotspot) :
  OccurrenceCalculator.key_lt x y = true → OccurrenceCalculator.key_lt y x = false.
Proof.
  unfold OccurrenceCalculator.key_lt.
  destruct (float_eqb _ _) eqn:Hxy.
  - apply float_eqb_eq in Hxy. unfold float_eq in Hxy.
    assert (Hyx : float_eqb (OccurrenceCalculator.occurrence_rate y)
                    (OccurrenceCalculator.occurrence_rate x) = true)
      by (apply float_eqb_eq; unfold float_eq; by symmetry).
    rewrite Hyx. intros Hlt. apply Z.ltb_lt in Hlt. apply Z.ltb_ge. lia.
  - intros Hlt. apply float_ltb_lt in Hlt. unfold float_lt in Hlt.
    destruct (float_eqb (OccurrenceCalculator.occurrence_rate y) _) eqn:Hyx.
    + apply float_eqb_eq in Hyx. unfold float_eq in Hyx.
      rewrite Hyx in Hlt. by apply Qlt_irrefl in Hlt.
    + apply not_true_iff_false. rewrite float_ltb_lt. unfold float_lt.
      apply Qle_not_lt. by apply Qlt_le_weak.
Qed.

Lemma key_lt_false (x y : OccurrenceCalculator.SpeciesAtHotspot) :
  OccurrenceCalculator.key_lt x y = false →
  float_lt (OccurrenceCalculator.occurrence_rate y) (OccurrenceCalculator.occurrence_rate x)
  ∨ (float_eq (OccurrenceCalculator.occurrence_rate x) (OccurrenceCalculator.occurrence_rate y)
     ∧ OccurrenceCalculator.detection_count y ≤ OccurrenceCalculator.detection_count x).
Proof.
  unfold OccurrenceCalculator.key_lt.
  destruct (float_eqb _ _) eqn:Heq.
  - apply float_eqb_eq in Heq. intros Hge. apply Z.ltb_ge in Hge. by right.
  - intros Hlt. left. unfold float_lt.
    apply not_true_iff_false in Hlt. rewrite float_ltb_lt in Hlt. unfold float_lt in Hlt.
    apply Qnot_lt_le in Hlt. apply Qle_lt_or_eq in Hlt as [Hlt|Hsame]; [done|].
    apply not_true_iff_false in Heq. destruct Heq. apply float_eqb_eq.
    unfold float_eq. by symmetry.
Qed.

(** ** Entries of a guide *)

Lemma make_entry_Ok (loc_id : string) (h : hotspot) (d : detection)
    (e : OccurrenceCalculator.SpeciesAtHotspot) :
  OccurrenceCalculator.make_entry loc_id h d = Ok e →
  OccurrenceCalculator.locality_id e = loc_id
  ∧ OccurrenceCalculator.detection_count e = Z.of_nat (size (checklist_ids d))
  ∧ OccurrenceCalculator.total_checklists e = total_checklists h
  ∧ (∃ q, true_div (Z.of_nat (size (checklist_ids d))) (total_checklists h) = Ok q
          ∧ OccurrenceCalculator.occurrence_rate e
            = py_round q OccurrenceCalculator.RATE_DECIMAL_PLACES)
  ∧ for_each (OccurrenceCalculator.add_seasonal_rate h d) [] OccurrenceCalculator.SEASONS
    = Ok (OccurrenceCalculator.seasonal_rates e)
  ∧ for_each (OccurrenceCalculator.add_monthly_rate h d) [] months
    = Ok (OccurrenceCalculator.monthly_rates e)
  ∧ OccurrenceCalculator.confidence_level e
    = OccurrenceCalculator.determine_confidence (total_checklists h).
Proof.
  unfold OccurrenceCalculator.make_entry. intros Hrun.
  apply bind_Ok in Hrun as (q & Hq & Hrun).
  apply bind_Ok in Hrun as (sr & Hsr & Hrun).
  apply bind_Ok in Hrun as (mr & Hmr & Hrun).
  apply bind_Ok in Hrun as (avg & Havg & Hrun).
  inversion Hrun; subst e; clear Hrun. cbn.
  repeat split; try done. by exists q.
Qed.


Lemma gate_Some (hotspot_data : dict string hotspot) (min_checklists : Z)
    (loc_id : string) (h : hotspot) :
  OccurrenceCalculator.gate hotspot_data min_checklists loc_id = Some h ↔
  dict_get loc_id hotspot_data = Some h ∧ min_checklists ≤ total_checklists h.
Proof.
  unfold OccurrenceCalculator.gate.
  destruct (dict_get loc_id hotspot_data) as [h'|]; [|by split; [|intros []]].
  destruct (total_checklists h' <? min_checklists) eqn:Hlow.
  - apply Z.ltb_lt in Hlow. split; [done|]. intros [[= ->] ?]. lia.
  - apply Z.ltb_ge in Hlow. split.
    + by intros [= ->].
    + by intros [[= ->] _].
Qed.

Lemma included_cons (hotspot_data : dict string hotspot) (min_checklists : Z)
    (loc_id : string) (d : detection) (items : dict string detection) :
  included hotspot_data min_checklists ((loc_id, d) :: items)
  = match OccurrenceCalculator.gate hotspot_data min_checklists loc_id with
    | Some h => (loc_id, h, d) :: included hotspot_data min_checklists items
    | None => included hotspot_data min_checklists items
    end.
Proof.
  unfold included. simpl.
  destruct (OccurrenceCalculator.gate hotspot_data min_checklists loc_id); reflexivity.
Qed.

(** What the inner loop leaves in its locals. *)
Lemma add_hotspot_loop (hotspot_data : dict string hotspot) (min_checklists : Z)
    (items : dict string detection) (st st' : OccurrenceCalculator.locals) :
  for_each (OccurrenceCalculator.add_hotspot hotspot_data min_checklists) st items = Ok st' →
  ∃ entries,
    Forall2 (fun x e => OccurrenceCalculator.make_entry (fst (fst x)) (snd (fst x)) (snd x) = Ok e)
      (included hotspot_data min_checklists items) entries
    ∧ OccurrenceCalculator.hotspots_list st'
      = (OccurrenceCalculator.hotspots_list st ++ entries)%list
    ∧ OccurrenceCalculator.total_detections_so_far st'
      = OccurrenceCalculator.total_detections_so_far st
        + foldr (fun e acc => OccurrenceCalculator.detection_count e + acc) 0 entries
    ∧ OccurrenceCalculator.scientific_name_so_far st'
      = first_name (OccurrenceCalculator.scientific_name_so_far st)
          (included hotspot_data min_checklists items).
Proof.
  revert st. induction items as [|[loc_id d] items IH]; intros st Hrun.
  - inversion Hrun; subst st'. exists []. cbn.
    split; [constructor|]. split; [by rewrite app_nil_r|]. split; [lia | done].
  - cbn [for_each] in Hrun. apply bind_Ok in Hrun as (st1 & Hstep & Hrun).
    apply IH in Hrun as (entries & Hentries & Hlist & Htotal & Hname).
    unfold OccurrenceCalculator.add_hotspot in Hstep.
    rewrite included_cons.
    destruct (OccurrenceCalculator.gate hotspot_data min_checklists loc_id) as [h|].
    + apply bind_Ok in Hstep as (e & He & Hstep).
      inversion Hstep; subst st1; clear Hstep. cbn in Hlist, Htotal, Hname.
      exists (e :: entries). split; [by constructor|].
      split; [by rewrite Hlist, <- app_assoc|]. split.
      * cbn [foldr]. apply make_entry_Ok in He as (_ & -> & _). lia.
      * rewrite Hname. by destruct (OccurrenceCalculator.scientific_name_so_far st).
    + inversion Hstep; subst st1. by exists entries.
Qed.


(** ** Guides *)

Lemma add_species_Ok (hotspot_data : dict string hotspot) (min_checklists : Z)
    (acc guides : dict string OccurrenceCalculator.SpeciesGuide)
    (species_name : string) (items : dict string detection) :
  OccurrenceCalculator.add_species hotspot_data min_checklists acc (species_name, items)
  = Ok guides →
  ∃ st, for_each (OccurrenceCalculator.add_hotspot hotspot_data min_checklists)
          (OccurrenceCalculator.Locals [] 0 None) items = Ok st
        ∧ guides = dict_set species_name (guide_of species_name st) acc.
Proof.
  unfold OccurrenceCalculator.add_species. intros Hrun.
  apply bind_Ok in Hrun as (st & Hst & Hrun). exists st. split; [done|].
  by inversion Hrun.
Qed.

Lemma guides_origin (hotspot_data : dict string hotspot) (min_checklists : Z)
    (species_detections : dict string (dict string detection))
    (acc guides : dict string OccurrenceCalculator.SpeciesGuide) :
  for_each (OccurrenceCalculator.add_species hotspot_data min_checklists) acc
    species_detections = Ok guides →
  ∀ s g, dict_get s guides = Some g →
    dict_get s acc = Some g
    ∨ ∃ items st,
        In (s, items) species_detections
        ∧ for_each (OccurrenceCalculator.add_hotspot hotspot_data min_checklists)
            (OccurrenceCalculator.Locals [] 0 None) items = Ok st
        ∧ g = guide_of s st.
Proof.
  revert acc. induction species_detections as [|[sp items] sd IH]; intros acc Hrun s g Hg.
  - inversion Hrun; subst guides. by left.
  - cbn [for_each] in Hrun. apply bind_Ok in Hrun as (acc1 & Hstep & Hrun).
    apply add_species_Ok in Hstep as (st & Hst & ->).
    destruct (IH _ Hrun s g Hg) as [Hacc | (items' & st' & Hin & Hst' & ->)].
    + destruct (decide (sp = s)) as [->|Hne].
      * rewrite dict_get_set_eq in Hacc. inversion Hacc; subst g.
        right. exists items, st. split; [by left | done].
      * rewrite dict_get_set_ne in Hacc by done. by left.
    + right. exists items', st'. split; [by right | done].
Qed.

Lemma guides_of_species (hotspot_data : dict string hotspot) (min_checklists : Z)
    (species_detections : dict string (dict string detection))
    (acc guides : dict string OccurrenceCalculator.SpeciesGuide) :
  NoDup (dict_keys species_detections) →
  for_each (OccurrenceCalculator.add_species hotspot_data min_checklists) acc
    species_detections = Ok guides →
  ∀ s, (¬ In s (dict_keys species_detections) → dict_get s guides = dict_get s acc)
       ∧ ∀ items, In (s, items) species_detections →
           ∃ st, for_each (OccurrenceCalculator.add_hotspot hotspot_data min_checklists)
                   (OccurrenceCalculator.Locals [] 0 None) items = Ok st
                 ∧ dict_get s guides = Some (guide_of s st).
Proof.
  revert acc. induction species_detections as [|[sp items] sd IH]; intros acc Hnd Hrun s.
  - inversion Hrun; subst guides. split; [done | intros ? []].
  - cbn [for_each] in Hrun. apply bind_Ok in Hrun as (acc1 & Hstep & Hrun).
    apply add_species_Ok in Hstep as (st & Hst & ->).
    cbn [dict_keys map fst] in Hnd. apply NoDup_cons in Hnd as [Hsp Hnd].
    destruct (IH _ Hnd Hrun s) as [Hout Hin]. split.
    + intros Hnotin. rewrite Hout.
      * apply dict_get_set_ne. intros ->. apply Hnotin. by left.
      * intros Hs. apply Hnotin. by right.
    + intros items' [Heq | Hin'].
      * inversion Heq; subst sp items'. exists st. split; [done|].
        destruct (IH _ Hnd Hrun s) as [Hout' _].
        rewrite Hout'; [apply dict_get_set_eq|].
        intros Hs. apply Hsp. by apply list_elem_of_In.
      * by apply Hin.
Qed.


Lemma included_In (hotspot_data : dict string hotspot) (min_checklists : Z)
    (items : dict string detection) (loc_id : string) (h : hotspot) (d : detection) :
  In (loc_id, h, d) (included hotspot_data min_checklists items) →
  In (loc_id, d) items
  ∧ OccurrenceCalculator.gate hotspot_data min_checklists loc_id = Some h.
Proof.
  induction items as [|[loc' d'] items IH]; [done|].
  rewrite included_cons.
  destruct (OccurrenceCalculator.gate hotspot_data min_checklists loc') as [h'|] eqn:Hgate.
  - intros [Heq | Hin].
    + inversion Heq; subst. split; [by left | done].
    + destruct (IH Hin). split; [by right | done].
  - intros Hin. destruct (IH Hin). split; [by right | done].
Qed.

(** Every entry of every guide was made from a location that passed the
    gate. *)
Lemma entry_origin (hotspot_data : dict string hotspot)
    (species_detections : dict string (dict string detection)) (min_checklists : Z)
    (guides : dict string OccurrenceCalculator.SpeciesGuide)
    (s : string) (g : OccurrenceCalculator.SpeciesGuide)
    (e : OccurrenceCalculator.SpeciesAtHotspot) :
  OccurrenceCalculator.calculate_occurrence_rates hotspot_data species_detections
    min_checklists = Ok guides →
  dict_get s guides = Some g →
  In e (OccurrenceCalculator.hotspots g) →
  ∃ items h d,
    In (s, items) species_detections
    ∧ In (OccurrenceCalculator.locality_id e, d) items
    ∧ dict_get (OccurrenceCalculator.locality_id e) hotspot_data = Some h
    ∧ min_checklists ≤ total_checklists h
    ∧ OccurrenceCalculator.make_entry (OccurrenceCalculator.locality_id e) h d = Ok e.
Proof.
  intros Hrun Hg He.
  destruct (guides_origin _ _ _ _ _ Hrun s g Hg) as [Hnil | (items & st & Hin & Hst & ->)];
    [done|].
  apply add_hotspot_loop in Hst as (entries & Hentries & Hlist & _).
  unfold guide_of in He. cbn [OccurrenceCalculator.hotspots] in He.
  apply (Permutation_in _ (list_sort_perm _ _ _)) in He.
  rewrite Hlist in He. cbn [OccurrenceCalculator.hotspots_list app] in He.
  apply list_elem_of_In, list_elem_of_lookup in He as [i Hi].
  destruct (Forall2_lookup_r _ _ _ _ _ Hentries Hi) as ([[loc_id h] d] & Hx & Hmake).
  cbn [fst snd] in Hmake.
  apply list_elem_of_lookup_2, list_elem_of_In, included_In in Hx as [Hitem Hgate].
  apply gate_Some in Hgate as [Hh Hmin].
  destruct (make_entry_Ok _ _ _ _ Hmake) as (Hloc & _). subst loc_id.
  by exists items, h, d.
Qed.

(** ** The rate calculator *)

(** C3.  In every guide, of two neighbouring locations the first has the
    greater rounded occurrence rate, or the same rate and at least as many
    detections. *)
Theorem hotspots_sorted_by_rate_then_detections
    (hotspot_data : dict string hotspot)
    (species_detections : dict string (dict string detection)) (min_checklists : Z)
    (guides : dict string OccurrenceCalculator.SpeciesGuide)
    (s : string) (g : OccurrenceCalculator.SpeciesGuide) (i : nat)
    (a b : OccurrenceCalculator.SpeciesAtHotspot) :
  OccurrenceCalculator.calculate_occurrence_rates hotspot_data species_detections
    min_checklists = Ok guides →
  dict_get s guides = Some g →
  OccurrenceCalculator.hotspots g !! i = Some a →
  OccurrenceCalculator.hotspots g !! S i = Some b →
  float_lt (OccurrenceCalculator.occurrence_rate b) (OccurrenceCalculator.occurrence_rate a)
  ∨ (float_eq (OccurrenceCalculator.occurrence_rate a) (OccurrenceCalculator.occurrence_rate b)
     ∧ OccurrenceCalculator.detection_count b ≤ OccurrenceCalculator.detection_count a).
Proof.
  intros Hrun Hg Ha Hb.
  destruct (guides_origin _ _ _ _ _ Hrun s g Hg) as [Hnil | (items & st & _ & _ & ->)];
    [done|].
  unfold guide_of in Ha, Hb. cbn [OccurrenceCalculator.hotspots] in Ha, Hb.
  apply key_lt_false.
  apply (list_sort_reverse_adjacent _ key_lt_asym _ _ _ _ Ha Hb).
Qed.

(** C4.  A location is listed in a guide only if it is in the visit mapping
    with at least [min_checklists] visits, whatever the species and however
    often the species was detected there; at the default threshold of 10,
    a listed location has more than 9 visits. *)
Theorem listed_only_above_threshold
    (hotspot_data : dict string hotspot)
    (species_detections : dict string (dict string detection)) (min_checklists : Z)
    (guides : dict string OccurrenceCalculator.SpeciesGuide)
    (s : string) (g : OccurrenceCalculator.SpeciesGuide)
    (e : OccurrenceCalculator.SpeciesAtHotspot) :
  OccurrenceCalculator.calculate_occurrence_rates hotspot_data species_detections
    min_checklists = Ok guides →
  dict_get s guides = Some g →
  In e (OccurrenceCalculator.hotspots g) →
  ∃ h, dict_get (OccurrenceCalculator.locality_id e) hotspot_data = Some h
       ∧ min_checklists ≤ total_checklists h
       ∧ OccurrenceCalculator.total_checklists e = total_checklists h
       ∧ (min_checklists = OccurrenceCalculator.MIN_CHECKLISTS_THRESHOLD →
          9 < total_checklists h).
Proof.
  intros Hrun Hg He.
  destruct (entry_origin _ _ _ _ _ _ _ Hrun Hg He)
    as (items & h & d & _ & _ & Hh & Hmin & Hmake).
  exists h. split; [done|]. split; [done|]. split.
  - by destruct (make_entry_Ok _ _ _ _ Hmake) as (_ & _ & ? & _).
  - intros ->. unfold OccurrenceCalculator.MIN_CHECKLISTS_THRESHOLD in Hmin. lia.
Qed.

Lemma nine_visits_never_listed
    (hotspot_data : dict string hotspot)
    (species_detections : dict string (dict string detection))
    (guides : dict string OccurrenceCalculator.SpeciesGuide)
    (s : string) (g : OccurrenceCalculator.SpeciesGuide)
    (e : OccurrenceCalculator.SpeciesAtHotspot) (h : hotspot) :
  OccurrenceCalculator.calculate_occurrence_rates hotspot_data species_detections
    OccurrenceCalculator.MIN_CHECKLISTS_THRESHOLD = Ok guides →
  dict_get s guides = Some g →
  dict_get (OccurrenceCalculator.locality_id e) hotspot_data = Some h →
  total_checklists h = 9 →
  ¬ In e (OccurrenceCalculator.hotspots g).
Proof.
  intros Hrun Hg Hh Hnine He.
  destruct (entry_origin _ _ _ _ _ _ _ Hrun Hg He)
    as (items & h' & d & _ & _ & Hh' & Hmin & _).
  rewrite Hh in Hh'. inversion Hh'; subst h'.
  unfold OccurrenceCalculator.MIN_CHECKLISTS_THRESHOLD in Hmin. lia.
Qed.

Lemma included_nil (hotspot_data : dict string hotspot) (min_checklists : Z)
    (items : dict string detection) :
  (∀ loc_id d, In (loc_id, d) items →
     OccurrenceCalculator.gate hotspot_data min_checklists loc_id = None) →
  included hotspot_data min_checklists items = [].
Proof.
  induction items as [|[loc_id d] items IH]; intros Hnone; [done|].
  rewrite included_cons, (Hnone loc_id d) by (by left).
  apply IH. intros loc' d' Hin. apply (Hnone loc' d'). by right.
Qed.

Lemma included_app (hotspot_data : dict string hotspot) (min_checklists : Z)
    (items1 items2 : dict string detection) :
  included hotspot_data min_checklists (items1 ++ items2)
  = (included hotspot_data min_checklists items1
     ++ included hotspot_data min_checklists items2)%list.
Proof. unfold included. apply omap_app. Qed.

Lemma first_name_Some (n : string) (inc : list (string * hotspot * detection)) :
  first_name (Some n) inc = Some n.
Proof. induction inc as [|x inc IH]; [done | apply IH]. Qed.


(** C10.  The scientific name of a guide is the name recorded for the
    first location, in the iteration order of the species' locations, that
    passes the gate (the locations before it need not pass, and their names
    are not used); when no location passes, it is the empty string. *)
Theorem guide_scientific_name
    (hotspot_data : dict string hotspot)
    (species_detections : dict string (dict string detection)) (min_checklists : Z)
    (guides : dict string OccurrenceCalculator.SpeciesGuide)
    (s : string) (items : dict string detection) :
  NoDup (dict_keys species_detections) →
  OccurrenceCalculator.calculate_occurrence_rates hotspot_data species_detections
    min_checklists = Ok guides →
  dict_get s species_detections = Some items →
  ∃ g, dict_get s guides = Some g
       ∧ (∀ before loc_id d after n,
            items = (before ++ (loc_id, d) :: after)%list →
            (∀ loc' d', In (loc', d') before →
               OccurrenceCalculator.gate hotspot_data min_checklists loc' = None) →
            is_Some (OccurrenceCalculator.gate hotspot_data min_checklists loc_id) →
            scientific_name d = Some n →
            OccurrenceCalculator.scientific_name g = n)
       ∧ ((∀ loc_id d, In (loc_id, d) items →
             OccurrenceCalculator.gate hotspot_data min_checklists loc_id = None) →
          OccurrenceCalculator.scientific_name g = "").
Proof.
  intros Hnd Hrun Hitems.
  apply dict_get_In in Hitems.
  destruct (guides_of_species _ _ _ _ _ Hnd Hrun s) as [_ Hin].
  destruct (Hin items Hitems) as (st & Hst & Hg).
  exists (guide_of s st). split; [done|].
  apply add_hotspot_loop in Hst as (entries & _ & _ & _ & Hname).
  cbn [OccurrenceCalculator.scientific_name_so_far] in Hname.
  unfold guide_of. cbn [OccurrenceCalculator.scientific_name]. rewrite Hname.
  split.
  - intros before loc_id d after n -> Hbefore [h Hgate] Hd.
    rewrite included_app, (included_nil _ _ _ Hbefore), included_cons, Hgate.
    cbn [app first_name fold_left snd]. rewrite Hd.
    fold (first_name (Some n) (included hotspot_data min_checklists after)).
    by rewrite first_name_Some.
  - intros Hnone. by rewrite (included_nil _ _ _ Hnone).
Qed.

Lemma py_sum_cons (x : Z) (l : list Z) :
  OccurrenceCalculator.py_sum (x :: l) = x + OccurrenceCalculator.py_sum l.
Proof.
  unfold OccurrenceCalculator.py_sum. cbn [fold_left].
  assert (Hshift : ∀ l a, fold_left Z.add l a = a + fold_left Z.add l 0).
  { clear. induction l as [|y l IH]; intros a; cbn [fold_left]; [lia|].
    rewrite (IH (a + y)), (IH (0 + y)). lia. }
  rewrite Hshift. lia.
Qed.

(** Where no visit is filed under two months of a season, the sum of the
    monthly detection counts is the size of the union. *)
Lemma detections_in_union (d : detection) (ms : list Z) :
  NoDup ms →
  (∀ m1 m2, In m1 ms → In m2 ms → m1 ≠ m2 → month_ids d m1 ## month_ids d m2) →
  OccurrenceCalculator.detections_in d ms = Z.of_nat (size (season_ids d ms)).
Proof.
  unfold OccurrenceCalculator.detections_in, season_ids.
  induction ms as [|m ms IH]; intros Hnd Hdisj; [done|].
  apply NoDup_cons in Hnd as [Hm Hnd].
  rewrite fmap_cons, py_sum_cons. rewrite (fmap_cons (month_ids d)), union_list_cons.
  fold (month_ids d m).
  rewrite size_union.
  - rewrite Nat2Z.inj_add. f_equal. apply IH; [done|].
    intros m1 m2 H1 H2. apply Hdisj; by right.
  - intros x Hx Hrest. apply elem_of_union_list in Hrest as (X & HX & HxX).
    apply list_elem_of_fmap in HX as (m' & -> & Hm').
    apply (Hdisj m m' ltac:(by left) ltac:(right; by apply list_elem_of_In)
             ltac:(intros ->; done) x Hx HxX).
Qed.

Lemma add_seasonal_rate_loop (h : hotspot) (d : detection)
    (seasons : dict string (list Z)) (acc out : dict string float) :
  NoDup (dict_keys seasons) →
  for_each (OccurrenceCalculator.add_seasonal_rate h d) acc seasons = Ok out →
  ∀ season,
    (¬ In season (dict_keys seasons) → dict_get season out = dict_get season acc)
    ∧ ∀ ms, In (season, ms) seasons →
        (5 ≤ OccurrenceCalculator.checklists_in h ms →
         ∃ q, true_div (OccurrenceCalculator.detections_in d ms)
                (OccurrenceCalculator.checklists_in h ms) = Ok q
              ∧ dict_get season out
                = Some (py_round q OccurrenceCalculator.RATE_DECIMAL_PLACES))
        ∧ (OccurrenceCalculator.checklists_in h ms < 5 →
           dict_get season out = dict_get season acc).
Proof.
  revert acc. induction seasons as [|[name ms] seasons IH]; intros acc Hnd Hrun season.
  - inversion Hrun; subst out. split; [done | intros ? []].
  - cbn [for_each] in Hrun. apply bind_Ok in Hrun as (acc1 & Hstep & Hrun).
    cbn [dict_keys map fst] in Hnd. apply NoDup_cons in Hnd as [Hname Hnd].
    destruct (IH _ Hnd Hrun season) as [Hout Hin].
    unfold OccurrenceCalculator.add_seasonal_rate in Hstep. split.
    + intros Hnotin. rewrite Hout by (intros ?; apply Hnotin; by right).
      destruct (5 <=? _); [|by inversion Hstep].
      apply bind_Ok in Hstep as (q & _ & Hstep). inversion Hstep; subst acc1.
      apply dict_get_set_ne. intros ->. apply Hnotin. by left.
    + intros ms' [Heq | Hin']; [|].
      * inversion Heq; subst name ms'.
        assert (Hfresh : ¬ In season (dict_keys seasons))
          by (intros ?; apply Hname; by apply list_elem_of_In).
        rewrite (Hout Hfresh).
        destruct (5 <=? _) eqn:Hfive.
        -- apply Z.leb_le in Hfive.
           apply bind_Ok in Hstep as (q & Hq & Hstep). inversion Hstep; subst acc1.
           split; [|lia]. intros _. exists q. split; [done | apply dict_get_set_eq].
        -- apply Z.leb_gt in Hfive. inversion Hstep; subst acc1. split; [lia | done].
      * destruct (Hin ms' Hin') as [Hyes Hno]. split; [done|].
        intros Hlow. rewrite (Hno Hlow).
        destruct (5 <=? _); [|by inversion Hstep].
        apply bind_Ok in Hstep as (q & _ & Hstep). inversion Hstep; subst acc1.
        apply dict_get_set_ne. intros ->.
        apply Hname. apply list_elem_of_In. by apply (in_map fst) in Hin'.
Qed.

Lemma SEASONS_NoDup : NoDup (dict_keys OccurrenceCalculator.SEASONS).
Proof. apply (bool_decide_unpack _). by vm_compute. Qed.

Lemma SEASONS_months_NoDup (season : string) (ms : list Z) :
  In (season, ms) OccurrenceCalculator.SEASONS → NoDup ms.
Proof.
  cbn. intros [Heq|[Heq|[Heq|[Heq|[]]]]]; inversion Heq; subst;
    apply (bool_decide_unpack _); by vm_compute.
Qed.

(** C1, as the code has it.  Every entry of a guide comes from a location
    of that species in the detection mapping; its detection count is the
    size of the detection set, its total is the location's total, and its
    occurrence rate is their quotient rounded to 4 decimal places.  The
    calculator does not compare the two counts: the rate lies in [0, 1]
    whenever the detection count does not exceed the total. *)
Theorem occurrence_rate_of_entry
    (hotspot_data : dict string hotspot)
    (species_detections : dict string (dict string detection)) (min_checklists : Z)
    (guides : dict string OccurrenceCalculator.SpeciesGuide)
    (s : string) (g : OccurrenceCalculator.SpeciesGuide)
    (e : OccurrenceCalculator.SpeciesAtHotspot) :
  OccurrenceCalculator.calculate_occurrence_rates hotspot_data species_detections
    min_checklists = Ok guides →
  dict_get s guides = Some g →
  In e (OccurrenceCalculator.hotspots g) →
  ∃ items h d,
    In (s, items) species_detections
    ∧ In (OccurrenceCalculator.locality_id e, d) items
    ∧ dict_get (OccurrenceCalculator.locality_id e) hotspot_data = Some h
    ∧ OccurrenceCalculator.detection_count e = Z.of_nat (size (checklist_ids d))
    ∧ OccurrenceCalculator.total_checklists e = total_checklists h
    ∧ (∃ q, true_div (OccurrenceCalculator.detection_count e)
              (OccurrenceCalculator.total_checklists e) = Ok q
            ∧ OccurrenceCalculator.occurrence_rate e
              = py_round q OccurrenceCalculator.RATE_DECIMAL_PLACES)
    ∧ (OccurrenceCalculator.detection_count e ≤ OccurrenceCalculator.total_checklists e →
       (0 <= float_to_Q (OccurrenceCalculator.occurrence_rate e) <= 1)%Q).
Proof.
  intros Hrun Hg He.
  destruct (entry_origin _ _ _ _ _ _ _ Hrun Hg He)
    as (items & h & d & Hitems & Hd & Hh & _ & Hmake).
  destruct (make_entry_Ok _ _ _ _ Hmake) as (_ & Hdet & Htot & (q & Hq & Hrate) & _).
  exists items, h, d. rewrite Hdet, Htot.
  repeat (split; [done|]). split; [by exists q|].
  intros Hle. rewrite Hrate. apply py_round_unit; [done|].
  apply (true_div_unit _ _ _ (conj (Nat2Z.is_nonneg _) Hle) Hq).
Qed.

(** C2, as the code has it.  For every entry of a guide and each of the
    four seasons: when the location's monthly visit counts over the
    season's months add up to at least 5, the seasonal rate is the sum of
    the sizes of the species' monthly detection sets over those months,
    divided by that visit sum and rounded to 4 decimal places; otherwise the
    season has no rate.  The sum of the sizes is the size of the union when
    no visit is filed under two months of the season. *)
Theorem seasonal_rates_of_entry
    (hotspot_data : dict string hotspot)
    (species_detections : dict string (dict string detection)) (min_checklists : Z)
    (guides : dict string OccurrenceCalculator.SpeciesGuide)
    (s : string) (g : OccurrenceCalculator.SpeciesGuide)
    (e : OccurrenceCalculator.SpeciesAtHotspot) :
  OccurrenceCalculator.calculate_occurrence_rates hotspot_data species_detections
    min_checklists = Ok guides →
  dict_get s guides = Some g →
  In e (OccurrenceCalculator.hotspots g) →
  ∃ items h d,
    In (s, items) species_detections
    ∧ In (OccurrenceCalculator.locality_id e, d) items
    ∧ dict_get (OccurrenceCalculator.locality_id e) hotspot_data = Some h
    ∧ ∀ season ms, In (season, ms) OccurrenceCalculator.SEASONS →
        (5 ≤ OccurrenceCalculator.checklists_in h ms →
         ∃ q, true_div (OccurrenceCalculator.detections_in d ms)
                (OccurrenceCalculator.checklists_in h ms) = Ok q
              ∧ dict_get season (OccurrenceCalculator.seasonal_rates e)
                = Some (py_round q OccurrenceCalculator.RATE_DECIMAL_PLACES))
        ∧ (OccurrenceCalculator.checklists_in h ms < 5 →
           dict_get season (OccurrenceCalculator.seasonal_rates e) = None)
        ∧ ((∀ m1 m2, In m1 ms → In m2 ms → m1 ≠ m2 →
              month_ids d m1 ## month_ids d m2) →
           OccurrenceCalculator.detections_in d ms
           = Z.of_nat (size (season_ids d ms))).
Proof.
  intros Hrun Hg He.
  destruct (entry_origin _ _ _ _ _ _ _ Hrun Hg He)
    as (items & h & d & Hitems & Hd & Hh & _ & Hmake).
  destruct (make_entry_Ok _ _ _ _ Hmake) as (_ & _ & _ & _ & Hseasons & _).
  exists items, h, d. repeat (split; [done|]).
  intros season ms Hin.
  destruct (add_seasonal_rate_loop _ _ _ _ _ SEASONS_NoDup Hseasons season) as [_ Hloop].
  destruct (Hloop ms Hin) as [Hyes Hno].
  split; [done|]. split; [done|].
  apply detections_in_union. by apply (SEASONS_months_NoDup season).
Qed.

(** C1 fails as stated: when the observations file lists a checklist the
    sampling file lacks, the aggregators hand the calculator 11 detections
    against 10 visits, and the rate of the entry is 1.1. *)
Lemma more_detections_than_visits :
  ∃ hotspot_data species_detections guides g e,
    ChecklistCounter.count_checklists_per_hotspot overcount_sampling = Ok hotspot_data
    ∧ SpeciesDetector.count_species_detections overcount_observations
      = Ok species_detections
    ∧ OccurrenceCalculator.calculate_occurrence_rates hotspot_data species_detections
        OccurrenceCalculator.MIN_CHECKLISTS_THRESHOLD = Ok guides
    ∧ dict_get "Sora" guides = Some g
    ∧ In e (OccurrenceCalculator.hotspots g)
    ∧ OccurrenceCalculator.detection_count e = 11
    ∧ OccurrenceCalculator.total_checklists e = 10
    ∧ OccurrenceCalculator.occurrence_rate e = float_of_ratio 11000 10000
    ∧ ¬ (float_to_Q (OccurrenceCalculator.occurrence_rate e) <= 1)%Q.
Proof.
  do 5 eexists.
  split; [vm_compute; reflexivity|].
  split; [vm_compute; reflexivity|].
  split; [vm_compute; reflexivity|].
  split; [vm_compute; reflexivity|].
  split; [left; reflexivity|].
  split; [reflexivity|]. split; [reflexivity|]. split; [vm_compute; reflexivity|].
  vm_compute. intros Hle. by apply Hle.
Qed.

(** C2 fails as stated: with one checklist dated in March and in April,
    the spring rate is 2 / 12, rounded to 0.1667, while the union of the
    monthly detection sets holds a single visit (1 / 12 rounds to 0.0833). *)
Lemma seasonal_rate_counts_a_visit_twice :
  ∃ hotspot_data species_detections guides g e h q,
    ChecklistCounter.count_checklists_per_hotspot straddle_sampling = Ok hotspot_data
    ∧ SpeciesDetector.count_species_detections straddle_observations
      = Ok species_detections
    ∧ OccurrenceCalculator.calculate_occurrence_rates hotspot_data species_detections
        OccurrenceCalculator.MIN_CHECKLISTS_THRESHOLD = Ok guides
    ∧ dict_get "Sora" guides = Some g
    ∧ In e (OccurrenceCalculator.hotspots g)
    ∧ dict_get "L5" hotspot_data = Some h
    ∧ OccurrenceCalculator.checklists_in h [3; 4; 5] = 12
    ∧ size (season_ids (detection_at "Sora" "L5" species_detections) [3; 4; 5]) = 1%nat
    ∧ dict_get "spring" (OccurrenceCalculator.seasonal_rates e)
      = Some (float_of_ratio 1667 10000)
    ∧ true_div 1 12 = Ok q
    ∧ py_round q OccurrenceCalculator.RATE_DECIMAL_PLACES = float_of_ratio 833 10000
    ∧ ¬ float_eq (float_of_ratio 1667 10000) (float_of_ratio 833 10000).
Proof.
  do 7 eexists.
  split; [vm_compute; reflexivity|].
  split; [vm_compute; reflexivity|].
  split; [vm_compute; reflexivity|].
  split; [vm_compute; reflexivity|].
  split; [left; reflexivity|].
  split; [vm_compute; reflexivity|].
  split; [vm_compute; reflexivity|].
  split; [vm_compute; reflexivity|].
  split; [vm_compute; reflexivity|].
  split; [vm_compute; reflexivity|].
  split; [vm_compute; reflexivity|].
  vm_compute. discriminate.
Qed.

(** ** The properties on the sample files *)

Lemma sample_run :
  OccurrenceCalculator.calculate_occurrence_rates sample_hotspots sample_detections
    OccurrenceCalculator.MIN_CHECKLISTS_THRESHOLD = Ok sample_guides.
Proof. vm_compute. reflexivity. Defined.

Lemma sample_detections_NoDup : NoDup (dict_keys sample_detections).
Proof. apply (bool_decide_unpack _). vm_compute. exact I. Defined.

Lemma occurrence_rate_of_entry_witness :
  OccurrenceCalculator.calculate_occurrence_rates sample_hotspots sample_detections
    OccurrenceCalculator.MIN_CHECKLISTS_THRESHOLD = Ok sample_guides
  ∧ dict_get "Sora" sample_guides = Some sora_guide
  ∧ In sora_at_L1 (OccurrenceCalculator.hotspots sora_guide)
  ∧ (0 <= float_to_Q (OccurrenceCalculator.occurrence_rate sora_at_L1) <= 1)%Q.
Proof.
  split; [exact sample_run|]. split; [reflexivity|]. split; [left; reflexivity|].
  destruct (occurrence_rate_of_entry sample_hotspots sample_detections
              OccurrenceCalculator.MIN_CHECKLISTS_THRESHOLD sample_guides "Sora"
              sora_guide sora_at_L1 sample_run eq_refl (or_introl eq_refl))
    as (items & h & d & _ & _ & _ & _ & _ & _ & Hunit).
  apply Hunit. vm_compute. discriminate.
Defined.

Lemma seasonal_rates_of_entry_witness :
  OccurrenceCalculator.calculate_occurrence_rates sample_hotspots sample_detections
    OccurrenceCalculator.MIN_CHECKLISTS_THRESHOLD = Ok sample_guides
  ∧ dict_get "Sora" sample_guides = Some sora_guide
  ∧ In sora_at_L3 (OccurrenceCalculator.hotspots sora_guide)
  ∧ is_Some (dict_get "spring" (OccurrenceCalculator.seasonal_rates sora_at_L3))
  ∧ dict_get "summer" (OccurrenceCalculator.seasonal_rates sora_at_L3) = None.
Proof.
  split; [exact sample_run|]. split; [reflexivity|].
  split; [right; left; reflexivity|].
  destruct (seasonal_rates_of_entry sample_hotspots sample_detections
              OccurrenceCalculator.MIN_CHECKLISTS_THRESHOLD sample_guides "Sora"
              sora_guide sora_at_L3 sample_run eq_refl (or_intror (or_introl eq_refl)))
    as (items & h & d & _ & _ & Hh & Hseasons).
  vm_compute in Hh. injection Hh as <-. split.
  - destruct (Hseasons "spring" [3; 4; 5] (or_introl eq_refl)) as [Hyes _].
    destruct Hyes as (q & _ & Hrate); [vm_compute; discriminate|].
    rewrite Hrate. by eexists.
  - destruct (Hseasons "summer" [6; 7] (or_intror (or_introl eq_refl))) as (_ & Hno & _).
    apply Hno. vm_compute. reflexivity.
Defined.

Lemma hotspots_sorted_by_rate_then_detections_witness :
  OccurrenceCalculator.calculate_occurrence_rates sample_hotspots sample_detections
    OccurrenceCalculator.MIN_CHECKLISTS_THRESHOLD = Ok sample_guides
  ∧ dict_get "Sora" sample_guides = Some sora_guide
  ∧ OccurrenceCalculator.hotspots sora_guide !! 0%nat = Some sora_at_L1
  ∧ OccurrenceCalculator.hotspots sora_guide !! 1%nat = Some sora_at_L3
  ∧ (float_lt (OccurrenceCalculator.occurrence_rate sora_at_L3)
       (OccurrenceCalculator.occurrence_rate sora_at_L1)
     ∨ (float_eq (OccurrenceCalculator.occurrence_rate sora_at_L1)
          (OccurrenceCalculator.occurrence_rate sora_at_L3)
        ∧ OccurrenceCalculator.detection_count sora_at_L3
          ≤ OccurrenceCalculator.detection_count sora_at_L1)).
Proof.
  split; [exact sample_run|]. split; [reflexivity|].
  split; [reflexivity|]. split; [reflexivity|].
  exact (hotspots_sorted_by_rate_then_detections sample_hotspots sample_detections
           OccurrenceCalculator.MIN_CHECKLISTS_THRESHOLD sample_guides "Sora"
           sora_guide 0%nat sora_at_L1 sora_at_L3 sample_run eq_refl eq_refl eq_refl).
Defined.

Lemma listed_only_above_threshold_witness :
  OccurrenceCalculator.calculate_occurrence_rates sample_hotspots sample_detections
    OccurrenceCalculator.MIN_CHECKLISTS_THRESHOLD = Ok sample_guides
  ∧ dict_get "Sora" sample_guides = Some sora_guide
  ∧ In sora_at_L1 (OccurrenceCalculator.hotspots sora_guide)
  ∧ ∃ h, dict_get "L1" sample_hotspots = Some h
         ∧ OccurrenceCalculator.MIN_CHECKLISTS_THRESHOLD ≤ total_checklists h
         ∧ 12 = total_checklists h
         ∧ (OccurrenceCalculator.MIN_CHECKLISTS_THRESHOLD
            = OccurrenceCalculator.MIN_CHECKLISTS_THRESHOLD →
            9 < total_checklists h).
Proof.
  split; [exact sample_run|]. split; [reflexivity|]. split; [left; reflexivity|].
  exact (listed_only_above_threshold sample_hotspots sample_detections
           OccurrenceCalculator.MIN_CHECKLISTS_THRESHOLD sample_guides "Sora"
           sora_guide sora_at_L1 sample_run eq_refl (or_introl eq_refl)).
Defined.


Lemma scientific_name_is_last_seen_witness :
  SpeciesDetector.add_row [] (seven_soras, 1) = Ok after_seven_soras
  ∧ scientific_name (detection_at "Sora" "L1" after_seven_soras)
    = Some "Porzana carolina".
Proof.
  assert (Hrun : SpeciesDetector.add_row [] (seven_soras, 1) = Ok after_seven_soras)
    by (vm_compute; reflexivity).
  split; [exact Hrun|].
  exact (scientific_name_is_last_seen [] after_seven_soras seven_soras 1 Hrun).
Defined.


Lemma monthly_counts_sum_to_total_witness :
  (∃ chunks, ChecklistCounter.count_checklists_per_hotspot chunks = Ok sample_hotspots)
  ∧ dict_get "L1" sample_hotspots = Some L1_record
  ∧ dom (monthly_checklists L1_record) = list_to_set months
  ∧ sum_values (monthly_checklists L1_record) = total_checklists L1_record.
Proof.
  assert (Hrun : ∃ chunks,
            ChecklistCounter.count_checklists_per_hotspot chunks = Ok sample_hotspots)
    by (exists sample_sampling; vm_compute; reflexivity).
  assert (Hget : dict_get "L1" sample_hotspots = Some L1_record)
    by (vm_compute; reflexivity).
  split; [exact Hrun|]. split; [exact Hget|].
  exact (monthly_counts_sum_to_total sample_hotspots "L1" L1_record
           (or_intror Hrun) Hget).
Defined.

Lemma guide_scientific_name_witness :
  NoDup (dict_keys sample_detections)
  ∧ OccurrenceCalculator.calculate_occurrence_rates sample_hotspots sample_detections
      OccurrenceCalculator.MIN_CHECKLISTS_THRESHOLD = Ok sample_guides
  ∧ dict_get "Sora" sample_detections = Some sora_locations
  ∧ (scientific_name <$> dict_get "L2" sora_locations) = Some (Some "Porzana sp.")
  ∧ ∃ g, dict_get "Sora" sample_guides = Some g
         ∧ OccurrenceCalculator.scientific_name g = "Porzana carolina".
Proof.
  assert (Hitems : dict_get "Sora" sample_detections = Some sora_locations)
    by (vm_compute; reflexivity).
  split; [exact sample_detections_NoDup|]. split; [exact sample_run|].
  split; [exact Hitems|]. split; [vm_compute; reflexivity|].
  destruct (guide_scientific_name sample_hotspots sample_detections
              OccurrenceCalculator.MIN_CHECKLISTS_THRESHOLD sample_guides "Sora"
              sora_locations sample_detections_NoDup sample_run Hitems)
    as (g & Hg & Hfirst & _).
  exists g. split; [exact Hg|].
  eapply (Hfirst [_] _ _ [_] _).
  - vm_compute. reflexivity.
  - intros loc' d' [Heq|[]]. injection Heq as <- _. vm_compute. reflexivity.
  - vm_compute. eexists. reflexivity.
  - reflexivity.
Defined.

(** * Further properties *)

(** ** What the visit accumulator holds *)

Lemma dict_getitem_Some {K V : Type} `{EqDecision K} (k : K) (v : V) (d : dict K V) :
  dict_get k d = Some v → dict_getitem k d = Ok v.
Proof. unfold dict_getitem. by intros ->. Qed.

Lemma counter_add_row_eq (hotspot_data : dict string hotspot)
    (r : ChecklistCounter.row) (month : Z) :
  let loc_id := ChecklistCounter.LOCALITY_ID r in
  let h := default (ChecklistCounter.new_hotspot r) (dict_get loc_id hotspot_data) in
  ChecklistCounter.add_row hotspot_data (r, month)
  = match monthly_checklists h !! month with
    | Some c =>
        Ok (dict_set loc_id
              (Hotspot (name h) (latitude h) (longitude h) (total_checklists h + 1)
                 (<[month := c + 1]> (monthly_checklists h)))
              hotspot_data)
    | None => Raise KeyError
    end.
Proof.
  cbv zeta. unfold ChecklistCounter.add_row.
  set (loc_id := ChecklistCounter.LOCALITY_ID r).
  destruct (dict_get loc_id hotspot_data) as [h|] eqn:Hget; cbn [default id].
  - rewrite (dict_getitem_Some _ _ _ Hget). cbn [mbind result_bind].
    rewrite (dict_getitem_Some _ _ _ (dict_get_set_eq _ _ _)). cbn [mbind result_bind].
    cbn [name latitude longitude total_checklists monthly_checklists].
    unfold map_getitem. destruct (monthly_checklists h !! month); cbn [mbind result_bind];
      [|done].
    by rewrite dict_set_set.
  - rewrite (dict_getitem_Some _ _ _ (dict_get_set_eq _ _ _)). cbn [mbind result_bind].
    rewrite (dict_getitem_Some _ _ _ (dict_get_set_eq _ _ _)). cbn [mbind result_bind].
    cbn [name latitude longitude total_checklists monthly_checklists].
    unfold map_getitem.
    destruct (monthly_checklists (ChecklistCounter.new_hotspot r) !! month);
      cbn [mbind result_bind]; [|done].
    by rewrite !dict_set_set.
Qed.

Lemma zero_table_lookup (m c : Z) :
  (list_to_map ((fun m => (m, 0)) <$> months) : gmap Z Z) !! m = Some c → c = 0.
Proof.
  intros Hm. apply elem_of_list_to_map_2 in Hm.
  apply list_elem_of_fmap in Hm as (m' & Heq & _). by inversion Heq.
Qed.

Lemma filter_snoc {A : Type} (f : A → bool) (l : list A) (x : A) :
  List.filter f (l ++ [x]) = (List.filter f l ++ if f x then [x] else [])%list.
Proof. rewrite List.filter_app. cbn. by destruct (f x). Qed.

Lemma counter_rows_spec (rms : list (ChecklistCounter.row * Z))
    (hotspot_data : dict string hotspot) :
  for_each ChecklistCounter.add_row [] rms = Ok hotspot_data →
  counter_holds rms hotspot_data.
Proof.
  revert hotspot_data. induction rms as [|[r month] rms IH] using rev_ind;
    intros hd Hrun.
  - inversion Hrun; subst hd. intros loc_id. reflexivity.
  - rewrite for_each_app in Hrun. apply bind_Ok in Hrun as (hd1 & Hrms & Hstep).
    cbn [for_each] in Hstep. apply bind_Ok in Hstep as (hd2 & Hstep & Heq).
    inversion Heq; subst hd2; clear Heq.
    rewrite counter_add_row_eq in Hstep. cbv zeta in Hstep.
    specialize (IH hd1 Hrms). intros loc_id. cbv zeta.
    specialize (IH loc_id). cbv zeta in IH.
    rewrite filter_snoc. cbn [fst].
    destruct (String.eqb_spec (ChecklistCounter.LOCALITY_ID r) loc_id) as [Hloc|Hloc].
    + rewrite Hloc in Hstep.
      destruct (List.filter _ rms) as [|rm0 rest] eqn:Hhere.
      * rewrite IH in Hstep. cbn [default from_option id] in Hstep.
        destruct (monthly_checklists (ChecklistCounter.new_hotspot r) !! month)
          as [c|] eqn:Hc; [|discriminate Hstep].
        inversion Hstep; subst hd; clear Hstep.
        apply zero_table_lookup in Hc as ->.
        cbn [app]. eexists. split; [apply dict_get_set_eq|].
        cbn [name latitude longitude total_checklists monthly_checklists fst].
        repeat (split; [reflexivity|]).
        intros m c Hm. cbn [List.filter snd].
        destruct (Z.eqb_spec month m) as [->|Hne].
        -- rewrite lookup_insert_eq in Hm. by inversion Hm.
        -- rewrite lookup_insert_ne in Hm by done.
           by apply zero_table_lookup in Hm as ->.
      * destruct IH as (h & Hget & Hname & Hlat & Hlon & Htotal & Hmonthly).
        rewrite Hget in Hstep. cbn [default from_option id] in Hstep.
        destruct (monthly_checklists h !! month) as [c|] eqn:Hc; [|discriminate Hstep].
        inversion Hstep; subst hd; clear Hstep.
        cbn [app]. eexists. split; [apply dict_get_set_eq|].
        cbn [name latitude longitude total_checklists monthly_checklists fst].
        repeat (split; [assumption|]). split.
        -- rewrite Htotal. change (rm0 :: rest ++ [(r, month)])%list
             with ((rm0 :: rest) ++ [(r, month)])%list.
           rewrite length_app. cbn [List.length]. lia.
        -- intros m c' Hm.
           change (rm0 :: rest ++ [(r, month)])%list
             with ((rm0 :: rest) ++ [(r, month)])%list.
           rewrite filter_snoc, length_app. cbn [snd].
           destruct (Z.eqb_spec month m) as [->|Hne].
           ++ rewrite lookup_insert_eq in Hm. inversion Hm; subst c'.
              rewrite (Hmonthly m c Hc). cbn [List.length]. lia.
           ++ rewrite lookup_insert_ne in Hm by done.
              rewrite (Hmonthly m c' Hm). cbn [List.length]. lia.
    + rewrite app_nil_r.
      destruct (monthly_checklists _ !! month) as [c|]; [|discriminate Hstep].
      inversion Hstep; subst hd; clear Hstep.
      rewrite dict_get_set_ne by done. exact IH.
Qed.

Lemma month_of_range (d : date_cell) (m : Z) : month_of d = Ok m → 1 ≤ m ≤ 12.
Proof.
  destruct d as [y m' dd|t]; cbn; [|done].
  destruct ((1 <=? m') && (m' <=? 12)) eqn:Hrange; [|done].
  intros [= <-]. apply andb_true_iff in Hrange as [H1 H2].
  apply Z.leb_le in H1, H2. lia.
Qed.


Lemma months_elem (m : Z) : m ∈ (list_to_set months : gset Z) ↔ 1 ≤ m ≤ 12.
Proof. unfold months. rewrite elem_of_list_to_set, elem_of_seqZ. lia. Qed.

Section ReadMonths.
Context {R : Type} (date : R → date_cell).

Lemma read_months_cons (r : R) (rows : list R) :
  read_months date (r :: rows)
  = (m ← month_of (date r); rms ← read_months date rows; Ok ((r, m) :: rms)).
Proof.
  unfold read_months. cbn [mapM].
  destruct (month_of (date r)) as [m|e]; cbn [mbind result_bind mret result_ret];
    reflexivity.
Qed.

Lemma read_months_Ok (rows : list R) (rms : list (R * Z)) :
  read_months date rows = Ok rms →
  map fst rms = rows
  ∧ Forall (fun rm => month_of (date (fst rm)) = Ok (snd rm)) rms.
Proof.
  revert rms. induction rows as [|r rows IH]; intros rms.
  - intros [= <-]. by split.
  - rewrite read_months_cons. intros Hrun.
    apply bind_Ok in Hrun as (m & Hm & Hrun).
    apply bind_Ok in Hrun as (rms' & Hrms & Heq). inversion Heq; subst rms.
    destruct (IH _ Hrms) as [Hfst Hall]. split; [cbn; by rewrite Hfst|].
    by constructor.
Qed.



Lemma dated_rows_month_count (f : R → bool) (m : Z) (rms : list (R * Z)) :
  Forall (fun rm => month_of (date (fst rm)) = Ok (snd rm)) rms →
  List.length (List.filter (fun rm => snd rm =? m) (List.filter (fun rm => f (fst rm)) rms))
  = List.length (List.filter (fun r => in_month m (date r))
                   (List.filter f (map fst rms))).
Proof.
  induction 1 as [|[r m'] rms Hm _ IH]; [done|]. cbn [List.filter map fst].
  destruct (f r); [|exact IH]. cbn [List.filter snd].
  unfold in_month at 1. cbn [fst snd] in Hm. rewrite Hm.
  destruct (m' =? m); cbn [List.length]; by rewrite IH.
Qed.
End ReadMonths.

Lemma filter_map_fst {A B : Type} (f : A → bool) (l : list (A * B)) :
  map fst (List.filter (fun x => f (fst x)) l) = List.filter f (map fst l).
Proof.
  induction l as [|[a b] l IH]; [done|]. cbn. destruct (f a); cbn; by rewrite IH.
Qed.

Lemma filter_filter_andb {A : Type} (f g : A → bool) (l : list A) :
  List.filter g (List.filter f l) = List.filter (fun x => f x && g x) l.
Proof.
  induction l as [|a l IH]; [done|]. cbn. destruct (f a); cbn; [|done].
  destruct (g a); by rewrite IH.
Qed.

Lemma count_checklists_rows (chunks : list (list ChecklistCounter.row))
    (hotspot_data : dict string hotspot) :
  ChecklistCounter.count_checklists_per_hotspot chunks = Ok hotspot_data →
  ∃ rms,
    read_months ChecklistCounter.OBSERVATION_DATE
      (List.filter ChecklistCounter.mask (List.concat chunks)) = Ok rms
    ∧ for_each ChecklistCounter.add_row [] rms = Ok hotspot_data.
Proof.
  intros Hrun.
  pose proof (chunks_as_one ChecklistCounter.mask ChecklistCounter.OBSERVATION_DATE
                ChecklistCounter.add_row chunks []) as Hone.
  change (run_chunk ChecklistCounter.mask ChecklistCounter.OBSERVATION_DATE
            ChecklistCounter.add_row) with ChecklistCounter.process_chunk in Hone at 1.
  fold (ChecklistCounter.count_checklists_per_hotspot chunks) in Hone.
  rewrite Hrun in Hone. cbn [returned] in Hone.
  destruct (run_chunk _ _ _ _ _) as [hd|e] eqn:Hchunk; [|done].
  inversion Hone; subst hd. unfold run_chunk in Hchunk.
  apply bind_Ok in Hchunk as (rms & Hrms & Hfold). by exists rms.
Qed.

(** The whole of what [count_checklists_per_hotspot] returns, row by row. *)
Lemma counter_spec (chunks : list (list ChecklistCounter.row))
    (hotspot_data : dict string hotspot) (loc_id : string) :
  ChecklistCounter.count_checklists_per_hotspot chunks = Ok hotspot_data →
  match visits_at loc_id (List.concat chunks) with
  | [] => dict_get loc_id hotspot_data = None
  | r0 :: _ =>
      ∃ h, dict_get loc_id hotspot_data = Some h
           ∧ name h = ChecklistCounter.LOCALITY r0
           ∧ latitude h = ChecklistCounter.LATITUDE r0
           ∧ longitude h = ChecklistCounter.LONGITUDE r0
           ∧ total_checklists h
             = Z.of_nat (List.length (visits_at loc_id (List.concat chunks)))
           ∧ ∀ m, monthly_checklists h !! m
                  = if (1 <=? m) && (m <=? 12)
                    then Some (Z.of_nat
                                 (List.length
                                    (List.filter
                                       (fun r => in_month m (ChecklistCounter.OBSERVATION_DATE r))
                                       (visits_at loc_id (List.concat chunks)))))
                    else None
  end.
Proof.
  intros Hrun.
  pose proof (visited_additive _ (count_checklists_visited _ _ Hrun)) as Hadd.
  apply count_checklists_rows in Hrun as (rms & Hrms & Hfold).
  apply read_months_Ok in Hrms as [Hfst Hdated].
  pose proof (counter_rows_spec _ _ Hfold loc_id) as Hspec. cbv zeta in Hspec.
  pose (f := fun r => String.eqb (ChecklistCounter.LOCALITY_ID r) loc_id).
  change (List.filter _ rms) with (List.filter (fun rm => f (fst rm)) rms) in Hspec.
  assert (Hvisits : visits_at loc_id (List.concat chunks)
                    = map fst (List.filter (fun rm => f (fst rm)) rms)).
  { unfold visits_at. rewrite filter_map_fst, Hfst. symmetry. apply filter_filter_andb. }
  assert (Hcount : ∀ m,
            List.length (List.filter (fun rm => snd rm =? m)
                           (List.filter (fun rm => f (fst rm)) rms))
            = List.length (List.filter
                             (fun r => in_month m (ChecklistCounter.OBSERVATION_DATE r))
                             (visits_at loc_id (List.concat chunks)))).
  { intros m. rewrite (dated_rows_month_count _ f m rms Hdated).
    unfold visits_at. by rewrite Hfst, (filter_filter_andb ChecklistCounter.mask f). }
  remember (visits_at loc_id (List.concat chunks)) as vs eqn:Hvs. clear Hvs.
  destruct (List.filter (fun rm => f (fst rm)) rms) as [|rm0 rest] eqn:Hhere;
    cbn [map] in Hvisits; subst vs; [exact Hspec|].
  destruct Hspec as (h & Hget & Hname & Hlat & Hlon & Htotal & Hmonthly).
  exists h. repeat (split; [assumption|]). split.
  { rewrite Htotal. cbn [List.length]. by rewrite length_map. }
  intros m. rewrite <- Hcount.
  destruct (Forall_dict_get additive _ _ _ Hadd Hget) as [Hdom _].
  destruct (monthly_checklists h !! m) as [c|] eqn:Hm.
  - apply (elem_of_dom_2 (D := gset Z)) in Hm as Hin. rewrite Hdom, months_elem in Hin.
    destruct ((1 <=? m) && (m <=? 12)) eqn:Hrange.
    + f_equal. apply (Hmonthly m c Hm).
    + apply andb_false_iff in Hrange as [H|H]; apply Z.leb_gt in H; lia.
  - apply (not_elem_of_dom (D := gset Z)) in Hm. rewrite Hdom, months_elem in Hm.
    destruct ((1 <=? m) && (m <=? 12)) eqn:Hrange; [|done].
    apply andb_true_iff in Hrange as [H1 H2]. apply Z.leb_le in H1, H2. lia.
Qed.





Lemma read_months_dated {R : Type} (date : R → date_cell) (rows : list R)
    (rms : list (R * Z)) :
  read_months date rows = Ok rms → ∀ r, In r rows → dated (date r) = true.
Proof.
  intros Hrun r Hin. apply read_months_Ok in Hrun as [<- Hall].
  apply in_map_iff in Hin as (rm & <- & Hrm).
  rewrite List.Forall_forall in Hall. unfold dated. by rewrite (Hall rm Hrm).
Qed.

(** X1.  In the mapping the visit counter returns, a location is present
    exactly when the file has a qualifying row for it, and its total is the
    number of those rows: a checklist that is listed twice counts twice. *)
Theorem visits_are_counted_by_row (chunks : list (list ChecklistCounter.row))
    (hotspot_data : dict string hotspot) (loc_id : string) :
  ChecklistCounter.count_checklists_per_hotspot chunks = Ok hotspot_data →
  (dict_get loc_id hotspot_data = None ↔ visits_at loc_id (List.concat chunks) = [])
  ∧ ∀ h, dict_get loc_id hotspot_data = Some h →
         total_checklists h
         = Z.of_nat (List.length (visits_at loc_id (List.concat chunks))).
Proof.
  intros Hrun. pose proof (counter_spec chunks hotspot_data loc_id Hrun) as Hspec.
  destruct (visits_at loc_id (List.concat chunks)) as [|r0 rest].
  - split; [done|]. intros h Hh. congruence.
  - destruct Hspec as (h & Hget & _ & _ & _ & Htotal & _). split.
    + split; [congruence | discriminate].
    + intros h' Hh'. congruence.
Qed.

(** X2.  The monthly table of a location holds, under each month 1..12,
    the number of the location's qualifying rows dated in that month, and
    nothing under any other key. *)
Theorem monthly_visits_are_counted_by_row (chunks : list (list ChecklistCounter.row))
    (hotspot_data : dict string hotspot) (loc_id : string) (h : hotspot) (m : Z) :
  ChecklistCounter.count_checklists_per_hotspot chunks = Ok hotspot_data →
  dict_get loc_id hotspot_data = Some h →
  monthly_checklists h !! m
  = if (1 <=? m) && (m <=? 12)
    then Some (Z.of_nat
                 (List.length
                    (List.filter
                       (fun r => in_month m (ChecklistCounter.OBSERVATION_DATE r))
                       (visits_at loc_id (List.concat chunks)))))
    else None.
Proof.
  intros Hrun Hh. pose proof (counter_spec chunks hotspot_data loc_id Hrun) as Hspec.
  destruct (visits_at loc_id (List.concat chunks)) as [|r0 rest]; [congruence|].
  destruct Hspec as (h' & Hget & _ & _ & _ & _ & Hmonthly).
  rewrite Hh in Hget. inversion Hget; subst h'. apply Hmonthly.
Qed.

(** X3.  The display name and the coordinates of a location are those of
    its first qualifying row; later rows of the location never change them. *)
Theorem hotspot_metadata_from_first_visit (chunks : list (list ChecklistCounter.row))
    (hotspot_data : dict string hotspot) (loc_id : string) (h : hotspot) :
  ChecklistCounter.count_checklists_per_hotspot chunks = Ok hotspot_data →
  dict_get loc_id hotspot_data = Some h →
  ∃ r rest,
    visits_at loc_id (List.concat chunks) = r :: rest
    ∧ name h = ChecklistCounter.LOCALITY r
    ∧ latitude h = ChecklistCounter.LATITUDE r
    ∧ longitude h = ChecklistCounter.LONGITUDE r.
Proof.
  intros Hrun Hh. pose proof (counter_spec chunks hotspot_data loc_id Hrun) as Hspec.
  destruct (visits_at loc_id (List.concat chunks)) as [|r0 rest]; [congruence|].
  destruct Hspec as (h' & Hget & Hname & Hlat & Hlon & _).
  rewrite Hh in Hget. inversion Hget; subst h'. by exists r0, rest.
Qed.





(** ** What the detection accumulator holds *)

Lemma detection_at_lookup (species loc_id : string)
    (species_detections : dict string (dict string detection)) :
  detection_at species loc_id species_detections
  = default SpeciesDetector.new_detection
      (detection_lookup species loc_id species_detections).
Proof.
  unfold detection_at, detection_lookup.
  by destruct (dict_get species species_detections).
Qed.

Lemma detection_lookup_set (species loc_id s0 loc0 : string) (d : detection)
    (species_detections : dict string (dict string detection)) :
  detection_lookup species loc_id
    (dict_set s0 (dict_set loc0 d (default [] (dict_get s0 species_detections)))
       species_detections)
  = if decide (s0 = species ∧ loc0 = loc_id) then Some d
    else detection_lookup species loc_id species_detections.
Proof.
  unfold detection_lookup.
  destruct (decide (s0 = species)) as [->|Hs].
  - rewrite dict_get_set_eq.
    destruct (decide (loc0 = loc_id)) as [->|Hloc].
    + rewrite dict_get_set_eq. by rewrite decide_True.
    + rewrite dict_get_set_ne by done. rewrite decide_False by (intros []; done).
      by destruct (dict_get species species_detections).
  - rewrite dict_get_set_ne by done. by rewrite decide_False by (intros []; done).
Qed.

Lemma detector_add_row_eq (species_detections : dict string (dict string detection))
    (r : SpeciesDetector.row) (month : Z) :
  let species := SpeciesDetector.COMMON_NAME r in
  let loc_id := SpeciesDetector.LOCALITY_ID r in
  let checklist_id := SpeciesDetector.SAMPLING_EVENT_IDENTIFIER r in
  let data := detection_at species loc_id species_detections in
  SpeciesDetector.add_row species_detections (r, month)
  = match monthly_checklist_ids data !! month with
    | Some ids =>
        Ok (dict_set species
              (dict_set loc_id
                 (SpeciesDetector.add_count (SpeciesDetector.OBSERVATION_COUNT r)
                    (Detection (Some (SpeciesDetector.SCIENTIFIC_NAME r))
                       ({[checklist_id]} ∪ checklist_ids data)
                       (<[month := {[checklist_id]} ∪ ids]> (monthly_checklist_ids data))
                       (total_count data) (max_count data)))
                 (default [] (dict_get species species_detections)))
              species_detections)
    | None => Raise KeyError
    end.
Proof.
  cbv zeta. unfold SpeciesDetector.add_row, SpeciesDetector.update, detection_at, map_getitem.
  by destruct (monthly_checklist_ids _ !! month).
Qed.

Lemma empty_table_lookup (m : Z) (ids : gset string) :
  (list_to_map ((fun m => (m, ∅)) <$> months) : gmap Z (gset string)) !! m = Some ids →
  ids = ∅.
Proof.
  intros Hm. apply elem_of_list_to_map_2 in Hm.
  apply list_elem_of_fmap in Hm as (m' & Heq & _). by inversion Heq.
Qed.

Lemma new_detection_matches : detection_matches [] SpeciesDetector.new_detection.
Proof.
  repeat split.
  intros m ids Hm. cbn in Hm. apply empty_table_lookup in Hm as ->. reflexivity.
Qed.

Lemma foldr_add_snoc (l : list Z) (n : Z) :
  foldr Z.add 0 (l ++ [n]) = foldr Z.add 0 l + n.
Proof. induction l as [|a l IH]; cbn; [lia | rewrite IH; lia]. Qed.

Lemma foldr_max_snoc (l : list Z) (n : Z) :
  foldr Z.max 0 (l ++ [n]) = Z.max (foldr Z.max 0 l) n.
Proof. induction l as [|a l IH]; cbn; [lia | rewrite IH; lia]. Qed.

Lemma count_snoc (rows : list SpeciesDetector.row) (r : SpeciesDetector.row) :
  count_sum (rows ++ [r])
  = count_sum rows + default 0 (counted (SpeciesDetector.OBSERVATION_COUNT r))
  ∧ count_max (rows ++ [r])
    = match counted (SpeciesDetector.OBSERVATION_COUNT r) with
      | Some n => Z.max (count_max rows) n
      | None => count_max rows
      end.
Proof.
  unfold count_sum, count_max. rewrite omap_app. simpl (omap _ [r]).
  destruct (counted (SpeciesDetector.OBSERVATION_COUNT r)) as [n|]; cbn [default from_option id].
  - by rewrite foldr_add_snoc, foldr_max_snoc.
  - rewrite app_nil_r. split; [lia | done].
Qed.

Lemma add_count_counts (c : cell) (d : detection) :
  total_count (SpeciesDetector.add_count c d) = total_count d + default 0 (counted c)
  ∧ max_count (SpeciesDetector.add_count c d)
    = match counted c with
      | Some n => Z.max (max_count d) n
      | None => max_count d
      end.
Proof.
  unfold SpeciesDetector.add_count, counted.
  destruct (has_count c); cbn; [|split; [lia | done]].
  destruct (py_int c) as [n|e]; cbn; [done | split; [lia | done]].
Qed.

Lemma list_to_set_snoc (l : list string) (x : string) :
  (list_to_set (l ++ [x]) : gset string) = {[x]} ∪ list_to_set l.
Proof.
  rewrite list_to_set_app_L. cbn [list_to_set foldr].
  rewrite union_empty_r_L. apply union_comm_L.
Qed.

Lemma detection_matches_step (here : list (SpeciesDetector.row * Z)) (d : detection)
    (r : SpeciesDetector.row) (month : Z) (ids : gset string) :
  detection_matches here d →
  monthly_checklist_ids d !! month = Some ids →
  detection_matches (here ++ [(r, month)])
    (SpeciesDetector.add_count (SpeciesDetector.OBSERVATION_COUNT r)
       (Detection (Some (SpeciesDetector.SCIENTIFIC_NAME r))
          ({[SpeciesDetector.SAMPLING_EVENT_IDENTIFIER r]} ∪ checklist_ids d)
          (<[month := {[SpeciesDetector.SAMPLING_EVENT_IDENTIFIER r]} ∪ ids]>
             (monthly_checklist_ids d))
          (total_count d) (max_count d))).
Proof.
  intros (Hname & Hids & Hdom & Hmonthly & Htotal & Hmax) Hmonth.
  set (D := Detection _ _ _ _ _).
  destruct (add_count_ids (SpeciesDetector.OBSERVATION_COUNT r) D) as (Hn & Hi & Hm).
  destruct (add_count_counts (SpeciesDetector.OBSERVATION_COUNT r) D) as (Ht & Hx).
  destruct (count_snoc (fst <$> here) r) as [Hsum Hmx].
  unfold detection_matches.
  rewrite Hn, Hi, Hm, Ht, Hx. subst D.
  cbn [scientific_name checklist_ids monthly_checklist_ids total_count max_count].
  rewrite last_snoc, !fmap_app. cbn [fmap list_fmap fst option_fmap option_map].
  rewrite Hsum, Hmx, <- Htotal, <- Hmax.
  split; [done|]. split.
  { by rewrite list_to_set_snoc, Hids. }
  split.
  { rewrite dom_insert_L, Hdom.
    apply (elem_of_dom_2 (D := gset Z)) in Hmonth. rewrite Hdom in Hmonth.
    apply set_eq. intros k. rewrite elem_of_union, elem_of_singleton.
    split; [intros [->|?]; done | by right]. }
  split; [|done].
  intros m ids' Hm'. rewrite filter_snoc. cbn [snd].
  destruct (Z.eqb_spec month m) as [->|Hne].
  - rewrite lookup_insert_eq in Hm'. inversion Hm'; subst ids'.
    rewrite fmap_app. cbn [fmap list_fmap fst].
    by rewrite list_to_set_snoc, <- (Hmonthly m ids Hmonth).
  - rewrite lookup_insert_ne in Hm' by done. rewrite app_nil_r. by apply Hmonthly.
Qed.

Lemma detector_rows_spec (rms : list (SpeciesDetector.row * Z))
    (species_detections : dict string (dict string detection)) :
  for_each SpeciesDetector.add_row [] rms = Ok species_detections →
  detector_holds rms species_detections.
Proof.
  revert species_detections. induction rms as [|[r month] rms IH] using rev_ind;
    intros sd Hrun.
  - inversion Hrun; subst sd. intros species loc_id. cbv zeta. split; [done|].
    apply new_detection_matches.
  - rewrite for_each_app in Hrun. apply bind_Ok in Hrun as (sd1 & Hrms & Hstep).
    cbn [for_each] in Hstep. apply bind_Ok in Hstep as (sd2 & Hstep & Heq).
    inversion Heq; subst sd2; clear Heq.
    rewrite detector_add_row_eq in Hstep. cbv zeta in Hstep.
    specialize (IH sd1 Hrms).
    destruct (monthly_checklist_ids _ !! month) as [ids|] eqn:Hmonth; [|discriminate Hstep].
    inversion Hstep; subst sd; clear Hstep.
    intros species loc_id. cbv zeta. specialize (IH species loc_id). cbv zeta in IH.
    rewrite filter_snoc. cbn [fst].
    rewrite (detection_at_lookup species loc_id), detection_lookup_set.
    destruct (String.eqb_spec (SpeciesDetector.COMMON_NAME r) species) as [Hs|Hs];
      [destruct (String.eqb_spec (SpeciesDetector.LOCALITY_ID r) loc_id) as [Hl|Hl]|];
      cbn [andb].
    + rewrite decide_True by done. subst species loc_id. split.
      * split; [discriminate | by intros ?%app_eq_nil; destruct_and?].
      * cbn [default from_option id]. apply detection_matches_step; [apply IH | done].
    + rewrite decide_False by (intros []; done). rewrite app_nil_r.
      by rewrite <- detection_at_lookup.
    + rewrite decide_False by (intros []; done). rewrite app_nil_r.
      by rewrite <- detection_at_lookup.
Qed.

Lemma dated_rows_in_month {R : Type} (date : R → date_cell) (f : R → bool) (m : Z)
    (rms : list (R * Z)) :
  Forall (fun rm => month_of (date (fst rm)) = Ok (snd rm)) rms →
  map fst (List.filter (fun rm => snd rm =? m) (List.filter (fun rm => f (fst rm)) rms))
  = List.filter (fun r => in_month m (date r)) (List.filter f (map fst rms)).
Proof.
  induction 1 as [|[r m'] rms Hm _ IH]; [done|]. cbn [List.filter map fst].
  destruct (f r); [|exact IH]. cbn [List.filter snd].
  unfold in_month at 1. cbn [fst snd] in Hm. rewrite Hm.
  destruct (m' =? m); cbn [map fst]; by rewrite IH.
Qed.

Lemma count_species_rows (chunks : list (list SpeciesDetector.row))
    (species_detections : dict string (dict string detection)) :
  SpeciesDetector.count_species_detections chunks = Ok species_detections →
  ∃ rms,
    read_months SpeciesDetector.OBSERVATION_DATE
      (List.filter SpeciesDetector.mask (List.concat chunks)) = Ok rms
    ∧ for_each SpeciesDetector.add_row [] rms = Ok species_detections.
Proof.
  intros Hrun.
  pose proof (chunks_as_one SpeciesDetector.mask SpeciesDetector.OBSERVATION_DATE
                SpeciesDetector.add_row chunks []) as Hone.
  change (run_chunk SpeciesDetector.mask SpeciesDetector.OBSERVATION_DATE
            SpeciesDetector.add_row) with SpeciesDetector.process_chunk in Hone at 1.
  fold (SpeciesDetector.count_species_detections chunks) in Hone.
  rewrite Hrun in Hone. cbn [returned] in Hone.
  destruct (run_chunk _ _ _ _ _) as [sd|e] eqn:Hchunk; [|done].
  inversion Hone; subst sd. unfold run_chunk in Hchunk.
  apply bind_Ok in Hchunk as (rms & Hrms & Hfold). by exists rms.
Qed.

(** The whole of what [count_species_detections] returns, row by row. *)
Lemma detector_spec (chunks : list (list SpeciesDetector.row))
    (species_detections : dict string (dict string detection))
    (species loc_id : string) :
  SpeciesDetector.count_species_detections chunks = Ok species_detections →
  let rows := sightings_of species loc_id (List.concat chunks) in
  let d := detection_at species loc_id species_detections in
  (detection_lookup species loc_id species_detections = None ↔ rows = [])
  ∧ scientific_name d = SpeciesDetector.SCIENTIFIC_NAME <$> last rows
  ∧ checklist_ids d = list_to_set (SpeciesDetector.SAMPLING_EVENT_IDENTIFIER <$> rows)
  ∧ (∀ m, monthly_checklist_ids d !! m
          = if (1 <=? m) && (m <=? 12)
            then Some (list_to_set
                         (SpeciesDetector.SAMPLING_EVENT_IDENTIFIER
                            <$> List.filter
                                  (fun r => in_month m (SpeciesDetector.OBSERVATION_DATE r))
                                  rows))
            else None)
  ∧ total_count d = count_sum rows
  ∧ max_count d = count_max rows.
Proof.
  intros Hrun. cbv zeta.
  apply count_species_rows in Hrun as (rms & Hrms & Hfold).
  apply read_months_Ok in Hrms as [Hfst Hdated].
  pose proof (detector_rows_spec _ _ Hfold species loc_id) as Hspec. cbv zeta in Hspec.
  pose (f := fun r => String.eqb (SpeciesDetector.COMMON_NAME r) species
                      && String.eqb (SpeciesDetector.LOCALITY_ID r) loc_id).
  change (List.filter _ rms) with (List.filter (fun rm => f (fst rm)) rms) in Hspec.
  assert (Hrows : sightings_of species loc_id (List.concat chunks)
                  = map fst (List.filter (fun rm => f (fst rm)) rms)).
  { unfold sightings_of. rewrite filter_map_fst, Hfst, filter_filter_andb.
    apply List.filter_ext. intros r. subst f. cbn. by rewrite andb_assoc. }
  assert (Hmonth : ∀ m,
            map fst (List.filter (fun rm => snd rm =? m)
                       (List.filter (fun rm => f (fst rm)) rms))
            = List.filter (fun r => in_month m (SpeciesDetector.OBSERVATION_DATE r))
                (sightings_of species loc_id (List.concat chunks))).
  { intros m. rewrite (dated_rows_in_month _ f m rms Hdated), Hrows.
    by rewrite filter_map_fst. }
  set (here := List.filter (fun rm => f (fst rm)) rms) in *.
  destruct Hspec as [Hnone (Hname & Hids & Hdom & Hmonthly & Htotal & Hmax)].
  rewrite Hrows. split.
  { rewrite Hnone. split; [by intros -> | by intros ?%fmap_nil_inv]. }
  split.
  { rewrite Hname. change (map fst here) with (fst <$> here).
    rewrite fmap_last. by destruct (last here). }
  split.
  { rewrite Hids. change (map fst here) with (fst <$> here).
    by rewrite <- list_fmap_compose. }
  split; [|done].
  intros m. rewrite <- Hrows, <- Hmonth.
  change (map fst ?l) with (fst <$> l). rewrite <- list_fmap_compose.
  destruct (monthly_checklist_ids _ !! m) as [ids|] eqn:Hm.
  - apply (elem_of_dom_2 (D := gset Z)) in Hm as Hin. rewrite Hdom, months_elem in Hin.
    destruct ((1 <=? m) && (m <=? 12)) eqn:Hrange.
    + f_equal. apply (Hmonthly m ids Hm).
    + apply andb_false_iff in Hrange as [H|H]; apply Z.leb_gt in H; lia.
  - apply (not_elem_of_dom (D := gset Z)) in Hm. rewrite Hdom, months_elem in Hm.
    destruct ((1 <=? m) && (m <=? 12)) eqn:Hrange; [|done].
    apply andb_true_iff in Hrange as [H1 H2]. apply Z.leb_le in H1, H2. lia.
Qed.



Lemma size_list_to_set_le (l : list string) :
  (size (list_to_set l : gset string) ≤ List.length l)%nat.
Proof.
  induction l as [|x l IH]; [by rewrite list_to_set_nil, size_empty|].
  rewrite list_to_set_cons, size_union_alt, size_singleton. cbn [List.length].
  assert (size (list_to_set l ∖ {[x]} : gset string) ≤ size (list_to_set l : gset string))%nat
    by (apply subseteq_size, subseteq_difference_l; reflexivity).
  lia.
Qed.


(** X6.  In the mapping the detector returns, a (species, location) record
    is present exactly when the file has a qualifying row for the pair, and
    its detection set is the set of the visit identifiers of those rows:
    several rows of one visit count once, and the detection count never
    exceeds the number of rows. *)
Theorem detections_are_distinct_visits (chunks : list (list SpeciesDetector.row))
    (species_detections : dict string (dict string detection))
    (species loc_id : string) :
  SpeciesDetector.count_species_detections chunks = Ok species_detections →
  let rows := sightings_of species loc_id (List.concat chunks) in
  let d := detection_at species loc_id species_detections in
  (detection_lookup species loc_id species_detections = None ↔ rows = [])
  ∧ checklist_ids d = list_to_set (SpeciesDetector.SAMPLING_EVENT_IDENTIFIER <$> rows)
  ∧ (size (checklist_ids d) ≤ List.length rows)%nat.
Proof.
  intros Hrun. cbv zeta.
  destruct (detector_spec chunks species_detections species loc_id Hrun)
    as (Hnone & _ & Hids & _).
  split; [done|]. split; [done|].
  rewrite Hids. etrans; [apply size_list_to_set_le|]. by rewrite length_fmap.
Qed.

(** X7.  The monthly table of a record holds, under each month 1..12, the
    set of the visit identifiers of the pair's qualifying rows dated in that
    month, and nothing under any other key. *)
Theorem monthly_detections_are_filed_by_month (chunks : list (list SpeciesDetector.row))
    (species_detections : dict string (dict string detection))
    (species loc_id : string) (d : detection) (m : Z) :
  SpeciesDetector.count_species_detections chunks = Ok species_detections →
  detection_lookup species loc_id species_detections = Some d →
  monthly_checklist_ids d !! m
  = if (1 <=? m) && (m <=? 12)
    then Some (list_to_set
                 (SpeciesDetector.SAMPLING_EVENT_IDENTIFIER
                    <$> List.filter
                          (fun r => in_month m (SpeciesDetector.OBSERVATION_DATE r))
                          (sightings_of species loc_id (List.concat chunks))))
    else None.
Proof.
  intros Hrun Hd.
  destruct (detector_spec chunks species_detections species loc_id Hrun)
    as (_ & _ & _ & Hmonthly & _).
  rewrite detection_at_lookup, Hd in Hmonthly. apply Hmonthly.
Qed.

(** X8.  In every record the detector returns, the overall detection set is
    the union of the twelve monthly sets. *)
Theorem detection_set_is_union_of_monthly_sets (chunks : list (list SpeciesDetector.row))
    (species_detections : dict string (dict string detection))
    (species loc_id : string) (d : detection) :
  SpeciesDetector.count_species_detections chunks = Ok species_detections →
  detection_lookup species loc_id species_detections = Some d →
  checklist_ids d = season_ids d months
  ∧ dom (monthly_checklist_ids d) = list_to_set months.
Proof.
  intros Hrun Hd.
  destruct (detector_spec chunks species_detections species loc_id Hrun)
    as (_ & _ & Hids & Hmonthly & _).
  rewrite detection_at_lookup, Hd in Hids, Hmonthly. cbn [default from_option id] in *.
  assert (Hdated : ∀ r, In r (sightings_of species loc_id (List.concat chunks)) →
            ∃ m, 1 ≤ m ≤ 12 ∧ in_month m (SpeciesDetector.OBSERVATION_DATE r) = true).
  { intros r Hr. unfold sightings_of in Hr. apply List.filter_In in Hr as [Hin Hq].
    apply andb_true_iff in Hq as [Hq _]. apply andb_true_iff in Hq as [Hmask _].
    apply count_species_rows in Hrun as (rms & Hrms & _).
    pose proof (read_months_dated _ _ _ Hrms r) as Hok.
    unfold dated in Hok. unfold in_month.
    destruct (month_of (SpeciesDetector.OBSERVATION_DATE r)) as [m|e] eqn:Hm.
    - exists m. split; [by apply (month_of_range _ _ Hm) | apply Z.eqb_refl].
    - assert (false = true) as Habs by (apply Hok; by apply List.filter_In). discriminate. }
  split.
  - apply set_eq. intros x. unfold season_ids. rewrite Hids.
    rewrite elem_of_union_list, elem_of_list_to_set, list_elem_of_fmap. split.
    + intros (r & -> & Hr). apply list_elem_of_In in Hr as Hr'.
      destruct (Hdated r Hr') as (m & Hrange & Hin).
      exists (month_ids d m). split.
      * apply list_elem_of_fmap. exists m. split; [done|].
        apply (elem_of_list_to_set (C := gset Z)). by apply months_elem.
      * unfold month_ids. rewrite Hmonthly.
        replace ((1 <=? m) && (m <=? 12)) with true
          by (symmetry; apply andb_true_iff; split; apply Z.leb_le; lia).
        cbn [default from_option id]. apply elem_of_list_to_set, list_elem_of_fmap.
        exists r. split; [done|]. apply list_elem_of_In, List.filter_In. by split.
    + intros (X & HX & Hx). apply list_elem_of_fmap in HX as (m & -> & _).
      unfold month_ids in Hx. rewrite Hmonthly in Hx.
      destruct ((1 <=? m) && (m <=? 12)); cbn [default from_option id] in Hx;
        [|by apply not_elem_of_empty in Hx].
      apply elem_of_list_to_set, list_elem_of_fmap in Hx as (r & -> & Hr).
      exists r. split; [done|].
      apply list_elem_of_In, List.filter_In in Hr as [Hr _]. by apply list_elem_of_In.
  - apply set_eq. intros m. rewrite elem_of_dom, months_elem, Hmonthly.
    destruct ((1 <=? m) && (m <=? 12)) eqn:Hrange.
    + apply andb_true_iff in Hrange as [H1 H2]. apply Z.leb_le in H1, H2.
      split; [lia | by eexists].
    + split; [by intros [? ?]|].
      intros [H1 H2]. apply andb_false_iff in Hrange as [H|H]; apply Z.leb_gt in H; lia.
Qed.


(** X10.  The scientific name of a record the detector returns is never
    unset: it is the name carried by the last qualifying row of the pair. *)
Theorem scientific_name_of_last_row (chunks : list (list SpeciesDetector.row))
    (species_detections : dict string (dict string detection))
    (species loc_id : string) (d : detection) :
  SpeciesDetector.count_species_detections chunks = Ok species_detections →
  detection_lookup species loc_id species_detections = Some d →
  ∃ before r,
    sightings_of species loc_id (List.concat chunks) = (before ++ [r])%list
    ∧ scientific_name d = Some (SpeciesDetector.SCIENTIFIC_NAME r).
Proof.
  intros Hrun Hd.
  destruct (detector_spec chunks species_detections species loc_id Hrun)
    as (Hnone & Hname & _).
  rewrite detection_at_lookup, Hd in Hname. cbn [default from_option id] in Hname.
  destruct (last (sightings_of species loc_id (List.concat chunks))) as [r|] eqn:Hlast.
  - apply last_Some in Hlast as [before Hrows]. by exists before, r.
  - apply last_None in Hlast. apply Hnone in Hlast. congruence.
Qed.




(** ** What the rate calculator puts in an entry *)



Lemma make_entry_fields (loc_id : string) (h : hotspot) (d : detection)
    (e : OccurrenceCalculator.SpeciesAtHotspot) :
  OccurrenceCalculator.make_entry loc_id h d = Ok e →
  OccurrenceCalculator.hotspot_name e = name h
  ∧ OccurrenceCalculator.latitude e = latitude h
  ∧ OccurrenceCalculator.longitude e = longitude h
  ∧ (if (0 <? Z.of_nat (size (checklist_ids d))) && (0 <? total_count d)
     then ∃ q, true_div (total_count d) (Z.of_nat (size (checklist_ids d))) = Ok q
               ∧ OccurrenceCalculator.avg_count e = Some (py_round q 1)
     else OccurrenceCalculator.avg_count e = None)
  ∧ OccurrenceCalculator.max_count e
    = (if 0 <? max_count d then Some (max_count d) else None).
Proof.
  unfold OccurrenceCalculator.make_entry. intros Hrun.
  apply bind_Ok in Hrun as (q & Hq & Hrun).
  apply bind_Ok in Hrun as (sr & Hsr & Hrun).
  apply bind_Ok in Hrun as (mr & Hmr & Hrun).
  apply bind_Ok in Hrun as (avg & Havg & Hrun).
  inversion Hrun; subst e; clear Hrun. cbn.
  repeat (split; [done|]). split; [|done].
  destruct ((0 <? Z.of_nat (size (checklist_ids d))) && (0 <? total_count d)).
  - apply bind_Ok in Havg as (a & Ha & Havg). exists a. split; [done|]. by inversion Havg.
  - by inversion Havg.
Qed.


Lemma months_NoDup : NoDup months.
Proof. apply NoDup_seqZ. Qed.

Lemma months_In (m : Z) : In m months ↔ 1 ≤ m ≤ 12.
Proof. unfold months. rewrite <- list_elem_of_In, elem_of_seqZ. lia. Qed.

Lemma add_monthly_rate_loop (h : hotspot) (d : detection) (ms : list Z)
    (acc out : dict Z float) :
  NoDup ms →
  for_each (OccurrenceCalculator.add_monthly_rate h d) acc ms = Ok out →
  ∀ m,
    (¬ In m ms → dict_get m out = dict_get m acc)
    ∧ (In m ms →
       (3 ≤ month_checklists h m →
        ∃ q, true_div (Z.of_nat (size (month_ids d m))) (month_checklists h m) = Ok q
             ∧ dict_get m out = Some (py_round q OccurrenceCalculator.RATE_DECIMAL_PLACES))
       ∧ (month_checklists h m < 3 → dict_get m out = dict_get m acc)).
Proof.
  revert acc. induction ms as [|m0 ms IH]; intros acc Hnd Hrun m.
  - inversion Hrun; subst out. split; [done | intros []].
  - cbn [for_each] in Hrun. apply bind_Ok in Hrun as (acc1 & Hstep & Hrun).
    apply NoDup_cons in Hnd as [Hm0 Hnd].
    destruct (IH _ Hnd Hrun m) as [Hout Hin].
    unfold OccurrenceCalculator.add_monthly_rate in Hstep.
    fold (month_checklists h m0) in Hstep. fold (month_ids d m0) in Hstep.
    split.
    + intros Hnotin. rewrite Hout by (intros ?; apply Hnotin; by right).
      destruct (3 <=? _); [|by inversion Hstep].
      apply bind_Ok in Hstep as (q & _ & Hstep). inversion Hstep; subst acc1.
      apply dict_get_set_ne. intros ->. apply Hnotin. by left.
    + intros [->|Hin'].
      * assert (Hfresh : ¬ In m ms) by (intros ?; apply Hm0; by apply list_elem_of_In).
        rewrite (Hout Hfresh).
        destruct (3 <=? _) eqn:Hthree.
        -- apply Z.leb_le in Hthree.
           apply bind_Ok in Hstep as (q & Hq & Hstep). inversion Hstep; subst acc1.
           split; [|lia]. intros _. exists q. split; [done | apply dict_get_set_eq].
        -- apply Z.leb_gt in Hthree. inversion Hstep; subst acc1. split; [lia | done].
      * destruct (Hin Hin') as [Hyes Hno]. split; [done|].
        intros Hlow. rewrite (Hno Hlow).
        destruct (3 <=? _); [|by inversion Hstep].
        apply bind_Ok in Hstep as (q & _ & Hstep). inversion Hstep; subst acc1.
        apply dict_get_set_ne. intros ->. apply Hm0. by apply list_elem_of_In.
Qed.

(** X12.  For every entry of a guide and every month 1..12: when the
    location has at least 3 visits in the month, the monthly rate is the
    size of the species' detection set of that month divided by the number
    of visits and rounded to 4 decimal places; with fewer visits, and under
    any key outside 1..12, the entry has no monthly rate. *)
Theorem monthly_rates_of_entry
    (hotspot_data : dict string hotspot)
    (species_detections : dict string (dict string detection)) (min_checklists : Z)
    (guides : dict string OccurrenceCalculator.SpeciesGuide)
    (s : string) (g : OccurrenceCalculator.SpeciesGuide)
    (e : OccurrenceCalculator.SpeciesAtHotspot) :
  OccurrenceCalculator.calculate_occurrence_rates hotspot_data species_detections
    min_checklists = Ok guides →
  dict_get s guides = Some g →
  In e (OccurrenceCalculator.hotspots g) →
  ∃ items h d,
    In (s, items) species_detections
    ∧ In (OccurrenceCalculator.locality_id e, d) items
    ∧ dict_get (OccurrenceCalculator.locality_id e) hotspot_data = Some h
    ∧ ∀ m,
        (1 ≤ m ≤ 12 → 3 ≤ month_checklists h m →
         ∃ q, true_div (Z.of_nat (size (month_ids d m))) (month_checklists h m) = Ok q
              ∧ dict_get m (OccurrenceCalculator.monthly_rates e)
                = Some (py_round q OccurrenceCalculator.RATE_DECIMAL_PLACES))
        ∧ (month_checklists h m < 3 ∨ ¬ 1 ≤ m ≤ 12 →
           dict_get m (OccurrenceCalculator.monthly_rates e) = None).
Proof.
  intros Hrun Hg He.
  destruct (entry_origin _ _ _ _ _ _ _ Hrun Hg He)
    as (items & h & d & Hitems & Hd & Hh & _ & Hmake).
  destruct (make_entry_Ok _ _ _ _ Hmake) as (_ & _ & _ & _ & _ & Hmonths & _).
  exists items, h, d. repeat (split; [done|]).
  intros m.
  destruct (add_monthly_rate_loop _ _ _ _ _ months_NoDup Hmonths m) as [Hout Hin].
  split.
  - intros Hrange. apply months_In in Hrange. by destruct (Hin Hrange) as [Hyes _].
  - intros [Hlow | Hrange].
    + destruct (decide (1 ≤ m ≤ 12)) as [Hm | Hm].
      * apply months_In in Hm. destruct (Hin Hm) as [_ Hno]. by rewrite (Hno Hlow).
      * rewrite Hout; [done|]. by rewrite months_In.
    + rewrite Hout; [done|]. by rewrite months_In.
Qed.

(** X13.  For every entry of a guide: the average count is the running
    total divided by the number of detections, rounded to 1 decimal place,
    when both are positive, and absent otherwise; the maximum count is the
    running maximum when that is positive, and absent otherwise, so that a
    maximum that is present is never 0 or negative. *)
Theorem average_and_maximum_count_of_entry
    (hotspot_data : dict string hotspot)
    (species_detections : dict string (dict string detection)) (min_checklists : Z)
    (guides : dict string OccurrenceCalculator.SpeciesGuide)
    (s : string) (g : OccurrenceCalculator.SpeciesGuide)
    (e : OccurrenceCalculator.SpeciesAtHotspot) :
  OccurrenceCalculator.calculate_occurrence_rates hotspot_data species_detections
    min_checklists = Ok guides →
  dict_get s guides = Some g →
  In e (OccurrenceCalculator.hotspots g) →
  ∃ items d,
    In (s, items) species_detections
    ∧ In (OccurrenceCalculator.locality_id e, d) items
    ∧ (0 < OccurrenceCalculator.detection_count e → 0 < total_count d →
       ∃ q, true_div (total_count d) (OccurrenceCalculator.detection_count e) = Ok q
            ∧ OccurrenceCalculator.avg_count e = Some (py_round q 1))
    ∧ (OccurrenceCalculator.detection_count e ≤ 0 ∨ total_count d ≤ 0 →
       OccurrenceCalculator.avg_count e = None)
    ∧ (0 < max_count d → OccurrenceCalculator.max_count e = Some (max_count d))
    ∧ (max_count d ≤ 0 → OccurrenceCalculator.max_count e = None)
    ∧ ∀ c, OccurrenceCalculator.max_count e = Some c → 0 < c.
Proof.
  intros Hrun Hg He.
  destruct (entry_origin _ _ _ _ _ _ _ Hrun Hg He)
    as (items & h & d & Hitems & Hd & _ & _ & Hmake).
  destruct (make_entry_Ok _ _ _ _ Hmake) as (_ & Hdet & _).
  destruct (make_entry_fields _ _ _ _ Hmake) as (_ & _ & _ & Havg & Hmax).
  exists items, d. repeat (split; [done|]). rewrite Hdet.
  split; [|split; [|split; [|split]]].
  - intros Hn Ht.
    replace ((0 <? Z.of_nat (size (checklist_ids d))) && (0 <? total_count d))
      with true in Havg; [done|].
    symmetry. apply andb_true_iff. split; by apply Z.ltb_lt.
  - intros Hle.
    replace ((0 <? Z.of_nat (size (checklist_ids d))) && (0 <? total_count d))
      with false in Havg; [done|].
    symmetry. apply andb_false_iff. destruct Hle; [left | right]; by apply Z.ltb_ge.
  - intros Hpos. rewrite Hmax. apply Z.ltb_lt in Hpos. by rewrite Hpos.
  - intros Hle. rewrite Hmax. apply Z.ltb_ge in Hle. by rewrite Hle.
  - intros c. rewrite Hmax. destruct (0 <? max_count d) eqn:Hpos; [|done].
    intros [= <-]. by apply Z.ltb_lt.
Qed.

(** X14.  Every entry of a guide carries the name and the coordinates of
    its location as the visit mapping has them, and a confidence level that
    agrees with its own total: high from 100 visits, medium from 30 to 99,
    low below 30. *)
Theorem entry_metadata_and_confidence
    (hotspot_data : dict string hotspot)
    (species_detections : dict string (dict string detection)) (min_checklists : Z)
    (guides : dict string OccurrenceCalculator.SpeciesGuide)
    (s : string) (g : OccurrenceCalculator.SpeciesGuide)
    (e : OccurrenceCalculator.SpeciesAtHotspot) :
  OccurrenceCalculator.calculate_occurrence_rates hotspot_data species_detections
    min_checklists = Ok guides →
  dict_get s guides = Some g →
  In e (OccurrenceCalculator.hotspots g) →
  (∃ h, dict_get (OccurrenceCalculator.locality_id e) hotspot_data = Some h
        ∧ OccurrenceCalculator.hotspot_name e = name h
        ∧ OccurrenceCalculator.latitude e = latitude h
        ∧ OccurrenceCalculator.longitude e = longitude h)
  ∧ (OccurrenceCalculator.confidence_level e = "high"
     ↔ 100 ≤ OccurrenceCalculator.total_checklists e)
  ∧ (OccurrenceCalculator.confidence_level e = "medium"
     ↔ 30 ≤ OccurrenceCalculator.total_checklists e < 100)
  ∧ (OccurrenceCalculator.confidence_level e = "low"
     ↔ OccurrenceCalculator.total_checklists e < 30).
Proof.
  intros Hrun Hg He.
  destruct (entry_origin _ _ _ _ _ _ _ Hrun Hg He)
    as (items & h & d & _ & _ & Hh & _ & Hmake).
  destruct (make_entry_Ok _ _ _ _ Hmake) as (_ & _ & Htot & _ & _ & _ & Hconf).
  destruct (make_entry_fields _ _ _ _ Hmake) as (Hname & Hlat & Hlon & _).
  split; [by exists h|].
  rewrite Hconf, Htot. unfold OccurrenceCalculator.determine_confidence,
    OccurrenceCalculator.HIGH_CONFIDENCE_MIN, OccurrenceCalculator.MEDIUM_CONFIDENCE_MIN.
  destruct (100 <=? total_checklists h) eqn:Hhigh;
    [apply Z.leb_le in Hhigh | apply Z.leb_gt in Hhigh].
  - split; [|split]; split; try done; lia.
  - destruct (30 <=? total_checklists h) eqn:Hmed;
      [apply Z.leb_le in Hmed | apply Z.leb_gt in Hmed];
      (split; [|split]); split; try done; lia.
Qed.

(** ** What the rate calculator puts in a guide *)

Lemma py_sum_perm (l l' : list Z) :
  l ≡ₚ l' → OccurrenceCalculator.py_sum l = OccurrenceCalculator.py_sum l'.
Proof.
  induction 1 as [|x l l' _ IH|x y l|l l' l'' _ IH1 _ IH2].
  - done.
  - by rewrite !py_sum_cons, IH.
  - rewrite !py_sum_cons. lia.
  - by rewrite IH1.
Qed.

Lemma py_sum_foldr {A : Type} (f : A → Z) (l : list A) :
  foldr (fun a acc => f a + acc) 0 l = OccurrenceCalculator.py_sum (f <$> l).
Proof.
  induction l as [|a l IH]; [done|]. rewrite fmap_cons, py_sum_cons. cbn [foldr]. by rewrite IH.
Qed.

Lemma py_sum_nonneg (l : list Z) :
  Forall (fun x => 0 ≤ x) l → 0 ≤ OccurrenceCalculator.py_sum l.
Proof.
  induction 1 as [|x l Hx _ IH]; [done|]. rewrite py_sum_cons. lia.
Qed.

Lemma In_included (hotspot_data : dict string hotspot) (min_checklists : Z)
    (items : dict string detection) (loc_id : string) (h : hotspot) (d : detection) :
  In (loc_id, d) items →
  OccurrenceCalculator.gate hotspot_data min_checklists loc_id = Some h →
  In (loc_id, h, d) (included hotspot_data min_checklists items).
Proof.
  intros Hin Hgate. induction items as [|[loc' d'] items IH]; [done|].
  rewrite included_cons. destruct Hin as [Heq|Hin].
  - injection Heq as -> ->. rewrite Hgate. by left.
  - destruct (OccurrenceCalculator.gate hotspot_data min_checklists loc');
      [right|]; by apply IH.
Qed.

Lemma dict_keys_set {K V : Type} `{EqDecision K} (k : K) (v : V) (d : dict K V) :
  ¬ In k (dict_keys d) → dict_keys (dict_set k v d) = (dict_keys d ++ [k])%list.
Proof.
  induction d as [|[k' v'] d IH]; intros Hk; [done|].
  cbn [dict_set]. destruct (decide (k' = k)) as [->|Hne].
  - destruct Hk. by left.
  - cbn [dict_keys map fst app]. f_equal. apply IH. intros Hin. apply Hk. by right.
Qed.

Lemma guides_keys (hotspot_data : dict string hotspot) (min_checklists : Z)
    (species_detections : dict string (dict string detection))
    (acc guides : dict string OccurrenceCalculator.SpeciesGuide) :
  NoDup (dict_keys acc ++ dict_keys species_detections) →
  for_each (OccurrenceCalculator.add_species hotspot_data min_checklists) acc
    species_detections = Ok guides →
  dict_keys guides = (dict_keys acc ++ dict_keys species_detections)%list.
Proof.
  revert acc. induction species_detections as [|[sp items] sd IH]; intros acc Hnd Hrun.
  - inversion Hrun; subst guides. by rewrite app_nil_r.
  - cbn [for_each] in Hrun. apply bind_Ok in Hrun as (acc1 & Hstep & Hrun).
    apply add_species_Ok in Hstep as (st & _ & ->).
    change (dict_keys ((sp, items) :: sd)) with (sp :: dict_keys sd) in *.
    assert (Hfresh : ¬ In sp (dict_keys acc)).
    { intros Hin. apply NoDup_app in Hnd as (_ & Hdisj & _).
      apply (Hdisj sp); [by apply list_elem_of_In | left]. }
    pose proof (dict_keys_set sp (guide_of sp st) acc Hfresh) as Hkeys.
    rewrite (IH (dict_set sp (guide_of sp st) acc)); [|by rewrite Hkeys, <- app_assoc | done].
    by rewrite Hkeys, <- app_assoc.
Qed.

Section Stable.
Context {A : Type} (lt : A → A → bool) (P : A → bool).
Hypothesis P_class : ∀ a b, P a = true → P b = true → lt a b = false.

Lemma filter_insert_sorted (x : A) (l : list A) :
  List.filter P (OccurrenceCalculator.insert_sorted lt x l) = List.filter P (x :: l).
Proof.
  induction l as [|y l IH]; [done|].
  cbn [OccurrenceCalculator.insert_sorted].
  destruct (lt y x) eqn:Hlt; [|done].
  cbn [List.filter] in IH |- *. rewrite IH.
  destruct (P y) eqn:Hy, (P x) eqn:Hx; try done.
  by rewrite (P_class y x Hy Hx) in Hlt.
Qed.

Lemma filter_stable_sort (l : list A) :
  List.filter P (OccurrenceCalculator.stable_sort lt l) = List.filter P l.
Proof.
  induction l as [|x l IH]; [done|].
  unfold OccurrenceCalculator.stable_sort in *. cbn [foldr].
  rewrite filter_insert_sorted. cbn [List.filter]. by rewrite IH.
Qed.

Lemma filter_list_sort (reverse : bool) (l : list A) :
  List.filter P (OccurrenceCalculator.list_sort lt reverse l) = List.filter P l.
Proof.
  unfold OccurrenceCalculator.list_sort. destruct reverse; [|apply filter_stable_sort].
  by rewrite List.filter_rev, filter_stable_sort, List.filter_rev, rev_involutive.
Qed.
End Stable.

Lemma same_key_class (k a b : OccurrenceCalculator.SpeciesAtHotspot) :
  same_key k a = true → same_key k b = true → OccurrenceCalculator.key_lt a b = false.
Proof.
  unfold same_key. intros Ha Hb.
  apply andb_true_iff in Ha as [Ha Hca], Hb as [Hb Hcb].
  apply float_eqb_eq in Ha, Hb. apply Z.eqb_eq in Hca, Hcb.
  unfold float_eq in Ha, Hb. unfold OccurrenceCalculator.key_lt.
  assert (Hab : float_eqb (OccurrenceCalculator.occurrence_rate a)
                  (OccurrenceCalculator.occurrence_rate b) = true)
    by (apply float_eqb_eq; unfold float_eq; by rewrite Ha, Hb).
  rewrite Hab. apply Z.ltb_ge. lia.
Qed.

(** What the calculator returns for one species of the detection
    mapping: the sorted list of the entries made for its passing
    locations. *)
Lemma guide_entries (hotspot_data : dict string hotspot)
    (species_detections : dict string (dict string detection)) (min_checklists : Z)
    (guides : dict string OccurrenceCalculator.SpeciesGuide)
    (s : string) (items : dict string detection) :
  NoDup (dict_keys species_detections) →
  OccurrenceCalculator.calculate_occurrence_rates hotspot_data species_detections
    min_checklists = Ok guides →
  dict_get s species_detections = Some items →
  ∃ g entries,
    dict_get s guides = Some g
    ∧ Forall2 (fun x e =>
                 OccurrenceCalculator.make_entry (fst (fst x)) (snd (fst x)) (snd x) = Ok e)
        (included hotspot_data min_checklists items) entries
    ∧ OccurrenceCalculator.hotspots g
      = OccurrenceCalculator.list_sort OccurrenceCalculator.key_lt true entries.
Proof.
  intros Hnd Hrun Hitems. apply dict_get_In in Hitems.
  destruct (guides_of_species _ _ _ _ _ Hnd Hrun s) as [_ Hin].
  destruct (Hin items Hitems) as (st & Hst & Hg).
  apply add_hotspot_loop in Hst as (entries & Hentries & Hlist & _).
  cbn [OccurrenceCalculator.hotspots_list app] in Hlist.
  exists (guide_of s st), entries. split; [done|]. split; [done|].
  unfold guide_of. cbn [OccurrenceCalculator.hotspots]. by rewrite Hlist.
Qed.

(** X15.  In every guide, the total of detections is the sum of the
    detection counts of the listed locations (and so never negative), and
    the number of locations is the length of the list: locations that do
    not pass the gate add to neither. *)
Theorem guide_totals_are_those_of_its_entries
    (hotspot_data : dict string hotspot)
    (species_detections : dict string (dict string detection)) (min_checklists : Z)
    (guides : dict string OccurrenceCalculator.SpeciesGuide)
    (s : string) (g : OccurrenceCalculator.SpeciesGuide) :
  OccurrenceCalculator.calculate_occurrence_rates hotspot_data species_detections
    min_checklists = Ok guides →
  dict_get s guides = Some g →
  OccurrenceCalculator.total_detections g
  = OccurrenceCalculator.py_sum
      (OccurrenceCalculator.detection_count <$> OccurrenceCalculator.hotspots g)
  ∧ OccurrenceCalculator.total_hotspots_detected g
    = Z.of_nat (List.length (OccurrenceCalculator.hotspots g))
  ∧ 0 ≤ OccurrenceCalculator.total_detections g.
Proof.
  intros Hrun Hg.
  destruct (guides_origin _ _ _ _ _ Hrun s g Hg) as [Hnil | (items & st & _ & Hst & ->)];
    [done|].
  apply add_hotspot_loop in Hst as (entries & Hentries & Hlist & Htotal & _).
  cbn [OccurrenceCalculator.hotspots_list OccurrenceCalculator.total_detections_so_far app]
    in Hlist, Htotal.
  unfold guide_of.
  cbn [OccurrenceCalculator.hotspots OccurrenceCalculator.total_detections
       OccurrenceCalculator.total_hotspots_detected].
  rewrite Hlist, Htotal, Z.add_0_l, py_sum_foldr.
  assert (Hsum : OccurrenceCalculator.py_sum (OccurrenceCalculator.detection_count <$> entries)
                 = OccurrenceCalculator.py_sum
                     (OccurrenceCalculator.detection_count
                        <$> OccurrenceCalculator.list_sort OccurrenceCalculator.key_lt true
                              entries)).
  { apply py_sum_perm, fmap_Permutation. symmetry. apply list_sort_perm. }
  split; [done|]. split; [done|].
  apply py_sum_nonneg, Forall_fmap, Forall_forall. intros e He.
  apply list_elem_of_lookup in He as [i Hi].
  destruct (Forall2_lookup_r _ _ _ _ _ Hentries Hi) as ([[loc_id h] d] & _ & Hmake).
  apply make_entry_Ok in Hmake as (_ & Hdet & _). cbn. rewrite Hdet. lia.
Qed.

(** X16.  Every location of a species that is in the visit mapping with at
    least [min_checklists] visits is listed in the species' guide, with the
    entry made for it, and the guide lists as many entries as there are
    such locations: no passing location is dropped and none is listed
    twice. *)
Theorem passing_locations_are_listed
    (hotspot_data : dict string hotspot)
    (species_detections : dict string (dict string detection)) (min_checklists : Z)
    (guides : dict string OccurrenceCalculator.SpeciesGuide)
    (s : string) (items : dict string detection) :
  NoDup (dict_keys species_detections) →
  OccurrenceCalculator.calculate_occurrence_rates hotspot_data species_detections
    min_checklists = Ok guides →
  dict_get s species_detections = Some items →
  ∃ g, dict_get s guides = Some g
       ∧ List.length (OccurrenceCalculator.hotspots g)
         = List.length (included hotspot_data min_checklists items)
       ∧ ∀ loc_id d h,
           In (loc_id, d) items →
           dict_get loc_id hotspot_data = Some h →
           min_checklists ≤ total_checklists h →
           ∃ e, In e (OccurrenceCalculator.hotspots g)
                ∧ OccurrenceCalculator.locality_id e = loc_id
                ∧ OccurrenceCalculator.make_entry loc_id h d = Ok e.
Proof.
  intros Hnd Hrun Hitems.
  destruct (guide_entries _ _ _ _ _ _ Hnd Hrun Hitems) as (g & entries & Hg & Hentries & Hsorted).
  exists g. split; [done|]. rewrite Hsorted. split.
  - rewrite (Permutation_length (list_sort_perm _ _ _)).
    symmetry. apply (Forall2_length _ _ _ Hentries).
  - intros loc_id d h Hin Hh Hmin.
    assert (Hgate : OccurrenceCalculator.gate hotspot_data min_checklists loc_id = Some h)
      by (by apply gate_Some).
    pose proof (In_included _ _ _ _ _ _ Hin Hgate) as Hinc.
    apply list_elem_of_In, list_elem_of_lookup in Hinc as [i Hi].
    destruct (Forall2_lookup_l _ _ _ _ _ Hentries Hi) as (e & He & Hmake).
    cbn [fst snd] in Hmake. exists e. split; [|split; [|done]].
    + apply (Permutation_in _ (Permutation_sym (list_sort_perm _ _ _))).
      apply list_elem_of_In. by apply list_elem_of_lookup_2 in He.
    + by apply make_entry_Ok in Hmake as (? & _).
Qed.

(** X17.  The guides come under exactly the species names of the
    detection mapping, in the order of that mapping: there is no guide for
    a name that the mapping lacks. *)
Theorem guides_follow_the_species
    (hotspot_data : dict string hotspot)
    (species_detections : dict string (dict string detection)) (min_checklists : Z)
    (guides : dict string OccurrenceCalculator.SpeciesGuide) :
  NoDup (dict_keys species_detections) →
  OccurrenceCalculator.calculate_occurrence_rates hotspot_data species_detections
    min_checklists = Ok guides →
  dict_keys guides = dict_keys species_detections
  ∧ ∀ s g, dict_get s guides = Some g → OccurrenceCalculator.common_name g = s.
Proof.
  intros Hnd Hrun. split.
  - by apply (guides_keys hotspot_data min_checklists species_detections [] guides).
  - intros s g Hg.
    by destruct (guides_origin _ _ _ _ _ Hrun s g Hg) as [Hnil | (items & st & _ & _ & ->)].
Qed.


(** X19.  The sort of a guide is stable: the entries that share one sort
    key (the same rounded rate and the same detection count) stand in the
    guide in the order in which their locations come in the detection
    mapping. *)
Theorem equal_keys_keep_iteration_order
    (hotspot_data : dict string hotspot)
    (species_detections : dict string (dict string detection)) (min_checklists : Z)
    (guides : dict string OccurrenceCalculator.SpeciesGuide)
    (s : string) (items : dict string detection) :
  NoDup (dict_keys species_detections) →
  OccurrenceCalculator.calculate_occurrence_rates hotspot_data species_detections
    min_checklists = Ok guides →
  dict_get s species_detections = Some items →
  ∃ g entries,
    dict_get s guides = Some g
    ∧ Forall2 (fun x e =>
                 OccurrenceCalculator.make_entry (fst (fst x)) (snd (fst x)) (snd x) = Ok e)
        (included hotspot_data min_checklists items) entries
    ∧ ∀ k, List.filter (same_key k) (OccurrenceCalculator.hotspots g)
           = List.filter (same_key k) entries.
Proof.
  intros Hnd Hrun Hitems.
  destruct (guide_entries _ _ _ _ _ _ Hnd Hrun Hitems) as (g & entries & Hg & Hentries & Hsorted).
  exists g, entries. split; [done|]. split; [done|].
  intros k. rewrite Hsorted. apply filter_list_sort. apply same_key_class.
Qed.

(** ** The detection of the data files *)

Lemma endswith_spec (s suffix : string) :
  Config.endswith s suffix = true ↔ ∃ stem, s = stem ++ suffix.
Proof.
  induction s as [|c s IH]; cbn [Config.endswith].
  - rewrite orb_false_r, String.eqb_eq. split.
    + intros <-. by exists "".
    + intros [[|c stem] Hs]; [done | discriminate Hs].
  - rewrite orb_true_iff, String.eqb_eq, IH. split.
    + intros [<- | [stem ->]]; [by exists "" | by exists (String c stem)].
    + intros [[|c' stem] Hs]; [by left|].
      right. injection Hs as _ ->. by exists stem.
Qed.

Lemma fnmatch_literal (pattern name : string) :
  literal pattern = true → Config.fnmatch pattern name = String.eqb name pattern.
Proof.
  revert name. induction pattern as [|c pattern IH]; intros name Hlit.
  - by destruct name.
  - cbn [literal] in Hlit. apply andb_true_iff in Hlit as [Hc Hlit].
    apply negb_true_iff in Hc. cbn [Config.fnmatch]. rewrite Hc.
    destruct name as [|d name]; [done|].
    cbn [String.eqb]. by rewrite IH, Ascii.eqb_sym.
Qed.

Lemma fnmatch_star (pattern name : string) :
  Config.fnmatch (String "*" pattern) name
  = Config.fnmatch pattern name
    || match name with
       | EmptyString => false
       | String _ name' => Config.fnmatch (String "*" pattern) name'
       end.
Proof. by destruct name. Qed.

Lemma fnmatch_star_literal (pattern name : string) :
  literal pattern = true →
  Config.fnmatch (String "*" pattern) name = Config.endswith name pattern.
Proof.
  intros Hlit. induction name as [|c name IH]; rewrite fnmatch_star;
    cbn [Config.endswith]; rewrite fnmatch_literal by done; [done|].
  by rewrite IH.
Qed.

Lemma fnmatch_literal_app (prefix pattern name : string) :
  literal prefix = true →
  Config.fnmatch (prefix ++ pattern) name = true
  ↔ ∃ rest, name = prefix ++ rest ∧ Config.fnmatch pattern rest = true.
Proof.
  revert name. induction prefix as [|c prefix IH]; intros name Hlit.
  - cbn [String.append]. split; [by exists name | by intros (rest & -> & ?)].
  - cbn [literal] in Hlit. apply andb_true_iff in Hlit as [Hc Hlit].
    apply negb_true_iff in Hc.
    change (String c prefix ++ pattern) with (String c (prefix ++ pattern)).
    cbn [Config.fnmatch]. rewrite Hc. destruct name as [|d name].
    + split; [done | by intros (rest & ? & _)].
    + rewrite andb_true_iff, Ascii.eqb_eq, (IH name Hlit). split.
      * intros [<- (rest & -> & Hrest)]. by exists rest.
      * intros (rest & Hname & Hrest). injection Hname as -> ->. split; [done | by exists rest].
Qed.

Lemma glob_sampling (f : string) :
  Config.fnmatch "*_sampling.txt" f = true ↔ sampling_name f.
Proof.
  rewrite (fnmatch_star_literal "_sampling.txt") by reflexivity. apply endswith_spec.
Qed.

Lemma glob_main (f : string) :
  Config.fnmatch "ebd_*.txt" f && negb (Config.endswith f "_sampling.txt") = true
  ↔ main_name f.
Proof.
  unfold main_name, sampling_name.
  rewrite andb_true_iff, negb_true_iff, <- not_true_iff_false, endswith_spec.
  rewrite (fnmatch_literal_app "ebd_" "*.txt" f) by reflexivity.
  assert (Hstem : (∃ rest, f = "ebd_" ++ rest ∧ Config.fnmatch "*.txt" rest = true)
                  ↔ ∃ stem, f = "ebd_" ++ stem ++ ".txt"); [|by rewrite Hstem].
  split.
  - intros (rest & -> & Hrest).
    rewrite (fnmatch_star_literal ".txt") in Hrest by reflexivity.
    apply endswith_spec in Hrest as [stem ->]. by exists stem.
  - intros [stem ->]. exists (stem ++ ".txt"). split; [done|].
    rewrite (fnmatch_star_literal ".txt") by reflexivity. apply endswith_spec. by exists stem.
Qed.

Section Filter.
Context {A : Type} (p : A → bool) (P : A → Prop).
Hypothesis p_spec : ∀ a, p a = true ↔ P a.

Lemma filter_nil_none (l : list A) :
  List.filter p l = [] ↔ ∀ y, In y l → ¬ P y.
Proof.
  split.
  - intros Hnil y Hin Hy. apply p_spec in Hy.
    assert (Hy' : In y (List.filter p l)) by (by apply List.filter_In).
    by rewrite Hnil in Hy'.
  - intros Hnone. induction l as [|a l IH]; [done|]. cbn [List.filter].
    destruct (p a) eqn:Ha.
    + destruct (Hnone a); [by left | by apply p_spec].
    + apply IH. intros y Hin. apply Hnone. by right.
Qed.

Lemma filter_cons_split (l : list A) (x : A) (rest : list A) :
  List.filter p l = x :: rest ↔
  ∃ before after,
    l = (before ++ x :: after)%list ∧ P x
    ∧ (∀ y, In y before → ¬ P y) ∧ List.filter p after = rest.
Proof.
  split.
  - induction l as [|a l IH]; [done|]. cbn [List.filter].
    destruct (p a) eqn:Ha.
    + intros [= -> <-]. exists [], l. split; [done|]. split; [by apply p_spec|].
      split; [intros ? [] | done].
    + intros Hl. destruct (IH Hl) as (before & after & -> & Hx & Hbefore & Hafter).
      exists (a :: before), after. split; [done|]. split; [done|]. split; [|done].
      intros y [<-|Hy]; [|by apply Hbefore]. rewrite <- p_spec. by rewrite Ha.
  - intros (before & after & -> & Hx & Hbefore & <-).
    rewrite List.filter_app. cbn [List.filter].
    rewrite (proj2 (filter_nil_none before) Hbefore), (proj2 (p_spec x) Hx). done.
Qed.

Lemma filter_sole (l : list A) (x : A) :
  List.filter p l = [x] ↔ sole P x l.
Proof.
  unfold sole. rewrite filter_cons_split. split.
  - intros (before & after & -> & Hx & Hbefore & Hafter).
    exists before, after. split; [done|]. split; [done|].
    intros y [Hy|Hy]; [by apply Hbefore | by apply (proj1 (filter_nil_none after) Hafter)].
  - intros (before & after & -> & Hx & Hnone).
    exists before, after. split; [done|]. split; [done|].
    split; [intros y Hy; apply Hnone; by left|].
    apply filter_nil_none. intros y Hy. apply Hnone. by right.
Qed.

Lemma filter_several (l : list A) :
  (∃ x y rest, List.filter p l = x :: y :: rest) ↔ several P l.
Proof.
  unfold several. split.
  - intros (x & y & rest & Hl).
    apply filter_cons_split in Hl as (before & after & -> & Hx & _ & Hafter).
    apply filter_cons_split in Hafter as (between & after' & -> & Hy & _).
    by exists before, x, between, y, after'.
  - intros (before & x & between & y & after & -> & Hx & Hy).
    rewrite List.filter_app. cbn [List.filter]. rewrite (proj2 (p_spec x) Hx).
    rewrite List.filter_app. cbn [List.filter]. rewrite (proj2 (p_spec y) Hy).
    destruct (List.filter p before) as [|b0 [|b1 bs]]; cbn [app].
    + destruct (List.filter p between) as [|c0 cs]; cbn [app]; eauto.
    + eauto.
    + eauto.
Qed.
End Filter.

Lemma main_files_filter (data_dir : list string) :
  List.filter (fun f => negb (Config.endswith f "_sampling.txt"))
    (Config.glob data_dir "ebd_*.txt")
  = List.filter (fun f => Config.fnmatch "ebd_*.txt" f
                          && negb (Config.endswith f "_sampling.txt")) data_dir.
Proof.
  unfold Config.glob. induction data_dir as [|f l IH]; [done|]. cbn [List.filter].
  destruct (Config.fnmatch "ebd_*.txt" f); cbn [List.filter andb]; by rewrite IH.
Qed.

(** X20.  [find_ebird_files] returns a pair exactly when the directory has
    one single name that ends in [_sampling.txt] and one single name of the
    form [ebd_*.txt] that does not; the pair is made of these two names, so
    the main file is never the sampling file. *)
Theorem find_ebird_files_finds_the_only_pair (data_dir : list string)
    (main_file sampling_file : string) :
  (Config.find_ebird_files data_dir = inr (main_file, sampling_file)
   ↔ sole sampling_name sampling_file data_dir ∧ sole main_name main_file data_dir)
  ∧ (Config.find_ebird_files data_dir = inr (main_file, sampling_file) →
     In main_file data_dir ∧ In sampling_file data_dir ∧ main_file ≠ sampling_file).
Proof.
  assert (Hiff : Config.find_ebird_files data_dir = inr (main_file, sampling_file)
                 ↔ sole sampling_name sampling_file data_dir
                   ∧ sole main_name main_file data_dir).
  { rewrite <- (filter_sole _ _ glob_sampling), <- (filter_sole _ _ glob_main).
    unfold Config.find_ebird_files. rewrite main_files_filter. unfold Config.glob.
    destruct (List.filter (Config.fnmatch "*_sampling.txt") data_dir) as [|s0 [|s1 ss]].
    - split; [done | by intros [? _]].
    - destruct (List.filter _ data_dir) as [|m0 [|m1 ms]].
      + split; [done | by intros [_ ?]].
      + split; [by intros [= -> ->] | by intros [[= ->] [= ->]]].
      + split; [done | by intros [_ ?]].
    - split; [done | by intros [? _]]. }
  split; [done|]. intros Hrun. apply Hiff in Hrun as [Hs Hm].
  destruct Hs as (bs & as_ & Hds & Hsname & _), Hm as (bm & am & Hdm & [_ Hmname] & _).
  split; [rewrite Hdm; apply in_elt|]. split; [rewrite Hds; apply in_elt|].
  by intros ->.
Qed.

(** X21.  The sampling file is looked for first: without a name ending in
    [_sampling.txt] the error is that of the missing sampling file, and
    with two of them that of the multiple sampling files, whatever main
    files the directory has.  With a single sampling file, the error is
    that of the missing main file when no other name has the form
    [ebd_*.txt], and that of the multiple main files when two have. *)
Theorem find_ebird_files_errors (data_dir : list string) :
  (Config.find_ebird_files data_dir = inl Config.No_sampling_file
   ↔ ∀ f, In f data_dir → ¬ sampling_name f)
  ∧ ((∃ found, Config.find_ebird_files data_dir = inl (Config.Multiple_sampling_files found))
     ↔ several sampling_name data_dir)
  ∧ (Config.find_ebird_files data_dir = inl Config.No_main_file
     ↔ (∃ sampling_file, sole sampling_name sampling_file data_dir)
       ∧ ∀ f, In f data_dir → ¬ main_name f)
  ∧ ((∃ found, Config.find_ebird_files data_dir = inl (Config.Multiple_main_files found))
     ↔ (∃ sampling_file, sole sampling_name sampling_file data_dir)
       ∧ several main_name data_dir).
Proof.
  rewrite <- (filter_nil_none _ _ glob_sampling), <- (filter_several _ _ glob_sampling).
  rewrite <- (filter_nil_none _ _ glob_main), <- (filter_several _ _ glob_main).
  assert (Hsole : (∃ sampling_file, sole sampling_name sampling_file data_dir)
                  ↔ ∃ sampling_file,
                      List.filter (Config.fnmatch "*_sampling.txt") data_dir
                      = [sampling_file]).
  { split; intros [s Hs]; exists s; by apply (filter_sole _ _ glob_sampling). }
  rewrite Hsole. clear Hsole.
  unfold Config.find_ebird_files. rewrite main_files_filter. unfold Config.glob.
  destruct (List.filter (Config.fnmatch "*_sampling.txt") data_dir) as [|s0 [|s1 ss]].
  - split; [done|]. split; [split; [by intros [? ?] | by intros (? & ? & ? & ?)]|].
    split; [split; [done | by intros [[? ?] _]]|].
    split; [by intros [? ?] | by intros [[? ?] _]].
  - destruct (List.filter _ data_dir) as [|m0 [|m1 ms]].
    + split; [done|]. split; [split; [by intros [? ?] | by intros (? & ? & ? & ?)]|].
      split; [split; [intros _; split; [by exists s0 | done] | done]|].
      split; [by intros [? ?] | by intros [_ (? & ? & ? & ?)]].
    + split; [done|]. split; [split; [by intros [? ?] | by intros (? & ? & ? & ?)]|].
      split; [split; [done | by intros [_ ?]]|].
      split; [by intros [? ?] | by intros [_ (? & ? & ? & ?)]].
    + split; [done|]. split; [split; [by intros [? ?] | by intros (? & ? & ? & ?)]|].
      split; [split; [done | by intros [_ ?]]|].
      split; [intros _; split; [by exists s0 | by exists m0, m1, ms] | by eexists].
  - split; [done|]. split; [split; [intros _; by exists s0, s1, ss | by eexists]|].
    split; [split; [done | by intros [[? ?] _]]|].
    split; [by intros [? ?] | by intros [[? ?] _]].
Qed.

(** ** The pipeline of main.py *)

Lemma dict_keys_set_old {K V : Type} `{EqDecision K} (k : K) (v : V) (d : dict K V) :
  In k (dict_keys d) → dict_keys (dict_set k v d) = dict_keys d.
Proof.
  induction d as [|[k' v'] d IH]; intros Hk; [done|].
  cbn [dict_set]. destruct (decide (k' = k)) as [->|Hne]; [done|].
  cbn [dict_keys map fst]. f_equal. apply IH. by destruct Hk as [?|?].
Qed.

Lemma dict_set_NoDup {K V : Type} `{EqDecision K} (k : K) (v : V) (d : dict K V) :
  NoDup (dict_keys d) → NoDup (dict_keys (dict_set k v d)).
Proof.
  intros Hnd. destruct (decide (k ∈ dict_keys d)) as [Hin|Hout].
  - rewrite dict_keys_set_old; [done | by apply list_elem_of_In].
  - rewrite dict_keys_set by (by rewrite <- list_elem_of_In). apply NoDup_app. split; [done|].
    split; [|apply NoDup_singleton].
    intros x Hx Hk. apply list_elem_of_singleton in Hk as ->. by apply Hout.
Qed.

Lemma dict_set_not_nil {K V : Type} `{EqDecision K} (k : K) (v : V) (d : dict K V) :
  dict_set k v d ≠ [].
Proof. destruct d as [|[k' v'] d]; cbn [dict_set]; [done|]. by destruct (decide (k' = k)). Qed.

Lemma In_dict_get {K V : Type} `{EqDecision K} (k : K) (v : V) (d : dict K V) :
  NoDup (dict_keys d) → In (k, v) d → dict_get k d = Some v.
Proof.
  induction d as [|[k' v'] d IH]; intros Hnd Hin; [done|].
  cbn [dict_keys map fst] in Hnd. apply NoDup_cons in Hnd as [Hk' Hnd].
  rewrite dict_get_cons. destruct Hin as [[= -> ->]|Hin].
  - by rewrite decide_True.
  - rewrite decide_False; [by apply IH|].
    intros ->. apply Hk'. apply list_elem_of_In. by apply (in_map fst) in Hin.
Qed.

Lemma dict_get_keys {K V : Type} `{EqDecision K} (k : K) (d : dict K V) :
  is_Some (dict_get k d) ↔ In k (dict_keys d).
Proof.
  induction d as [|[k' v'] d IH]; [by split; [intros [? ?] | intros []]|].
  rewrite dict_get_cons. cbn [dict_keys map fst].
  destruct (decide (k' = k)) as [->|Hne].
  - split; [by left | by eexists].
  - rewrite IH. split; [by right | by intros [?|?]].
Qed.

(** The keys of the detection mapping are distinct at both levels, and no
    species is left without a location. *)
Lemma detector_keys (chunks : list (list SpeciesDetector.row))
    (species_detections : dict string (dict string detection)) :
  SpeciesDetector.count_species_detections chunks = Ok species_detections →
  NoDup (dict_keys species_detections)
  ∧ Forall (fun kv => NoDup (dict_keys (snd kv)) ∧ snd kv ≠ []) species_detections.
Proof.
  intros Hrun. apply count_species_rows in Hrun as (rms & _ & Hfold).
  refine (for_each_invariant
            (fun sd => NoDup (dict_keys sd)
                       ∧ Forall (fun kv => NoDup (dict_keys (snd kv)) ∧ snd kv ≠ []) sd)
            _ rms [] _ _ _ Hfold); [|split; constructor].
  intros sd [r m] sd' [Hnd Hall] Hstep.
  rewrite detector_add_row_eq in Hstep. cbv zeta in Hstep.
  destruct (monthly_checklist_ids _ !! m) as [ids|]; [|discriminate Hstep].
  injection Hstep as <-. split; [by apply dict_set_NoDup|].
  apply (Forall_dict_set (fun v => NoDup (dict_keys v) ∧ v ≠ [])); [|done].
  split; [|apply dict_set_not_nil]. apply dict_set_NoDup.
  destruct (dict_get (SpeciesDetector.COMMON_NAME r) sd) as [items|] eqn:Hitems;
    cbn [default from_option id]; [|constructor].
  by destruct (Forall_dict_get (fun v => NoDup (dict_keys v) ∧ v ≠ []) _ _ _ Hall Hitems).
Qed.

Lemma detector_lookup_In (chunks : list (list SpeciesDetector.row))
    (species_detections : dict string (dict string detection))
    (s loc_id : string) (items : dict string detection) (d : detection) :
  SpeciesDetector.count_species_detections chunks = Ok species_detections →
  In (s, items) species_detections → In (loc_id, d) items →
  detection_lookup s loc_id species_detections = Some d.
Proof.
  intros Hrun Hs Hloc. destruct (detector_keys _ _ Hrun) as [Hnd Hall].
  unfold detection_lookup. rewrite (In_dict_get _ _ _ Hnd Hs).
  apply In_dict_get; [|done].
  rewrite List.Forall_forall in Hall. by destruct (Hall _ Hs).
Qed.

Lemma species_guides_Ok (sampling_file : list (list ChecklistCounter.row))
    (main_file : list (list SpeciesDetector.row))
    (guides : dict string OccurrenceCalculator.SpeciesGuide) :
  Main.species_guides sampling_file main_file = Ok guides →
  ∃ hotspot_data species_detections,
    ChecklistCounter.count_checklists_per_hotspot sampling_file = Ok hotspot_data
    ∧ SpeciesDetector.count_species_detections main_file = Ok species_detections
    ∧ OccurrenceCalculator.calculate_occurrence_rates hotspot_data species_detections
        OccurrenceCalculator.MIN_CHECKLISTS_THRESHOLD = Ok guides.
Proof.
  unfold Main.species_guides. intros Hrun.
  apply bind_Ok in Hrun as (hd & Hhd & Hrun).
  apply bind_Ok in Hrun as (sd & Hsd & Hrun). by exists hd, sd.
Qed.

(** Where an entry of a guide of the pipeline comes from: the record of
    its location in the visit mapping and the record of the pair in the
    detection mapping, both as the rows of the two files make them. *)
Lemma main_entry_origin (sampling_file : list (list ChecklistCounter.row))
    (main_file : list (list SpeciesDetector.row))
    (guides : dict string OccurrenceCalculator.SpeciesGuide)
    (s : string) (g : OccurrenceCalculator.SpeciesGuide)
    (e : OccurrenceCalculator.SpeciesAtHotspot) :
  Main.species_guides sampling_file main_file = Ok guides →
  dict_get s guides = Some g →
  In e (OccurrenceCalculator.hotspots g) →
  let loc_id := OccurrenceCalculator.locality_id e in
  let visits := visits_at loc_id (List.concat sampling_file) in
  let sightings := sightings_of s loc_id (List.concat main_file) in
  ∃ h d,
    OccurrenceCalculator.make_entry loc_id h d = Ok e
    ∧ OccurrenceCalculator.MIN_CHECKLISTS_THRESHOLD ≤ total_checklists h
    ∧ total_checklists h = Z.of_nat (List.length visits)
    ∧ (∀ m, 1 ≤ m ≤ 12 →
         month_checklists h m
         = Z.of_nat (List.length
                       (List.filter
                          (fun r => in_month m (ChecklistCounter.OBSERVATION_DATE r))
                          visits)))
    ∧ sightings ≠ []
    ∧ checklist_ids d
      = list_to_set (SpeciesDetector.SAMPLING_EVENT_IDENTIFIER <$> sightings)
    ∧ (∀ m, 1 ≤ m ≤ 12 →
         month_ids d m
         = list_to_set
             (SpeciesDetector.SAMPLING_EVENT_IDENTIFIER
                <$> List.filter
                      (fun r => in_month m (SpeciesDetector.OBSERVATION_DATE r))
                      sightings)).
Proof.
  intros Hrun Hg He. cbv zeta.
  apply species_guides_Ok in Hrun as (hd & sd & Hhd & Hsd & Hrun).
  destruct (entry_origin _ _ _ _ _ _ _ Hrun Hg He)
    as (items & h & d & Hitems & Hd & Hh & Hmin & Hmake).
  pose proof (detector_lookup_In _ _ _ _ _ _ Hsd Hitems Hd) as Hlookup.
  exists h, d. split; [done|]. split; [done|].
  pose proof (counter_spec _ _ (OccurrenceCalculator.locality_id e) Hhd) as Hcounter.
  destruct (visits_at _ _) as [|r0 visits] eqn:Hvisits; [congruence|].
  destruct Hcounter as (h' & Hh' & _ & _ & _ & Htotal & Hmonthly).
  rewrite Hh in Hh'. injection Hh' as <-.
  split; [done|]. split.
  { intros m Hm. unfold month_checklists. rewrite Hmonthly.
    replace ((1 <=? m) && (m <=? 12)) with true; [done|].
    symmetry. apply andb_true_iff. split; apply Z.leb_le; lia. }
  destruct (detector_spec _ _ s (OccurrenceCalculator.locality_id e) Hsd)
    as (Hnone & _ & Hids & Hmonths & _).
  rewrite detection_at_lookup, Hlookup in Hids, Hmonths.
  cbn [default from_option id] in Hids, Hmonths.
  split; [intros Hnil; apply Hnone in Hnil; congruence|]. split; [done|].
  intros m Hm. unfold month_ids. rewrite Hmonths.
  replace ((1 <=? m) && (m <=? 12)) with true; [done|].
  symmetry. apply andb_true_iff. split; apply Z.leb_le; lia.
Qed.

(** X22.  End to end, the two counts of an entry are row counts of the two
    files: the total is the number of qualifying rows of the sampling file
    at the location, at least 10, and the detection count is the number of
    distinct checklist identifiers among the qualifying rows of the main
    file for the species at the location, of which there is at least
    one. *)
Theorem entry_counts_are_row_counts (sampling_file : list (list ChecklistCounter.row))
    (main_file : list (list SpeciesDetector.row))
    (guides : dict string OccurrenceCalculator.SpeciesGuide)
    (s : string) (g : OccurrenceCalculator.SpeciesGuide)
    (e : OccurrenceCalculator.SpeciesAtHotspot) :
  Main.species_guides sampling_file main_file = Ok guides →
  dict_get s guides = Some g →
  In e (OccurrenceCalculator.hotspots g) →
  let loc_id := OccurrenceCalculator.locality_id e in
  let visits := visits_at loc_id (List.concat sampling_file) in
  let sightings := sightings_of s loc_id (List.concat main_file) in
  OccurrenceCalculator.total_checklists e = Z.of_nat (List.length visits)
  ∧ 10 ≤ OccurrenceCalculator.total_checklists e
  ∧ OccurrenceCalculator.detection_count e
    = Z.of_nat (size (list_to_set (SpeciesDetector.SAMPLING_EVENT_IDENTIFIER <$> sightings)
                        : gset string))
  ∧ 1 ≤ OccurrenceCalculator.detection_count e.
Proof.
  intros Hrun Hg He. cbv zeta.
  destruct (main_entry_origin _ _ _ _ _ _ Hrun Hg He)
    as (h & d & Hmake & Hmin & Htotal & _ & Hsome & Hids & _).
  destruct (make_entry_Ok _ _ _ _ Hmake) as (_ & Hdet & Htot & _).
  rewrite Htot, Hdet, <- Htotal, <- Hids.
  split; [done|]. split; [done|]. split; [done|].
  destruct (sightings_of _ _ _) as [|r rows]; [done|].
  assert (size (checklist_ids d) ≠ 0)%nat; [|lia].
  apply size_non_empty_iff. rewrite Hids, fmap_cons, list_to_set_cons.
  intros Hempty. apply (not_elem_of_empty (C := gset string)
                          (SpeciesDetector.SAMPLING_EVENT_IDENTIFIER r)).
  rewrite <- Hempty. apply elem_of_union_l. by apply elem_of_singleton.
Qed.

(** X23.  When every qualifying row of the main file has a qualifying row
    of the sampling file with the same location and the same checklist
    identifier, no entry has more detections than visits, and every
    occurrence rate lies in [0, 1]. *)
Theorem rates_within_unit_on_consistent_files
    (sampling_file : list (list ChecklistCounter.row))
    (main_file : list (list SpeciesDetector.row))
    (guides : dict string OccurrenceCalculator.SpeciesGuide)
    (s : string) (g : OccurrenceCalculator.SpeciesGuide)
    (e : OccurrenceCalculator.SpeciesAtHotspot) :
  (∀ r, In r (List.concat main_file) → SpeciesDetector.mask r = true →
     ∃ v, In v (List.concat sampling_file)
          ∧ ChecklistCounter.mask v = true
          ∧ ChecklistCounter.LOCALITY_ID v = SpeciesDetector.LOCALITY_ID r
          ∧ ChecklistCounter.SAMPLING_EVENT_IDENTIFIER v
            = SpeciesDetector.SAMPLING_EVENT_IDENTIFIER r) →
  Main.species_guides sampling_file main_file = Ok guides →
  dict_get s guides = Some g →
  In e (OccurrenceCalculator.hotspots g) →
  OccurrenceCalculator.detection_count e ≤ OccurrenceCalculator.total_checklists e
  ∧ (0 <= float_to_Q (OccurrenceCalculator.occurrence_rate e) <= 1)%Q.
Proof.
  intros Hfiles Hrun Hg He.
  destruct (main_entry_origin _ _ _ _ _ _ Hrun Hg He)
    as (h & d & Hmake & _ & Htotal & _ & _ & Hids & _).
  destruct (make_entry_Ok _ _ _ _ Hmake) as (_ & Hdet & Htot & (q & Hq & Hrate) & _).
  assert (Hle : Z.of_nat (size (checklist_ids d)) ≤ total_checklists h).
  { rewrite Htotal, Hids. apply Nat2Z.inj_le.
    set (loc_id := OccurrenceCalculator.locality_id e).
    trans (size (list_to_set (ChecklistCounter.SAMPLING_EVENT_IDENTIFIER
                                <$> visits_at loc_id (List.concat sampling_file))
                   : gset string)).
    - apply subseteq_size. intros x Hx.
      apply elem_of_list_to_set, list_elem_of_fmap in Hx as (r & -> & Hr).
      apply list_elem_of_In in Hr. unfold sightings_of in Hr.
      apply List.filter_In in Hr as [Hin Hq'].
      apply andb_true_iff in Hq' as [Hq' Hloc]. apply andb_true_iff in Hq' as [Hmask _].
      apply String.eqb_eq in Hloc.
      destruct (Hfiles r Hin Hmask) as (v & Hv & Hvmask & Hvloc & Hvid).
      apply elem_of_list_to_set, list_elem_of_fmap. exists v. split; [done|].
      apply list_elem_of_In. unfold visits_at. apply List.filter_In. split; [done|].
      apply andb_true_iff. split; [done|]. apply String.eqb_eq. congruence.
    - etrans; [apply size_list_to_set_le|]. by rewrite length_fmap. }
  rewrite Hdet, Htot. split; [done|].
  rewrite Hrate. apply py_round_unit; [done|].
  apply (true_div_unit _ _ _ (conj (Nat2Z.is_nonneg _) Hle) Hq).
Qed.


(** X25.  The pipeline writes a guide for exactly the species that have a
    qualifying row in the main file, whether or not any of their locations
    is visited often enough to be listed. *)
Theorem guide_for_every_reported_species
    (sampling_file : list (list ChecklistCounter.row))
    (main_file : list (list SpeciesDetector.row))
    (guides : dict string OccurrenceCalculator.SpeciesGuide) (s : string) :
  Main.species_guides sampling_file main_file = Ok guides →
  is_Some (dict_get s guides)
  ↔ ∃ r, In r (List.concat main_file)
         ∧ SpeciesDetector.mask r = true ∧ SpeciesDetector.COMMON_NAME r = s.
Proof.
  intros Hrun. apply species_guides_Ok in Hrun as (hd & sd & _ & Hsd & Hrun).
  destruct (detector_keys _ _ Hsd) as [Hnd Hall].
  rewrite dict_get_keys, (guides_keys _ _ _ [] guides Hnd Hrun). cbn [dict_keys map app].
  fold (dict_keys sd). rewrite <- dict_get_keys. split.
  - intros [items Hitems].
    destruct (Forall_dict_get (fun v => NoDup (dict_keys v) ∧ v ≠ []) _ _ _ Hall Hitems)
      as [_ Hsome].
    destruct items as [|[loc_id d] items]; [done|].
    destruct (detector_spec _ _ s loc_id Hsd) as (Hnone & _).
    destruct (sightings_of s loc_id (List.concat main_file)) as [|r rows] eqn:Hrows.
    + assert (Hlookup : detection_lookup s loc_id sd = None) by (by apply Hnone).
      unfold detection_lookup in Hlookup. rewrite Hitems, dict_get_cons in Hlookup.
      by rewrite decide_True in Hlookup.
    + assert (Hr : In r (sightings_of s loc_id (List.concat main_file)))
        by (rewrite Hrows; by left).
      unfold sightings_of in Hr. apply List.filter_In in Hr as [Hin Hq].
      apply andb_true_iff in Hq as [Hq _]. apply andb_true_iff in Hq as [Hmask Hname].
      apply String.eqb_eq in Hname. by exists r.
  - intros (r & Hin & Hmask & Hname).
    destruct (detector_spec _ _ s (SpeciesDetector.LOCALITY_ID r) Hsd) as (Hnone & _).
    destruct (dict_get s sd) as [items|] eqn:Hitems; [by eexists|].
    assert (Hlookup : detection_lookup s (SpeciesDetector.LOCALITY_ID r) sd = None)
      by (unfold detection_lookup; by rewrite Hitems).
    apply Hnone in Hlookup.
    assert (Hr : In r (sightings_of s (SpeciesDetector.LOCALITY_ID r)
                         (List.concat main_file))).
    { unfold sightings_of. apply List.filter_In. split; [done|].
      rewrite Hmask, (proj2 (String.eqb_eq _ _) Hname), String.eqb_refl. done. }
    by rewrite Hlookup in Hr.
Qed.

Lemma py_sum_le {A : Type} (f g : A → Z) (l : list A) :
  (∀ a, In a l → 0 ≤ f a ≤ g a) →
  0 ≤ OccurrenceCalculator.py_sum (f <$> l) ≤ OccurrenceCalculator.py_sum (g <$> l).
Proof.
  induction l as [|a l IH]; intros Hle; [done|].
  rewrite !fmap_cons, !py_sum_cons.
  pose proof (Hle a ltac:(by left)).
  assert (0 ≤ OccurrenceCalculator.py_sum (f <$> l) ≤ OccurrenceCalculator.py_sum (g <$> l))
    by (apply IH; intros b Hb; apply Hle; by right).
  lia.
Qed.

Lemma SEASONS_months_range (season : string) (ms : list Z) (m : Z) :
  In (season, ms) OccurrenceCalculator.SEASONS → In m ms → 1 ≤ m ≤ 12.
Proof.
  cbn. intros [Heq|[Heq|[Heq|[Heq|[]]]]] Hm; injection Heq as _ <-; cbn in Hm; lia.
Qed.

(** X26.  When every qualifying row of the main file has a qualifying row
    of the sampling file with the same location, the same checklist
    identifier and a date of the same month, every monthly rate and every
    seasonal rate of every entry lies in [0, 1]. *)
Theorem periodic_rates_within_unit_on_consistent_files
    (sampling_file : list (list ChecklistCounter.row))
    (main_file : list (list SpeciesDetector.row))
    (guides : dict string OccurrenceCalculator.SpeciesGuide)
    (s : string) (g : OccurrenceCalculator.SpeciesGuide)
    (e : OccurrenceCalculator.SpeciesAtHotspot) :
  (∀ r, In r (List.concat main_file) → SpeciesDetector.mask r = true →
     ∃ v, In v (List.concat sampling_file)
          ∧ ChecklistCounter.mask v = true
          ∧ ChecklistCounter.LOCALITY_ID v = SpeciesDetector.LOCALITY_ID r
          ∧ ChecklistCounter.SAMPLING_EVENT_IDENTIFIER v
            = SpeciesDetector.SAMPLING_EVENT_IDENTIFIER r
          ∧ month_of (ChecklistCounter.OBSERVATION_DATE v)
            = month_of (SpeciesDetector.OBSERVATION_DATE r)) →
  Main.species_guides sampling_file main_file = Ok guides →
  dict_get s guides = Some g →
  In e (OccurrenceCalculator.hotspots g) →
  (∀ m rate, dict_get m (OccurrenceCalculator.monthly_rates e) = Some rate →
     (0 <= float_to_Q rate <= 1)%Q)
  ∧ (∀ season rate, dict_get season (OccurrenceCalculator.seasonal_rates e) = Some rate →
       (0 <= float_to_Q rate <= 1)%Q).
Proof.
  intros Hfiles Hrun Hg He.
  destruct (main_entry_origin _ _ _ _ _ _ Hrun Hg He)
    as (h & d & Hmake & _ & _ & Hvisits & _ & _ & Hids).
  destruct (make_entry_Ok _ _ _ _ Hmake) as (_ & _ & _ & _ & Hseasons & Hmonths & _).
  set (loc_id := OccurrenceCalculator.locality_id e) in *.
  assert (Hle : ∀ m, 1 ≤ m ≤ 12 →
            0 ≤ Z.of_nat (size (month_ids d m)) ≤ month_checklists h m).
  { intros m Hm. split; [lia|]. rewrite (Hvisits m Hm), (Hids m Hm). apply Nat2Z.inj_le.
    trans (size (list_to_set
                   (ChecklistCounter.SAMPLING_EVENT_IDENTIFIER
                      <$> List.filter
                            (fun r => in_month m (ChecklistCounter.OBSERVATION_DATE r))
                            (visits_at loc_id (List.concat sampling_file)))
                   : gset string)).
    - apply subseteq_size. intros x Hx.
      apply elem_of_list_to_set, list_elem_of_fmap in Hx as (r & -> & Hr).
      apply list_elem_of_In, List.filter_In in Hr as [Hr Hmonth].
      unfold sightings_of in Hr. apply List.filter_In in Hr as [Hin Hq].
      apply andb_true_iff in Hq as [Hq Hloc]. apply andb_true_iff in Hq as [Hmask _].
      apply String.eqb_eq in Hloc.
      destruct (Hfiles r Hin Hmask) as (v & Hv & Hvmask & Hvloc & Hvid & Hvdate).
      apply elem_of_list_to_set, list_elem_of_fmap. exists v. split; [done|].
      apply list_elem_of_In, List.filter_In. split.
      + unfold visits_at. apply List.filter_In. split; [done|].
        apply andb_true_iff. split; [done|]. apply String.eqb_eq. congruence.
      + unfold in_month in *. by rewrite Hvdate.
    - etrans; [apply size_list_to_set_le|]. by rewrite length_fmap. }
  split.
  - intros m rate Hrate.
    destruct (add_monthly_rate_loop _ _ _ _ _ months_NoDup Hmonths m) as [Hout Hin].
    destruct (decide (1 ≤ m ≤ 12)) as [Hm|Hm];
      [|rewrite Hout in Hrate by (by rewrite months_In); done].
    destruct (Hin (proj2 (months_In m) Hm)) as [Hyes Hno].
    destruct (Z.le_gt_cases 3 (month_checklists h m)) as [Hthree|Hlow];
      [|rewrite (Hno Hlow) in Hrate; done].
    destruct (Hyes Hthree) as (q & Hq & Hrate'). rewrite Hrate' in Hrate.
    injection Hrate as <-. apply py_round_unit; [done|].
    apply (true_div_unit _ _ _ (Hle m Hm) Hq).
  - intros season rate Hrate.
    destruct (add_seasonal_rate_loop _ _ _ _ _ SEASONS_NoDup Hseasons season) as [Hout Hin].
    destruct (dict_get season OccurrenceCalculator.SEASONS) as [ms|] eqn:Hms.
    + apply dict_get_In in Hms. destruct (Hin ms Hms) as [Hyes Hno].
      destruct (Z.le_gt_cases 5 (OccurrenceCalculator.checklists_in h ms)) as [Hfive|Hlow];
        [|rewrite (Hno Hlow) in Hrate; done].
      destruct (Hyes Hfive) as (q & Hq & Hrate'). rewrite Hrate' in Hrate.
      injection Hrate as <-. apply py_round_unit; [done|].
      apply (true_div_unit _ _ _ ltac:(
               apply (py_sum_le (fun m => Z.of_nat (size (month_ids d m)))
                        (month_checklists h) ms);
               intros m Hm; apply Hle; by apply (SEASONS_months_range season ms)) Hq).
    + rewrite Hout in Hrate; [done|].
      intros Hkey. apply (dict_get_keys (V := list Z)) in Hkey as [ms' Hms'].
      by rewrite Hms in Hms'.
Qed.

(** ** The further properties on the sample files *)

Lemma sample_counter_run :
  ChecklistCounter.count_checklists_per_hotspot sample_sampling = Ok sample_hotspots.
Proof. vm_compute. reflexivity. Defined.

Lemma sample_detector_run :
  SpeciesDetector.count_species_detections sample_observations = Ok sample_detections.
Proof. vm_compute. reflexivity. Defined.

Lemma sample_main_run :
  Main.species_guides sample_sampling sample_observations = Ok sample_guides.
Proof. vm_compute. reflexivity. Defined.

Lemma sample_L1 : dict_get "L1" sample_hotspots = Some L1_record.
Proof. vm_compute. reflexivity. Defined.

Lemma sample_sora_L3 :
  detection_lookup "Sora" "L3" sample_detections
  = Some (detection_at "Sora" "L3" sample_detections).
Proof. vm_compute. reflexivity. Defined.

Lemma sample_sora_locations : dict_get "Sora" sample_detections = Some sora_locations.
Proof. vm_compute. reflexivity. Defined.

(** Every record of the sample observations is on a checklist of the
    sample sampling file, at the same location and of the same month. *)
Lemma sample_files_agree (r : SpeciesDetector.row) :
  In r (List.concat sample_observations) → SpeciesDetector.mask r = true →
  ∃ v, In v (List.concat sample_sampling)
       ∧ ChecklistCounter.mask v = true
       ∧ ChecklistCounter.LOCALITY_ID v = SpeciesDetector.LOCALITY_ID r
       ∧ ChecklistCounter.SAMPLING_EVENT_IDENTIFIER v
         = SpeciesDetector.SAMPLING_EVENT_IDENTIFIER r
       ∧ month_of (ChecklistCounter.OBSERVATION_DATE v)
         = month_of (SpeciesDetector.OBSERVATION_DATE r).
Proof.
  intros Hin _.
  exists (visit (SpeciesDetector.LOCALITY_ID r) (SpeciesDetector.SAMPLING_EVENT_IDENTIFIER r)
            (match SpeciesDetector.OBSERVATION_DATE r with
             | Timestamp _ m _ => m
             | Unparsable _ => 0
             end)).
  vm_compute in Hin.
  repeat (destruct Hin as [<-|Hin];
          [split; [vm_compute; repeat (first [left; reflexivity | right])
                  | repeat split]|]).
  destruct Hin.
Defined.

Lemma visits_are_counted_by_row_witness :
  ChecklistCounter.count_checklists_per_hotspot sample_sampling = Ok sample_hotspots
  ∧ dict_get "L1" sample_hotspots = Some L1_record
  ∧ total_checklists L1_record
    = Z.of_nat (List.length (visits_at "L1" (List.concat sample_sampling))).
Proof.
  split; [exact sample_counter_run|]. split; [exact sample_L1|].
  exact (proj2 (visits_are_counted_by_row sample_sampling sample_hotspots "L1"
                  sample_counter_run) L1_record sample_L1).
Defined.

Lemma monthly_visits_are_counted_by_row_witness :
  ChecklistCounter.count_checklists_per_hotspot sample_sampling = Ok sample_hotspots
  ∧ dict_get "L1" sample_hotspots = Some L1_record
  ∧ monthly_checklists L1_record !! 1
    = Some (Z.of_nat
              (List.length
                 (List.filter (fun r => in_month 1 (ChecklistCounter.OBSERVATION_DATE r))
                    (visits_at "L1" (List.concat sample_sampling))))).
Proof.
  split; [exact sample_counter_run|]. split; [exact sample_L1|].
  exact (monthly_visits_are_counted_by_row sample_sampling sample_hotspots "L1"
           L1_record 1 sample_counter_run sample_L1).
Defined.

Lemma hotspot_metadata_from_first_visit_witness :
  ChecklistCounter.count_checklists_per_hotspot sample_sampling = Ok sample_hotspots
  ∧ dict_get "L1" sample_hotspots = Some L1_record
  ∧ ∃ r rest,
      visits_at "L1" (List.concat sample_sampling) = r :: rest
      ∧ name L1_record = ChecklistCounter.LOCALITY r
      ∧ latitude L1_record = ChecklistCounter.LATITUDE r
      ∧ longitude L1_record = ChecklistCounter.LONGITUDE r.
Proof.
  split; [exact sample_counter_run|]. split; [exact sample_L1|].
  exact (hotspot_metadata_from_first_visit sample_sampling sample_hotspots "L1"
           L1_record sample_counter_run sample_L1).
Defined.

Lemma detections_are_distinct_visits_witness :
  SpeciesDetector.count_species_detections sample_observations = Ok sample_detections
  ∧ checklist_ids (detection_at "Sora" "L3" sample_detections)
    = list_to_set (SpeciesDetector.SAMPLING_EVENT_IDENTIFIER
                     <$> sightings_of "Sora" "L3" (List.concat sample_observations)).
Proof.
  split; [exact sample_detector_run|].
  exact (proj1 (proj2 (detections_are_distinct_visits sample_observations
                         sample_detections "Sora" "L3" sample_detector_run))).
Defined.

Lemma monthly_detections_are_filed_by_month_witness :
  SpeciesDetector.count_species_detections sample_observations = Ok sample_detections
  ∧ detection_lookup "Sora" "L3" sample_detections
    = Some (detection_at "Sora" "L3" sample_detections)
  ∧ monthly_checklist_ids (detection_at "Sora" "L3" sample_detections) !! 3
    = Some (list_to_set
              (SpeciesDetector.SAMPLING_EVENT_IDENTIFIER
                 <$> List.filter
                       (fun r => in_month 3 (SpeciesDetector.OBSERVATION_DATE r))
                       (sightings_of "Sora" "L3" (List.concat sample_observations)))).
Proof.
  split; [exact sample_detector_run|]. split; [exact sample_sora_L3|].
  exact (monthly_detections_are_filed_by_month sample_observations sample_detections
           "Sora" "L3" _ 3 sample_detector_run sample_sora_L3).
Defined.

Lemma detection_set_is_union_of_monthly_sets_witness :
  SpeciesDetector.count_species_detections sample_observations = Ok sample_detections
  ∧ detection_lookup "Sora" "L3" sample_detections
    = Some (detection_at "Sora" "L3" sample_detections)
  ∧ checklist_ids (detection_at "Sora" "L3" sample_detections)
    = season_ids (detection_at "Sora" "L3" sample_detections) months.
Proof.
  split; [exact sample_detector_run|]. split; [exact sample_sora_L3|].
  exact (proj1 (detection_set_is_union_of_monthly_sets sample_observations
                  sample_detections "Sora" "L3" _ sample_detector_run sample_sora_L3)).
Defined.


Lemma scientific_name_of_last_row_witness :
  SpeciesDetector.count_species_detections sample_observations = Ok sample_detections
  ∧ detection_lookup "Sora" "L3" sample_detections
    = Some (detection_at "Sora" "L3" sample_detections)
  ∧ ∃ before r,
      sightings_of "Sora" "L3" (List.concat sample_observations) = (before ++ [r])%list
      ∧ scientific_name (detection_at "Sora" "L3" sample_detections)
        = Some (SpeciesDetector.SCIENTIFIC_NAME r).
Proof.
  split; [exact sample_detector_run|]. split; [exact sample_sora_L3|].
  exact (scientific_name_of_last_row sample_observations sample_detections
           "Sora" "L3" _ sample_detector_run sample_sora_L3).
Defined.

Lemma monthly_rates_of_entry_witness :
  OccurrenceCalculator.calculate_occurrence_rates sample_hotspots sample_detections
    OccurrenceCalculator.MIN_CHECKLISTS_THRESHOLD = Ok sample_guides
  ∧ dict_get "Sora" sample_guides = Some sora_guide
  ∧ In sora_at_L3 (OccurrenceCalculator.hotspots sora_guide)
  ∧ is_Some (dict_get 3 (OccurrenceCalculator.monthly_rates sora_at_L3))
  ∧ dict_get 4 (OccurrenceCalculator.monthly_rates sora_at_L3) = None.
Proof.
  split; [exact sample_run|]. split; [reflexivity|].
  split; [right; left; reflexivity|].
  destruct (monthly_rates_of_entry sample_hotspots sample_detections
              OccurrenceCalculator.MIN_CHECKLISTS_THRESHOLD sample_guides "Sora"
              sora_guide sora_at_L3 sample_run eq_refl (or_intror (or_introl eq_refl)))
    as (items & h & d & _ & _ & Hh & Hmonths).
  vm_compute in Hh. injection Hh as <-. split.
  - destruct (Hmonths 3) as [Hyes _].
    destruct Hyes as (q & _ & Hrate); [lia | vm_compute; discriminate|].
    rewrite Hrate. by eexists.
  - destruct (Hmonths 4) as [_ Hno]. apply Hno. left. vm_compute. reflexivity.
Defined.

Lemma average_and_maximum_count_of_entry_witness :
  OccurrenceCalculator.calculate_occurrence_rates sample_hotspots sample_detections
    OccurrenceCalculator.MIN_CHECKLISTS_THRESHOLD = Ok sample_guides
  ∧ dict_get "Sora" sample_guides = Some sora_guide
  ∧ In sora_at_L3 (OccurrenceCalculator.hotspots sora_guide)
  ∧ ∀ c, OccurrenceCalculator.max_count sora_at_L3 = Some c → 0 < c.
Proof.
  split; [exact sample_run|]. split; [reflexivity|].
  split; [right; left; reflexivity|].
  destruct (average_and_maximum_count_of_entry sample_hotspots sample_detections
              OccurrenceCalculator.MIN_CHECKLISTS_THRESHOLD sample_guides "Sora"
              sora_guide sora_at_L3 sample_run eq_refl (or_intror (or_introl eq_refl)))
    as (items & d & _ & _ & _ & _ & _ & _ & Hmax).
  exact Hmax.
Defined.

Lemma entry_metadata_and_confidence_witness :
  OccurrenceCalculator.calculate_occurrence_rates sample_hotspots sample_detections
    OccurrenceCalculator.MIN_CHECKLISTS_THRESHOLD = Ok sample_guides
  ∧ dict_get "Sora" sample_guides = Some sora_guide
  ∧ In sora_at_L1 (OccurrenceCalculator.hotspots sora_guide)
  ∧ (OccurrenceCalculator.confidence_level sora_at_L1 = "low"
     ↔ OccurrenceCalculator.total_checklists sora_at_L1 < 30).
Proof.
  split; [exact sample_run|]. split; [reflexivity|]. split; [left; reflexivity|].
  exact (proj2 (proj2 (proj2
           (entry_metadata_and_confidence sample_hotspots sample_detections
              OccurrenceCalculator.MIN_CHECKLISTS_THRESHOLD sample_guides "Sora"
              sora_guide sora_at_L1 sample_run eq_refl (or_introl eq_refl))))).
Defined.

Lemma guide_totals_are_those_of_its_entries_witness :
  OccurrenceCalculator.calculate_occurrence_rates sample_hotspots sample_detections
    OccurrenceCalculator.MIN_CHECKLISTS_THRESHOLD = Ok sample_guides
  ∧ dict_get "Sora" sample_guides = Some sora_guide
  ∧ OccurrenceCalculator.total_detections sora_guide
    = OccurrenceCalculator.py_sum
        (OccurrenceCalculator.detection_count <$> OccurrenceCalculator.hotspots sora_guide)
  ∧ OccurrenceCalculator.total_hotspots_detected sora_guide
    = Z.of_nat (List.length (OccurrenceCalculator.hotspots sora_guide))
  ∧ 0 ≤ OccurrenceCalculator.total_detections sora_guide.
Proof.
  split; [exact sample_run|]. split; [reflexivity|].
  exact (guide_totals_are_those_of_its_entries sample_hotspots sample_detections
           OccurrenceCalculator.MIN_CHECKLISTS_THRESHOLD sample_guides "Sora"
           sora_guide sample_run eq_refl).
Defined.

Lemma passing_locations_are_listed_witness :
  NoDup (dict_keys sample_detections)
  ∧ OccurrenceCalculator.calculate_occurrence_rates sample_hotspots sample_detections
      OccurrenceCalculator.MIN_CHECKLISTS_THRESHOLD = Ok sample_guides
  ∧ dict_get "Sora" sample_detections = Some sora_locations
  ∧ ∃ g, dict_get "Sora" sample_guides = Some g
         ∧ List.length (OccurrenceCalculator.hotspots g) = 2%nat.
Proof.
  split; [exact sample_detections_NoDup|]. split; [exact sample_run|].
  split; [exact sample_sora_locations|].
  destruct (passing_locations_are_listed sample_hotspots sample_detections
              OccurrenceCalculator.MIN_CHECKLISTS_THRESHOLD sample_guides "Sora"
              sora_locations sample_detections_NoDup sample_run sample_sora_locations)
    as (g & Hg & Hlen & _).
  exists g. split; [exact Hg|]. rewrite Hlen. vm_compute. reflexivity.
Defined.

Lemma guides_follow_the_species_witness :
  NoDup (dict_keys sample_detections)
  ∧ OccurrenceCalculator.calculate_occurrence_rates sample_hotspots sample_detections
      OccurrenceCalculator.MIN_CHECKLISTS_THRESHOLD = Ok sample_guides
  ∧ dict_keys sample_guides = dict_keys sample_detections.
Proof.
  split; [exact sample_detections_NoDup|]. split; [exact sample_run|].
  exact (proj1 (guides_follow_the_species sample_hotspots sample_detections
                  OccurrenceCalculator.MIN_CHECKLISTS_THRESHOLD sample_guides
                  sample_detections_NoDup sample_run)).
Defined.

Lemma equal_keys_keep_iteration_order_witness :
  NoDup (dict_keys sample_detections)
  ∧ OccurrenceCalculator.calculate_occurrence_rates sample_hotspots sample_detections
      OccurrenceCalculator.MIN_CHECKLISTS_THRESHOLD = Ok sample_guides
  ∧ dict_get "Sora" sample_detections = Some sora_locations
  ∧ ∃ g entries,
      dict_get "Sora" sample_guides = Some g
      ∧ Forall2 (fun x e =>
                   OccurrenceCalculator.make_entry (fst (fst x)) (snd (fst x)) (snd x)
                   = Ok e)
          (included sample_hotspots OccurrenceCalculator.MIN_CHECKLISTS_THRESHOLD
             sora_locations) entries
      ∧ ∀ k, List.filter (same_key k) (OccurrenceCalculator.hotspots g)
             = List.filter (same_key k) entries.
Proof.
  split; [exact sample_detections_NoDup|]. split; [exact sample_run|].
  split; [exact sample_sora_locations|].
  exact (equal_keys_keep_iteration_order sample_hotspots sample_detections
           OccurrenceCalculator.MIN_CHECKLISTS_THRESHOLD sample_guides "Sora"
           sora_locations sample_detections_NoDup sample_run sample_sora_locations).
Defined.

Lemma entry_counts_are_row_counts_witness :
  Main.species_guides sample_sampling sample_observations = Ok sample_guides
  ∧ dict_get "Sora" sample_guides = Some sora_guide
  ∧ In sora_at_L1 (OccurrenceCalculator.hotspots sora_guide)
  ∧ OccurrenceCalculator.total_checklists sora_at_L1
    = Z.of_nat (List.length (visits_at "L1" (List.concat sample_sampling)))
  ∧ 10 ≤ OccurrenceCalculator.total_checklists sora_at_L1
  ∧ OccurrenceCalculator.detection_count sora_at_L1
    = Z.of_nat (size (list_to_set
                        (SpeciesDetector.SAMPLING_EVENT_IDENTIFIER
                           <$> sightings_of "Sora" "L1" (List.concat sample_observations))
                        : gset string))
  ∧ 1 ≤ OccurrenceCalculator.detection_count sora_at_L1.
Proof.
  split; [exact sample_main_run|]. split; [reflexivity|]. split; [left; reflexivity|].
  exact (entry_counts_are_row_counts sample_sampling sample_observations sample_guides
           "Sora" sora_guide sora_at_L1 sample_main_run eq_refl (or_introl eq_refl)).
Defined.

Lemma rates_within_unit_on_consistent_files_witness :
  Main.species_guides sample_sampling sample_observations = Ok sample_guides
  ∧ dict_get "Sora" sample_guides = Some sora_guide
  ∧ In sora_at_L1 (OccurrenceCalculator.hotspots sora_guide)
  ∧ OccurrenceCalculator.detection_count sora_at_L1
    ≤ OccurrenceCalculator.total_checklists sora_at_L1
  ∧ (0 <= float_to_Q (OccurrenceCalculator.occurrence_rate sora_at_L1) <= 1)%Q.
Proof.
  split; [exact sample_main_run|]. split; [reflexivity|]. split; [left; reflexivity|].
  apply (rates_within_unit_on_consistent_files sample_sampling sample_observations
           sample_guides "Sora" sora_guide sora_at_L1);
    [|exact sample_main_run | reflexivity | left; reflexivity].
  intros r Hin Hmask.
  destruct (sample_files_agree r Hin Hmask) as (v & Hv & Hvmask & Hloc & Hid & _).
  exists v. repeat split; assumption.
Defined.

Lemma guide_for_every_reported_species_witness :
  Main.species_guides sample_sampling sample_observations = Ok sample_guides
  ∧ (is_Some (dict_get "King Rail" sample_guides)
     ↔ ∃ r, In r (List.concat sample_observations)
            ∧ SpeciesDetector.mask r = true
            ∧ SpeciesDetector.COMMON_NAME r = "King Rail").
Proof.
  split; [exact sample_main_run|].
  exact (guide_for_every_reported_species sample_sampling sample_observations
           sample_guides "King Rail" sample_main_run).
Defined.

Lemma periodic_rates_within_unit_on_consistent_files_witness :
  Main.species_guides sample_sampling sample_observations = Ok sample_guides
  ∧ dict_get "Sora" sample_guides = Some sora_guide
  ∧ In sora_at_L3 (OccurrenceCalculator.hotspots sora_guide)
  ∧ dict_get "spring" (OccurrenceCalculator.seasonal_rates sora_at_L3)
    = Some (float_of_ratio 2000 10000)
  ∧ (0 <= float_to_Q (float_of_ratio 2000 10000) <= 1)%Q.
Proof.
  split; [exact sample_main_run|]. split; [reflexivity|].
  split; [right; left; reflexivity|]. split; [reflexivity|].
  destruct (periodic_rates_within_unit_on_consistent_files sample_sampling
              sample_observations sample_guides "Sora" sora_guide sora_at_L3
              sample_files_agree sample_main_run eq_refl (or_intror (or_introl eq_refl)))
    as [_ Hseasonal].
  exact (Hseasonal "spring" (float_of_ratio 2000 10000) eq_refl).
Defined.

Example find_ebird_files_sample_dir :
  Config.find_ebird_files sample_dir
  = inr ("ebd_US-MI_relJan-2025.txt", "ebd_US-MI_relJan-2025_sampling.txt").
Proof. reflexivity. Qed.

Example find_ebird_files_crowded_dir :
  Config.find_ebird_files crowded_dir
  = inl (Config.Multiple_sampling_files
           ["ebd_US-MI_relJan-2025_sampling.txt"; "copy_sampling.txt"]).
Proof. reflexivity. Qed.
